(** * Personal finance manager (personal.py): ledger, budgets and reports

    A shallow embedding of the interactive program [personal.py].  The
    program talks to the user through [input] and [print] and keeps its data
    in an SQLite file with the tables [transactions] and [budgets]; here the
    tables are lists of rows in rowid order, the console is a pair of line
    lists, and every procedure of the program is a computation in a small
    state-and-exception monad over that world.

    Amounts are Python floats, that is IEEE 754 binary64 numbers: they are
    the primitive floats of the Standard Library.  The text conversions of
    floats ([float], [str], [format]) are built-ins of the Python runtime and
    are taken as an interface ([PyFloatText]).  So is the aggregate [SUM] of
    the database ([SqliteSum]): the releases of SQLite do not round a sum of
    floats alike. *)

From Stdlib Require Import ZArith List String Ascii Bool Lia Sorted.
From Stdlib Require Import DecimalString Floats.
Import ListNotations.

Local Open Scope string_scope.
Local Open Scope Z_scope.

(** ** Python strings

    Characters are code points below 256. *)

Module PyStr.

(** [str.isspace] on one character, for the code points below 256. *)
Definition isspace (c : ascii) : bool :=
  let n := Z.of_nat (nat_of_ascii c) in
  ((9 <=? n) && (n <=? 13)) || ((28 <=? n) && (n <=? 32))
  || (n =? 133) || (n =? 160).

Fixpoint lstrip (s : string) : string :=
  match s with
  | String c s' => if isspace c then lstrip s' else s
  | EmptyString => EmptyString
  end.

(** Drops the trailing whitespace: the tail is cleaned first, and a
    whitespace character is dropped when nothing is left after it. *)
Fixpoint rstrip (s : string) : string :=
  match s with
  | String c s' =>
      match rstrip s' with
      | EmptyString => if isspace c then EmptyString else String c EmptyString
      | r => String c r
      end
  | EmptyString => EmptyString
  end.

(** [s.strip()] *)
Definition strip (s : string) : string := rstrip (lstrip s).

(** [c.lower()]: the upper-case letters below 256 are A-Z and the Latin-1
    capitals 192-222 without the multiplication sign (215). *)
Definition lower_char (c : ascii) : ascii :=
  let n := Z.of_nat (nat_of_ascii c) in
  if ((65 <=? n) && (n <=? 90))
     || ((192 <=? n) && (n <=? 222) && negb (n =? 215))
  then ascii_of_nat (Z.to_nat (n + 32)) else c.

(** [s.lower()] *)
Fixpoint lower (s : string) : string :=
  match s with
  | String c s' => String (lower_char c) (lower s')
  | EmptyString => EmptyString
  end.

Definition upper_char (c : ascii) : ascii :=
  let n := Z.of_nat (nat_of_ascii c) in
  if (97 <=? n) && (n <=? 122) then ascii_of_nat (Z.to_nat (n - 32)) else c.

(** [s.capitalize()], for ASCII text: the program applies it to the
    transaction type and to the report period only. *)
Definition capitalize (s : string) : string :=
  match s with
  | String c s' => String (upper_char c) (lower s')
  | EmptyString => EmptyString
  end.

(** Truth value of a string: [not s] holds of the empty string only. *)
Definition is_empty (s : string) : bool :=
  match s with EmptyString => true | _ => false end.

(** [x in [a, b, ...]] for strings. *)
Definition mem (x : string) (l : list string) : bool :=
  existsb (String.eqb x) l.

(** [c * n] for a one-character string. *)
Fixpoint repeat_char (c : ascii) (n : nat) : string :=
  match n with
  | O => EmptyString
  | S n' => String c (repeat_char c n')
  end.

(** The format specification [:<w]: left-justified in [w] columns. *)
Definition ljust (w : nat) (s : string) : string :=
  s ++ repeat_char " " (w - String.length s).

(** [str(n)] for an integer. *)
Definition str_of_int (n : Z) : string :=
  NilZero.string_of_int (Z.to_int n).

(** The line feed of the literals that start with a backslash-n. *)
Definition nl : string := String (ascii_of_nat 10) EmptyString.

Definition is_digit (c : ascii) : bool :=
  let n := Z.of_nat (nat_of_ascii c) in (48 <=? n) && (n <=? 57).

Definition digit_val (c : ascii) : Z := Z.of_nat (nat_of_ascii c) - 48.

(** The digits of an integer literal: decimal digits, with single
    underscores allowed between two digits.  [prev] tells whether the
    previous character was a digit. *)
Fixpoint int_digits (s : string) (acc : Z) (prev : bool) : option Z :=
  match s with
  | EmptyString => if prev then Some acc else None
  | String c s' =>
      if is_digit c then int_digits s' (10 * acc + digit_val c) true
      else if (Ascii.eqb c "_") && prev then int_digits s' acc false
      else None
  end.

(** [int(s)]: [None] stands for [ValueError]. *)
Definition int_of_str (s : string) : option Z :=
  match strip s with
  | String "+" r => int_digits r 0 false
  | String "-" r => option_map Z.opp (int_digits r 0 false)
  | r => int_digits r 0 false
  end.

(** [%0wd] for a non-negative number. *)
Definition zero_pad (w : nat) (n : Z) : string :=
  let s := str_of_int n in
  repeat_char "0" (w - String.length s) ++ s.

End PyStr.

Import PyStr.

(** ** Calendar dates *)

Module PyDate.

Definition date : Type := (Z * Z * Z)%type.

Definition is_leap (y : Z) : bool :=
  (y mod 4 =? 0) && (negb (y mod 100 =? 0) || (y mod 400 =? 0)).

Definition days_in_month (y m : Z) : Z :=
  if m =? 2 then (if is_leap y then 29 else 28)
  else if (m =? 4) || (m =? 6) || (m =? 9) || (m =? 11) then 30
  else 31.

(** The dates [datetime.date] can hold: years 1 to 9999. *)
Definition valid_date (d : date) : bool :=
  let '(y, m, dd) := d in
  (1 <=? y) && (y <=? 9999) && (1 <=? m) && (m <=? 12)
  && (1 <=? dd) && (dd <=? days_in_month y m).

(** [d.isoformat()] *)
Definition isoformat (d : date) : string :=
  let '(y, m, dd) := d in
  zero_pad 4 y ++ "-" ++ zero_pad 2 m ++ "-" ++ zero_pad 2 dd.

(** [d.strftime('%Y-%m')] and [d.strftime('%Y')], for the years from 1000
    on (the C library decides whether an earlier year is padded). *)
Definition strftime_Ym (d : date) : string :=
  let '(y, m, _) := d in zero_pad 4 y ++ "-" ++ zero_pad 2 m.

Definition strftime_Y (d : date) : string :=
  let '(y, _, _) := d in zero_pad 4 y.

Definition in_range (lo hi : ascii) (c : ascii) : bool :=
  (nat_of_ascii lo <=? nat_of_ascii c)%nat
  && (nat_of_ascii c <=? nat_of_ascii hi)%nat.

(** The alternatives of the directive [%m], in the order the pattern
    [1[0-2]|0[1-9]|[1-9]] tries them; each gives the month read and the
    text left. *)
Definition month_alternatives (s : string) : list (Z * string) :=
  (match s with
   | String "1" (String c r) =>
       if in_range "0" "2" c then [(10 + digit_val c, r)] else []
   | _ => []
   end ++
   match s with
   | String "0" (String c r) =>
       if in_range "1" "9" c then [(digit_val c, r)] else []
   | _ => []
   end ++
   match s with
   | String c r => if in_range "1" "9" c then [(digit_val c, r)] else []
   | _ => []
   end)%list.

(** The alternatives of [%d], pattern
    [3[0-1]|[1-2]\d|0[1-9]|[1-9]| [1-9]]. *)
Definition day_alternatives (s : string) : list (Z * string) :=
  (match s with
   | String "3" (String c r) =>
       if in_range "0" "1" c then [(30 + digit_val c, r)] else []
   | _ => []
   end ++
   match s with
   | String a (String c r) =>
       if in_range "1" "2" a && is_digit c
       then [(10 * digit_val a + digit_val c, r)] else []
   | _ => []
   end ++
   match s with
   | String "0" (String c r) =>
       if in_range "1" "9" c then [(digit_val c, r)] else []
   | _ => []
   end ++
   match s with
   | String c r => if in_range "1" "9" c then [(digit_val c, r)] else []
   | _ => []
   end ++
   match s with
   | String " " (String c r) =>
       if in_range "1" "9" c then [(digit_val c, r)] else []
   | _ => []
   end)%list.

(** The first alternative whose continuation succeeds (backtracking). *)
Fixpoint first_match {A B : Type} (alts : list A) (k : A -> option B)
  : option B :=
  match alts with
  | [] => None
  | a :: rest =>
      match k a with
      | Some b => Some b
      | None => first_match rest k
      end
  end.

(** The match of the pattern of ['%Y-%m-%d'] at the start of the text:
    four digits, a dash, a month, a dash, a day.  The result is the date
    read and the text the match did not use. *)
Definition match_Ymd (s : string) : option (date * string) :=
  match s with
  | String y1 (String y2 (String y3 (String y4 (String "-" r)))) =>
      if is_digit y1 && is_digit y2 && is_digit y3 && is_digit y4 then
        let y := 1000 * digit_val y1 + 100 * digit_val y2
                 + 10 * digit_val y3 + digit_val y4 in
        first_match (month_alternatives r) (fun '(m, r1) =>
          match r1 with
          | String "-" r2 =>
              match day_alternatives r2 with
              | (d, r3) :: _ => Some ((y, m, d), r3)
              | [] => None
              end
          | _ => None
          end)
      else None
  | _ => None
  end.

(** [datetime.datetime.strptime(s, '%Y-%m-%d')]: the date read, or [None]
    for [ValueError] (no match, text left over after the match, or a day
    that the month does not have). *)
Definition strptime (s : string) : option date :=
  match match_Ymd s with
  | Some (d, EmptyString) => if valid_date d then Some d else None
  | _ => None
  end.

Definition strptime_ok (s : string) : bool :=
  match strptime s with Some _ => true | None => false end.

(** Chronological order of two dates. *)
Definition date_leb (a b : date) : bool :=
  let '(y1, m1, d1) := a in
  let '(y2, m2, d2) := b in
  (y1 <? y2) || ((y1 =? y2) && ((m1 <? m2) || ((m1 =? m2) && (d1 <=? d2)))).

End PyDate.

Import PyDate.

(** ** The date functions of SQLite *)

Module Sqlite.

(** The date a date-only text ['YYYY-MM-DD'] denotes for SQLite: exactly
    four, two and two digits, a month from 1 to 12 and a day from 1 to 31;
    a day past the end of the month runs over into the next month (so the
    later releases; the earlier ones keep the month as written).  Any
    other text is no date ([NULL]).  SQLite also reads a time of day after
    the date, ['now'] and Julian day numbers.  No text of these kinds, and
    no day past the end of its month, passes the date check of the program:
    they are not met in a store the program has written. *)
Definition date_of_text (s : string) : option date :=
  match s with
  | String y1 (String y2 (String y3 (String y4 (String "-"
      (String m1 (String m2 (String "-"
        (String d1 (String d2 EmptyString))))))))) =>
      if is_digit y1 && is_digit y2 && is_digit y3 && is_digit y4
         && is_digit m1 && is_digit m2 && is_digit d1 && is_digit d2 then
        let y := 1000 * digit_val y1 + 100 * digit_val y2
                 + 10 * digit_val y3 + digit_val y4 in
        let m := 10 * digit_val m1 + digit_val m2 in
        let d := 10 * digit_val d1 + digit_val d2 in
        if (1 <=? m) && (m <=? 12) && (1 <=? d) && (d <=? 31) then
          if d <=? days_in_month y m then Some (y, m, d)
          else if m =? 12 then Some (y + 1, 1, d - days_in_month y m)
          else Some (y, m + 1, d - days_in_month y m)
        else None
      else None
  | _ => None
  end.

(** [strftime('%Y-%m', date)] and [strftime('%Y', date)] *)
Definition strftime_Ym (s : string) : option string :=
  option_map PyDate.strftime_Ym (date_of_text s).

Definition strftime_Y (s : string) : option string :=
  option_map PyDate.strftime_Y (date_of_text s).

(** [lhs = rhs] in a WHERE clause, with a left side that may be NULL:
    NULL is equal to nothing. *)
Definition null_eqb (lhs : option string) (rhs : string) : bool :=
  match lhs with
  | Some l => String.eqb l rhs
  | None => false
  end.

End Sqlite.

(** ** Floats *)

(** The text side of Python floats: [float(s)] ([None] for [ValueError]),
    [str(x)] and [format(x, '.2f')]. *)
Class PyFloatText : Type := {
  float_of_str : string -> option float;
  str_of_float : float -> string;
  format_2f : float -> string
}.

Definition is_nan (x : float) : bool := negb (x =? x)%float.

(** [x or 0.0]: a float is false when it compares equal to zero. *)
Definition or_zero (x : option float) : float :=
  match x with
  | None => 0%float
  | Some v => if (v =? 0)%float then 0%float else v
  end.

(** ** The sums of SQLite *)

(** [SUM] over REAL values, at least one and none of them NULL.  The
    releases of SQLite do not add alike: the earlier ones add the values one
    by one, the later ones carry a compensation term along.  The program
    runs on the release it finds, so the sum is an interface; the two ways
    to add are instances of it. *)
Class SqliteSum : Type := {
  sum_real : list float -> float
}.

(** The values added one by one, from 0.0. *)
Module PlainSum.

Definition total (xs : list float) : float :=
  fold_left PrimFloat.add xs 0%float.

End PlainSum.

(** The sum of Kahan, Babuska and Neumaier: beside the running sum, the
    low-order bits that each addition drops are added up and put back at
    the end. *)
Module CompensatedSum.

(** One value more: the running sum and the compensation. *)
Definition step (acc : float * float) (r : float) : float * float :=
  let '(s, err) := acc in
  let t := (s + r)%float in
  if (abs r <? abs s)%float then (t, (err + ((s - t) + r))%float)
  else (t, (err + ((r - t) + s))%float).

(** An infinity or NaN. *)
Definition is_overflow (x : float) : bool :=
  negb (x =? x)%float || (abs x =? infinity)%float.

Definition total (xs : list float) : float :=
  let '(s, err) := fold_left step xs (0%float, 0%float) in
  if is_overflow err then s else (s + err)%float.

End CompensatedSum.

Definition plain_sum : SqliteSum := {| sum_real := PlainSum.total |}.

(** The scenarios below run on the compensated sum. *)
#[global] Instance compensated_sum : SqliteSum :=
  {| sum_real := CompensatedSum.total |}.

(** ** The store *)

Record txn_row : Type := {
  t_id : Z;
  t_user : Z;
  t_type : string;
  t_category : string;
  t_amount : float;
  t_date : string
}.

Record budget_row : Type := {
  b_id : Z;
  b_user : Z;
  b_category : string;
  b_amount : float
}.

(** The tables hold their rows in rowid order; [_seq] is the last id an
    AUTOINCREMENT key has handed out. *)
Record database : Type := {
  transactions : list txn_row;
  transactions_seq : Z;
  budgets : list budget_row;
  budgets_seq : Z
}.

Definition empty_db : database :=
  {| transactions := []; transactions_seq := 0;
     budgets := []; budgets_seq := 0 |}.

Module Sql.

(** [SUM(amount)]: NULL over no row, else the sum of the amounts in row
    order; a sum that is NaN comes back as NULL. *)
Definition sum {DB : SqliteSum} (xs : list float) : option float :=
  match xs with
  | [] => None
  | _ => let s := sum_real xs in if is_nan s then None else Some s
  end.

(** A REAL NOT NULL column takes every float but NaN, which SQLite binds
    as NULL. *)
Definition real_not_null (x : float) : bool := negb (is_nan x).

(** [CHECK(type IN ('income', 'expense'))] *)
Definition check_type (ty : string) : bool := mem ty ["income"; "expense"].

(** [INSERT INTO transactions (user_id, type, category, amount, date)
    VALUES (?, ?, ?, ?, ?)]; [None] is [sqlite3.IntegrityError]. *)
Definition insert_transaction (db : database) (user_id : Z)
    (ty category : string) (amount : float) (date : string)
  : option database :=
  if real_not_null amount && check_type ty then
    let id := transactions_seq db + 1 in
    Some {| transactions :=
              transactions db ++
              [{| t_id := id; t_user := user_id; t_type := ty;
                  t_category := category; t_amount := amount;
                  t_date := date |}];
            transactions_seq := id;
            budgets := budgets db;
            budgets_seq := budgets_seq db |}
  else None.

(** Sorting by [date DESC]: texts compare byte by byte, and rows with the
    same text stay in the order the scan of the table met them. *)
Fixpoint insert_date_desc (r : txn_row) (l : list txn_row) : list txn_row :=
  match l with
  | [] => [r]
  | x :: l' =>
      if String.leb (t_date x) (t_date r) then r :: l
      else x :: insert_date_desc r l'
  end.

Definition order_by_date_desc (l : list txn_row) : list txn_row :=
  fold_right insert_date_desc [] l.

Definition owned_by (user_id : Z) (r : txn_row) : bool := t_user r =? user_id.

Definition is_txn (txn_id user_id : Z) (r : txn_row) : bool :=
  (t_id r =? txn_id) && (t_user r =? user_id).

(** [SELECT id, type, category, amount, date FROM transactions
    WHERE user_id = ? ORDER BY date DESC] with [fetchall]. *)
Definition select_transactions (db : database) (user_id : Z) : list txn_row :=
  order_by_date_desc (filter (owned_by user_id) (transactions db)).

(** [SELECT ... FROM transactions WHERE id = ? AND user_id = ?] with
    [fetchone].  (The ids are unbounded here.  The database binds integers
    of 64 bits, and no row carries an id beyond them.) *)
Definition select_transaction (db : database) (txn_id user_id : Z)
  : option txn_row :=
  find (is_txn txn_id user_id) (transactions db).

(** [UPDATE transactions SET type = ?, category = ?, amount = ?, date = ?
    WHERE id = ? AND user_id = ?] *)
Definition update_transaction (db : database) (ty category : string)
    (amount : float) (date : string) (txn_id user_id : Z) : option database :=
  if negb (existsb (is_txn txn_id user_id) (transactions db)) then Some db
  else if real_not_null amount && check_type ty then
    Some {| transactions :=
              map (fun r =>
                     if is_txn txn_id user_id r then
                       {| t_id := t_id r; t_user := t_user r; t_type := ty;
                          t_category := category; t_amount := amount;
                          t_date := date |}
                     else r) (transactions db);
            transactions_seq := transactions_seq db;
            budgets := budgets db;
            budgets_seq := budgets_seq db |}
  else None.

(** [DELETE FROM transactions WHERE id = ? AND user_id = ?] *)
Definition delete_transaction (db : database) (txn_id user_id : Z)
  : database :=
  {| transactions :=
       filter (fun r => negb (is_txn txn_id user_id r)) (transactions db);
     transactions_seq := transactions_seq db;
     budgets := budgets db;
     budgets_seq := budgets_seq db |}.

(** The keys of [GROUP BY type], each once. *)
Fixpoint distinct (l : list string) : list string :=
  match l with
  | [] => []
  | x :: l' => x :: filter (fun y => negb (String.eqb y x)) (distinct l')
  end.

(** [SELECT type, SUM(amount) FROM ... GROUP BY type] over the rows the
    WHERE clause keeps: one row for each type among them, with the sum of
    its amounts.  The loop that reads the groups does not depend on their
    order.  (The sums are taken as floats: amounts above 0, the only ones
    the program stores, do not add up to NaN, which would come back as
    NULL.) *)
Definition group_sum_by_type {DB : SqliteSum} (rows : list txn_row)
  : list (string * float) :=
  map (fun ty =>
         (ty, sum_real
                (map t_amount
                   (filter (fun r => String.eqb (t_type r) ty) rows))))
      (distinct (map t_type rows)).

(** [WHERE user_id = ? AND strftime('%Y-%m', date) = ?] *)
Definition in_month (user_id : Z) (period_str : string) (r : txn_row) : bool :=
  (t_user r =? user_id)
  && Sqlite.null_eqb (Sqlite.strftime_Ym (t_date r)) period_str.

(** [WHERE user_id = ? AND strftime('%Y', date) = ?] *)
Definition in_year (user_id : Z) (period_str : string) (r : txn_row) : bool :=
  (t_user r =? user_id)
  && Sqlite.null_eqb (Sqlite.strftime_Y (t_date r)) period_str.

Definition select_month_sums {DB : SqliteSum} (db : database) (user_id : Z)
    (period_str : string) : list (string * float) :=
  group_sum_by_type (filter (in_month user_id period_str) (transactions db)).

Definition select_year_sums {DB : SqliteSum} (db : database) (user_id : Z)
    (period_str : string) : list (string * float) :=
  group_sum_by_type (filter (in_year user_id period_str) (transactions db)).

Definition is_budget (user_id : Z) (category : string) (b : budget_row)
  : bool :=
  (b_user b =? user_id) && String.eqb (b_category b) category.

(** [INSERT INTO budgets (user_id, category, amount) VALUES (?, ?, ?)
    ON CONFLICT(user_id, category) DO UPDATE SET amount=excluded.amount];
    [None] is [sqlite3.IntegrityError] (the amount is NOT NULL).  The
    insertion takes the next id of the AUTOINCREMENT key before it meets
    the conflict: the id is used up also when the row is only updated. *)
Definition upsert_budget (db : database) (user_id : Z) (category : string)
    (amount : float) : option database :=
  if negb (real_not_null amount) then None
  else if existsb (is_budget user_id category) (budgets db) then
    Some {| transactions := transactions db;
            transactions_seq := transactions_seq db;
            budgets :=
              map (fun b =>
                     if is_budget user_id category b then
                       {| b_id := b_id b; b_user := b_user b;
                          b_category := b_category b; b_amount := amount |}
                     else b) (budgets db);
            budgets_seq := budgets_seq db + 1 |}
  else
    let id := budgets_seq db + 1 in
    Some {| transactions := transactions db;
            transactions_seq := transactions_seq db;
            budgets :=
              budgets db ++
              [{| b_id := id; b_user := user_id; b_category := category;
                  b_amount := amount |}];
            budgets_seq := id |}.

(** [SELECT amount FROM budgets WHERE user_id = ? AND category = ?] with
    [fetchone]. *)
Definition select_budget (db : database) (user_id : Z) (category : string)
  : option float :=
  option_map b_amount (find (is_budget user_id category) (budgets db)).

(** [SELECT category, amount FROM budgets WHERE user_id = ?] *)
Definition select_budgets (db : database) (user_id : Z) : list budget_row :=
  filter (fun b => b_user b =? user_id) (budgets db).

Definition is_expense_in (user_id : Z) (category : string) (r : txn_row)
  : bool :=
  (t_user r =? user_id) && String.eqb (t_type r) "expense"
  && String.eqb (t_category r) category.

(** [SELECT SUM(amount) FROM transactions
    WHERE user_id = ? AND type = 'expense' AND category = ?] *)
Definition select_expense_sum {DB : SqliteSum} (d : database) (user_id : Z)
    (category : string) : option float :=
  sum (map t_amount
         (filter (is_expense_in user_id category) (transactions d))).

End Sql.

(** ** The world and the monad of the program *)

(** What a procedure of the program can see and change: the database file,
    the lines still to be typed at the console, what has been written to the
    console (prompts and printed lines, the most recent first) and the date
    of the day. *)
Record world : Type := {
  db : database;
  stdin : list string;
  stdout : list string;
  today : date
}.

(** The exceptions no procedure catches: the console closed under [input],
    and a constraint of the database that fails. *)
Inductive exn : Type := EOFError | IntegrityError.

Inductive outcome (A : Type) : Type :=
| Done (a : A)
| Raised (e : exn).

Arguments Done {A} a.
Arguments Raised {A} e.

Definition M (A : Type) : Type := world -> outcome A * world.

Definition ret {A : Type} (a : A) : M A := fun w => (Done a, w).

Definition bind {A B : Type} (m : M A) (k : A -> M B) : M B :=
  fun w =>
    match m w with
    | (Done a, w') => k a w'
    | (Raised e, w') => (Raised e, w')
    end.

Declare Scope py_scope.
Delimit Scope py_scope with py.
Notation "x <- m ;; k" := (bind m (fun x => k))
  (at level 61, m at next level, right associativity) : py_scope.
Notation "m ;; k" := (bind m (fun _ => k))
  (at level 61, right associativity) : py_scope.
Local Open Scope py_scope.

(** [print(s)] *)
Definition print (s : string) : M unit :=
  fun w =>
    (Done tt, {| db := db w; stdin := stdin w; stdout := s :: stdout w;
                 today := today w |}).

(** [input(prompt)]: writes the prompt and reads the next line. *)
Definition input (prompt : string) : M string :=
  fun w =>
    match stdin w with
    | line :: rest =>
        (Done line, {| db := db w; stdin := rest;
                       stdout := prompt :: stdout w; today := today w |})
    | [] =>
        (Raised EOFError, {| db := db w; stdin := [];
                             stdout := prompt :: stdout w;
                             today := today w |})
    end.

Definition get_db : M database := fun w => (Done (db w), w).

Definition get_today : M date := fun w => (Done (today w), w).

(** [cursor.execute] of a statement that writes, then [conn.commit()];
    a failing statement raises and commits nothing. *)
Definition execute (stmt : database -> option database) : M unit :=
  fun w =>
    match stmt (db w) with
    | Some d => (Done tt, {| db := d; stdin := stdin w; stdout := stdout w;
                             today := today w |})
    | None => (Raised IntegrityError, w)
    end.

(** A statement that writes inside [try: ... except sqlite3.Error]: the
    result tells whether it went through. *)
Definition try_execute (stmt : database -> option database) : M bool :=
  fun w =>
    match stmt (db w) with
    | Some d => (Done true, {| db := d; stdin := stdin w; stdout := stdout w;
                               today := today w |})
    | None => (Done false, w)
    end.

(** [for x in l: print(f x)] *)
Fixpoint print_each {A : Type} (f : A -> string) (l : list A) : M unit :=
  match l with
  | [] => ret tt
  | x :: l' => print (f x) ;; print_each f l'
  end.

(** ** The program *)

(** What [check_budget] finds: it returns at once without a budget row,
    prints an alert, prints a notice, or falls through in silence. *)
Inductive budget_status : Type := NoBudget | Exceeded | AtLimit | OK.

(** The two totals the loop of [generate_report] reads off the groups. *)
Definition read_report (report : list (string * float)) : float * float :=
  fold_left
    (fun (acc : float * float) (row : string * float) =>
       if String.eqb (fst row) "income" then (snd row, snd acc)
       else if String.eqb (fst row) "expense" then (fst acc, snd row)
       else acc)
    report (0%float, 0%float).

Section Program.

Context {FT : PyFloatText} {DB : SqliteSum}.

(** The decision of [check_budget]: the budget row, the total, the two
    comparisons. *)
Definition evaluate_category (d : database) (user_id : Z) (category : string)
  : budget_status :=
  match Sql.select_budget d user_id category with
  | None => NoBudget
  | Some budget_amount =>
      let total_expense :=
        or_zero (Sql.select_expense_sum d user_id category) in
      if (budget_amount <? total_expense)%float then Exceeded
      else if (total_expense =? budget_amount)%float then AtLimit
      else OK
  end.

Definition check_budget (user_id : Z) (category : string) : M unit :=
  d <- get_db ;;
  match evaluate_category d user_id category with
  | Exceeded =>
      print ("Alert: You have exceeded your budget for '" ++ category ++ "'.")
  | AtLimit =>
      print ("Notice: You have reached your budget limit for '"
             ++ category ++ "'.")
  | NoBudget | OK => ret tt
  end.

Definition add_transaction (user_id : Z) : M unit :=
  l <- input "Enter transaction type (income/expense): " ;;
  let type := lower (strip l) in
  if negb (mem type ["income"; "expense"]) then
    print "Invalid transaction type."
  else
  l <- input "Enter category (e.g., Food, Rent, Salary, etc.): " ;;
  let category := strip l in
  if is_empty category then print "Category cannot be empty."
  else
  l <- input "Enter amount: " ;;
  match float_of_str (strip l) with
  | None => print "Invalid amount."
  | Some amount =>
  if (amount <=? 0)%float then print "Amount must be positive."
  else
  l <- input "Enter date (YYYY-MM-DD) or leave blank for today: " ;;
  let date := strip l in
  let insert (date : string) : M unit :=
    execute (fun d => Sql.insert_transaction d user_id type category
                        amount date) ;;
    print (capitalize type ++ " of " ++ str_of_float amount
           ++ " added successfully!") ;;
    if String.eqb type "expense" then check_budget user_id category
    else ret tt in
  if is_empty date then (t <- get_today ;; insert (isoformat t))
  else if strptime_ok date then insert date
  else print "Invalid date format."
  end.

Definition dashes (n : nat) : string := repeat_char "-" n.

Definition format_txn (txn : txn_row) : string :=
  ljust 5 (str_of_int (t_id txn)) ++ " " ++ ljust 10 (t_type txn) ++ " "
  ++ ljust 15 (t_category txn) ++ " " ++ ljust 10 (format_2f (t_amount txn))
  ++ " " ++ ljust 10 (t_date txn).

Definition table_header : string :=
  ljust 5 "ID" ++ " " ++ ljust 10 "Type" ++ " " ++ ljust 15 "Category"
  ++ " " ++ ljust 10 "Amount" ++ " " ++ ljust 10 "Date".

Definition view_transactions (user_id : Z) : M unit :=
  d <- get_db ;;
  let transactions := Sql.select_transactions d user_id in
  match transactions with
  | [] => print "No transactions found."
  | _ =>
      print (nl ++ "Your Transactions:") ;;
      print (dashes 60) ;;
      print table_header ;;
      print (dashes 60) ;;
      print_each format_txn transactions ;;
      print (dashes 60)
  end.

Definition update_transaction (user_id : Z) : M unit :=
  view_transactions user_id ;;
  l <- input "Enter the ID of the transaction to update: " ;;
  match int_of_str (strip l) with
  | None => print "Invalid ID."
  | Some txn_id =>
  d <- get_db ;;
  match Sql.select_transaction d txn_id user_id with
  | None => print "Transaction not found."
  | Some txn =>
  print "Leave field blank to keep current value." ;;
  l <- input ("Enter new type (" ++ t_type txn ++ "): ") ;;
  let new_type := lower (strip l) in
  if negb (is_empty new_type) && negb (mem new_type ["income"; "expense"])
  then print "Invalid transaction type."
  else
  l <- input ("Enter new category (" ++ t_category txn ++ "): ") ;;
  let new_category := strip l in
  l <- input ("Enter new amount (" ++ str_of_float (t_amount txn) ++ "): ") ;;
  let new_amount := strip l in
  l <- input ("Enter new date (" ++ t_date txn ++ "): ") ;;
  let new_date := strip l in
  let updated_type := if is_empty new_type then t_type txn else new_type in
  let updated_category :=
    if is_empty new_category then t_category txn else new_category in
  match (if is_empty new_amount then Some (t_amount txn)
         else float_of_str new_amount) with
  | None => print "Invalid amount."
  | Some updated_amount =>
  if (updated_amount <=? 0)%float then print "Amount must be positive."
  else
  if negb (is_empty new_date) && negb (strptime_ok new_date)
  then print "Invalid date format."
  else
  let updated_date := if is_empty new_date then t_date txn else new_date in
  execute (fun d => Sql.update_transaction d updated_type updated_category
                      updated_amount updated_date txn_id user_id) ;;
  print "Transaction updated successfully!" ;;
  if String.eqb updated_type "expense"
  then check_budget user_id updated_category
  else ret tt
  end
  end
  end.

Definition delete_transaction (user_id : Z) : M unit :=
  view_transactions user_id ;;
  l <- input "Enter the ID of the transaction to delete: " ;;
  match int_of_str (strip l) with
  | None => print "Invalid ID."
  | Some txn_id =>
  d <- get_db ;;
  match Sql.select_transaction d txn_id user_id with
  | None => print "Transaction not found."
  | Some txn =>
  l <- input ("Are you sure you want to delete this " ++ t_type txn
              ++ " in category " ++ t_category txn ++ "? (y/n): ") ;;
  let confirm := lower (strip l) in
  if String.eqb confirm "y" then
    execute (fun d => Some (Sql.delete_transaction d txn_id user_id)) ;;
    print "Transaction deleted successfully!"
  else print "Deletion cancelled."
  end
  end.

(** The figures of a report: the period key and the two totals. *)
Record report : Type := {
  period_str : string;
  total_income : float;
  total_expenses : float
}.

Definition savings (r : report) : float :=
  (total_income r - total_expenses r)%float.

(** The reading part of [generate_report]: [None] for a period that is
    neither ['monthly'] nor ['yearly']. *)
Definition report_of (d : database) (day : date) (user_id : Z)
    (period : string) : option report :=
  if String.eqb period "monthly" then
    let p := PyDate.strftime_Ym day in
    let '(ti, te) := read_report (Sql.select_month_sums d user_id p) in
    Some {| period_str := p; total_income := ti; total_expenses := te |}
  else if String.eqb period "yearly" then
    let p := PyDate.strftime_Y day in
    let '(ti, te) := read_report (Sql.select_year_sums d user_id p) in
    Some {| period_str := p; total_income := ti; total_expenses := te |}
  else None.

Definition generate_report (user_id : Z) (period : string) : M unit :=
  d <- get_db ;;
  day <- get_today ;;
  match report_of d day user_id period with
  | None => print "Invalid period. Choose 'monthly' or 'yearly'."
  | Some r =>
      print (nl ++ "--- " ++ capitalize period ++ " Financial Report ("
             ++ period_str r ++ ") ---") ;;
      print ("Total Income: " ++ format_2f (total_income r)) ;;
      print ("Total Expenses: " ++ format_2f (total_expenses r)) ;;
      print ("Savings: " ++ format_2f (savings r) ++ nl)
  end.

Definition set_budget (user_id : Z) : M unit :=
  l <- input "Enter category to set budget for: " ;;
  let category := strip l in
  if is_empty category then print "Category cannot be empty."
  else
  l <- input "Enter budget amount: " ;;
  match float_of_str (strip l) with
  | None => print "Invalid amount."
  | Some amount =>
  if (amount <=? 0)%float then print "Budget amount must be positive."
  else
  done <- try_execute (fun d => Sql.upsert_budget d user_id category
                                  amount) ;;
  if done : bool then
    print ("Budget for category '" ++ category ++ "' set to "
           ++ format_2f amount ++ ".")
  else
    print "Error setting budget: NOT NULL constraint failed: budgets.amount"
  end.

End Program.

(** ** Whole amounts: an instance to run the program

    The text conversions for the amounts that are whole numbers below
    [2^53], written as plain digits: enough to run the scenarios below.
    (Python reads and writes many more floats; the theorems hold for every
    instance of [PyFloatText].) *)

Module Whole.

Definition of_str (s : string) : option float :=
  match int_digits s 0 false with
  | Some z =>
      if z <? 2 ^ 53 then Some (PrimFloat.of_uint63 (Uint63.of_Z z)) else None
  | None => None
  end.

(** The whole number a float is, if it is one. *)
Definition to_Z (x : float) : option Z :=
  match Prim2SF x with
  | S754_zero _ => Some 0
  | S754_finite sg m e =>
      let v := if 0 <=? e then Z.pos m * 2 ^ e
               else Z.pos m / 2 ^ (- e) in
      if (0 <=? e) || (Z.pos m mod 2 ^ (- e) =? 0)
      then Some (if sg then - v else v) else None
  | _ => None
  end.

Definition to_str (suffix : string) (x : float) : string :=
  match to_Z x with
  | Some z => str_of_int z ++ suffix
  | None => "?"
  end.

#[export] Instance float_text : PyFloatText := {
  float_of_str := of_str;
  str_of_float := to_str ".0";
  format_2f := to_str ".00"
}.

End Whole.

Export Whole.

(** A console session: the lines to type, over a store, on a given day. *)
Definition session (d : database) (lines : list string) (day : date) : world :=
  {| db := d; stdin := lines; stdout := []; today := day |}.

(** The store a procedure leaves when run on the given lines. *)
Definition store_after (p : M unit) (d : database) (lines : list string)
    (day : date) : database :=
  db (snd (p (session d lines day))).

(** ** Notions of the specification *)

(** The amounts of the expense-type transactions of (user, category), in
    table order. *)
Definition expense_amounts (d : database) (user_id : Z) (category : string)
  : list float :=
  map t_amount
    (filter (fun r => (t_user r =? user_id)
                      && String.eqb (t_type r) "expense"
                      && String.eqb (t_category r) category)
       (transactions d)).

(** The expense of a user in a category: the sum the database gives for
    those amounts, 0 if it gives none (there is no such transaction). *)
Definition spent {DB : SqliteSum} (d : database) (user_id : Z)
    (category : string) : float :=
  match Sql.sum (expense_amounts d user_id category) with
  | Some s => s
  | None => 0%float
  end.

(** The budget rows of (user, category). *)
Definition budget_rows (d : database) (user_id : Z) (category : string)
  : list budget_row :=
  filter (Sql.is_budget user_id category) (budgets d).

(** The messages that report invalid input. *)
Definition invalid_input_messages : list string :=
  [ "Invalid transaction type."; "Category cannot be empty.";
    "Invalid amount."; "Amount must be positive."; "Invalid date format." ].

(** The primary key of [transactions]: no two rows share an id. *)
Definition unique_ids (d : database) : Prop :=
  NoDup (map t_id (transactions d)).

(** The store without the rows of a given id. *)
Definition without_id (txn_id : Z) (d : database) : database :=
  {| transactions :=
       filter (fun r => negb (t_id r =? txn_id)) (transactions d);
     transactions_seq := transactions_seq d;
     budgets := budgets d;
     budgets_seq := budgets_seq d |}.

Definition with_db (w : world) (d : database) : world :=
  {| db := d; stdin := stdin w; stdout := stdout w; today := today w |}.

(** What [view_transactions] writes for the rows it fetched, the most
    recent line first. *)
Definition view_output {FT : PyFloatText} (rows : list txn_row)
  : list string :=
  match rows with
  | [] => ["No transactions found."]
  | _ =>
      List.app (dashes 60 :: rev (map format_txn rows))
        [dashes 60; table_header; dashes 60; nl ++ "Your Transactions:"]
  end.

(** What [check_budget] writes for a status. *)
Definition budget_output (category : string) (st : budget_status)
  : list string :=
  match st with
  | Exceeded =>
      ["Alert: You have exceeded your budget for '" ++ category ++ "'."]
  | AtLimit =>
      ["Notice: You have reached your budget limit for '" ++ category ++ "'."]
  | NoBudget | OK => []
  end.

(** The world after some more lines were written. *)
Definition wrote (lines : list string) (w : world) : world :=
  {| db := db w; stdin := stdin w; stdout := (lines ++ stdout w)%list;
     today := today w |}.

(** The ids of [transactions] are distinct and none is above the last id
    handed out; (user, category) is a key of [budgets]. *)
Definition store_ok (d : database) : Prop :=
  unique_ids d
  /\ Forall (fun r => t_id r <= transactions_seq d) (transactions d)
  /\ forall user_id category,
       (List.length (budget_rows d user_id category) <= 1)%nat.

(** A procedure keeps a property of the store, whatever the console gives
    it, also when it stops on an exception. *)
Definition preserves {A : Type} (P : database -> Prop) (m : M A) : Prop :=
  forall w, P (db w) -> P (db (snd (m w))).

(** The choices of the menus that work on the ledger and the budgets. *)
Inductive command : Type :=
| AddTransaction (user_id : Z)
| ViewTransactions (user_id : Z)
| UpdateTransaction (user_id : Z)
| DeleteTransaction (user_id : Z)
| Report (user_id : Z) (period : string)
| SetBudget (user_id : Z).

Definition run_command {FT : PyFloatText} {DB : SqliteSum} (c : command) : M unit :=
  match c with
  | AddTransaction u => add_transaction u
  | ViewTransactions u => view_transactions u
  | UpdateTransaction u => update_transaction u
  | DeleteTransaction u => delete_transaction u
  | Report u period => generate_report u period
  | SetBudget u => set_budget u
  end.

(** The stores the program can get to from the empty database. *)
Inductive reachable {FT : PyFloatText} {DB : SqliteSum} : database -> Prop :=
| reach_empty : reachable empty_db
| reach_step (d : database) (c : command) (lines : list string) (day : date) :
    reachable d -> reachable (store_after (run_command c) d lines day).

(** A call of SetBudget: the user, and the two replies typed to
    [set_budget]. *)
Record budget_call : Type := {
  call_user : Z;
  call_category : string;
  call_amount : string
}.

(** The store after one call, and after a sequence of calls. *)
Definition after_call {FT : PyFloatText} (day : date) (d : database)
    (c : budget_call) : database :=
  store_after (set_budget (call_user c)) d
    [call_category c; call_amount c] day.

Definition after_calls {FT : PyFloatText} (day : date) (d : database)
    (cs : list budget_call) : database :=
  fold_left (after_call day) cs d.

(** The amount a call asks for, when the call is valid: a category that is
    not empty and an amount that is a number above 0. *)
Definition call_value {FT : PyFloatText} (c : budget_call) : option float :=
  if is_empty (strip (call_category c)) then None
  else match float_of_str (strip (call_amount c)) with
       | Some a => if (a <=? 0)%float || is_nan a then None else Some a
       | None => None
       end.

(** The amount of the most recent valid call for (user, category), if there
    is one. *)
Definition last_set {FT : PyFloatText} (cs : list budget_call) (user_id : Z)
    (category : string) : option float :=
  fold_left
    (fun acc c =>
       if (call_user c =? user_id)
          && String.eqb (strip (call_category c)) category
       then match call_value c with Some a => Some a | None => acc end
       else acc)
    cs None.

(** A stored date lies in the period of a day when the calendar date it
    was accepted as has the year of the day and, for a monthly period, its
    month as well. *)
Definition same_period (period : string) (day : date) (text : string) : bool :=
  match strptime text with
  | Some (y, m, _) =>
      let '(y0, m0, _) := day in
      (y =? y0) && (String.eqb period "yearly" || (m =? m0))
  | None => false
  end.

(** The amounts of the transactions of a user of one type in the period of
    a day, added up. *)
Definition period_total (d : database) (day : date) (user_id : Z)
    (period kind : string) : float :=
  fold_left PrimFloat.add
    (map t_amount
       (filter (fun r => (t_user r =? user_id)
                         && String.eqb (t_type r) kind
                         && same_period period day (t_date r))
          (transactions d)))
    0%float.

(** The amounts of the rows of one type, in the order of the rows. *)
Definition amounts_of (kind : string) (rows : list txn_row) : list float :=
  map t_amount (filter (fun r => String.eqb (t_type r) kind) rows).

(** The total of some amounts in a report: the sum the database gives for
    them, 0 when there is no amount. *)
Definition sum_or_zero {DB : SqliteSum} (xs : list float) : float :=
  match xs with
  | [] => 0%float
  | _ => sum_real xs
  end.

(** A list of stored dates runs from the latest day to the earliest. *)
Fixpoint chronological_desc (l : list string) : bool :=
  match l with
  | a :: ((b :: _) as l') =>
      match strptime a, strptime b with
      | Some da, Some db => date_leb db da && chronological_desc l'
      | _, _ => false
      end
  | _ => true
  end.

(** ** Scenarios *)

Module Scenario.

Definition day : date := (2024, 10, 11).

(** User 1 sets a budget of 100 for Food, then spends 100 on Food. *)
Definition food_budget : database :=
  store_after (set_budget 1) empty_db ["Food"; "100"] day.

Definition food_at_limit : database :=
  store_after (add_transaction 1) food_budget
    ["expense"; "Food"; "100"; "2024-10-11"] day.

(** One more expense of 1 on Food. *)
Definition food_exceeded : database :=
  store_after (add_transaction 1) food_at_limit
    ["expense"; "Food"; "1"; "2024-10-11"] day.

(** A salary of 5000 entered with the date typed as 2024-1-5. *)
Definition unpadded_income : database :=
  store_after (add_transaction 1) empty_db
    ["income"; "Salary"; "5000"; "2024-1-5"] (2024, 1, 5).

(** Two expenses: one on 10 January, then one on 5 January typed as
    2024-1-5. *)
Definition two_expenses : database :=
  store_after (add_transaction 1)
    (store_after (add_transaction 1) empty_db
       ["expense"; "Food"; "20"; "2024-01-10"] (2024, 1, 10))
    ["expense"; "Food"; "30"; "2024-1-5"] (2024, 1, 10).

(** User 1 has one expense, with id 1. *)
Definition food_row : txn_row :=
  {| t_id := 1; t_user := 1; t_type := "expense"; t_category := "Food";
     t_amount := 20; t_date := "2024-01-10" |}.

Definition one_expense : database :=
  store_after (add_transaction 1) empty_db
    ["expense"; "Food"; "20"; "2024-01-10"] day.

(** User 1 has a budget of 1.0 for Food and ten expenses of 0.1 (the float
    next to it) on Food. *)
Definition tenths : database :=
  {| transactions :=
       map (fun i => {| t_id := i; t_user := 1; t_type := "expense";
                        t_category := "Food";
                        t_amount := 0x1.999999999999ap-4;
                        t_date := "2024-10-11" |})
         [1; 2; 3; 4; 5; 6; 7; 8; 9; 10];
     transactions_seq := 10;
     budgets := [{| b_id := 1; b_user := 1; b_category := "Food";
                    b_amount := 1 |}];
     budgets_seq := 1 |}.

(** Two calls of SetBudget by user 1 for Food: 100, then 250. *)
Definition food_calls : list budget_call :=
  [ {| call_user := 1; call_category := "Food"; call_amount := "100" |};
    {| call_user := 1; call_category := "Food"; call_amount := "250" |} ].

End Scenario.

(** ** Sessions of commands *)

(** The user a command acts for. *)
Definition command_user (c : command) : Z :=
  match c with
  | AddTransaction u | ViewTransactions u | UpdateTransaction u
  | DeleteTransaction u | Report u _ | SetBudget u => u
  end.

(** One step of a session: a command, the lines typed to it and the day. *)
Definition step : Type := (command * list string * date)%type.

Definition run_step {FT : PyFloatText} {DB : SqliteSum} (d : database) (s : step) : database :=
  let '(c, lines, day) := s in store_after (run_command c) d lines day.

Definition run_steps {FT : PyFloatText} {DB : SqliteSum} (d : database) (steps : list step)
  : database :=
  fold_left run_step steps d.

(** The rows of [transactions] and of [budgets] that belong to the other
    users. *)
Definition rows_of_others (user_id : Z) (d : database) : list txn_row :=
  filter (fun r => negb (t_user r =? user_id)) (transactions d).

Definition budgets_of_others (user_id : Z) (d : database) : list budget_row :=
  filter (fun b => negb (b_user b =? user_id)) (budgets d).

(** The ids of the transactions in the store. *)
Definition ids (d : database) : list Z := map t_id (transactions d).

(** What the checks of the program let into the tables: a type that is
    income or expense, a category that is not empty, an amount above 0, and
    a date that [strptime] accepts or the ISO form of a day. *)
Definition row_valid (r : txn_row) : Prop :=
  mem (t_type r) ["income"; "expense"] = true
  /\ t_category r <> ""
  /\ (0 <? t_amount r)%float = true
  /\ (strptime_ok (t_date r) = true \/ exists day, t_date r = isoformat day).

Definition budget_valid (b : budget_row) : Prop :=
  b_category b <> "" /\ (0 <? b_amount b)%float = true.

(** The year of a day ([d.year]). *)
Definition year (d : date) : Z := let '(y, _, _) := d in y.

(** The rows a report of a day reads for a user: those the WHERE clause
    keeps, in table order. *)
Definition period_rows (d : database) (day : date) (user_id : Z)
    (period : string) : list txn_row :=
  if String.eqb period "monthly" then
    filter (Sql.in_month user_id (PyDate.strftime_Ym day)) (transactions d)
  else if String.eqb period "yearly" then
    filter (Sql.in_year user_id (PyDate.strftime_Y day)) (transactions d)
  else [].

(** A row as the program stores it on the days of the calendar: what the
    checks let in, with a date that [strptime] accepts or the ISO form of a
    day of the calendar.  On these date texts the releases of SQLite read
    the same date. *)
Definition row_stored (r : txn_row) : Prop :=
  row_valid r
  /\ (strptime_ok (t_date r) = true
      \/ exists day, valid_date day = true /\ t_date r = isoformat day).

(** ** Whole amounts and NaN: a second instance

    As [Whole], and ['nan'] is read as the float NaN, the way [float]
    reads it. *)

Module WholeNan.

Definition of_str (s : string) : option float :=
  if String.eqb (lower s) "nan" then Some nan else Whole.of_str s.

Definition float_text : PyFloatText := {|
  float_of_str := of_str;
  str_of_float := Whole.to_str ".0";
  format_2f := Whole.to_str ".00"
|}.

End WholeNan.

(** What [add_transaction] writes up to its success message, the most
    recent line first. *)
Definition added_lines {FT : PyFloatText} (ty : string) (a : float)
  : list string :=
  [ capitalize ty ++ " of " ++ str_of_float a ++ " added successfully!";
    "Enter date (YYYY-MM-DD) or leave blank for today: ";
    "Enter amount: ";
    "Enter category (e.g., Food, Rent, Salary, etc.): ";
    "Enter transaction type (income/expense): " ].

(** The messages with which [set_budget] turns a reply down. *)
Definition budget_error_messages : list string :=
  [ "Category cannot be empty."; "Invalid amount.";
    "Budget amount must be positive.";
    "Error setting budget: NOT NULL constraint failed: budgets.amount" ].

(** ** Reading back the ISO form of a day (parts of the two parsers) *)

(** The month and the day that [match_Ymd] reads after the year and its
    dash. *)
Definition match_md (r : string) : option (Z * Z * string) :=
  first_match (month_alternatives r) (fun '(m, r1) =>
    match r1 with
    | String "-" r2 =>
        match day_alternatives r2 with
        | (d, r3) :: _ => Some (m, d, r3)
        | [] => None
        end
    | _ => None
    end).

(** The month and the day that SQLite reads after the year and its dash. *)
Definition sqlite_md (r : string) : option (Z * Z) :=
  match r with
  | String m1 (String m2 (String "-" (String d1 (String d2 EmptyString)))) =>
      if is_digit m1 && is_digit m2 && is_digit d1 && is_digit d2 then
        let m := 10 * digit_val m1 + digit_val m2 in
        let d := 10 * digit_val d1 + digit_val d2 in
        if (1 <=? m) && (m <=? 12) && (1 <=? d) && (d <=? 31)
        then Some (m, d) else None
      else None
  | _ => None
  end.

(** The four characters of a year are digits that spell it. *)
Definition year_text_ok (y : Z) : bool :=
  match zero_pad 4 y with
  | String y1 (String y2 (String y3 (String y4 EmptyString))) =>
      is_digit y1 && is_digit y2 && is_digit y3 && is_digit y4
      && (1000 * digit_val y1 + 100 * digit_val y2 + 10 * digit_val y3
          + digit_val y4 =? y)
  | _ => false
  end.

(** Both parsers read the month and the day back. *)
Definition month_day_text_ok (m d : Z) : bool :=
  let r := zero_pad 2 m ++ "-" ++ zero_pad 2 d in
  match match_md r, sqlite_md r with
  | Some (m1, d1, EmptyString), Some (m2, d2) =>
      (m1 =? m) && (d1 =? d) && (m2 =? m) && (d2 =? d)
  | _, _ => false
  end.

(** ** Budgets on the console, and the two menus over them *)

Section Menus.

Context {FT : PyFloatText} {DB : SqliteSum}.

Definition format_budget (budget : budget_row) : string :=
  ljust 15 (b_category budget) ++ " "
  ++ ljust 10 (format_2f (b_amount budget)).

Definition budgets_header : string :=
  ljust 15 "Category" ++ " " ++ ljust 10 "Budget".

Definition view_budgets (user_id : Z) : M unit :=
  d <- get_db ;;
  let budgets := Sql.select_budgets d user_id in
  match budgets with
  | [] => print "No budgets set."
  | _ =>
      print (nl ++ "Your Budgets:") ;;
      print (dashes 30) ;;
      print budgets_header ;;
      print (dashes 30) ;;
      print_each format_budget budgets ;;
      print (dashes 30)
  end.

(** The loops [while True] of the menus run on fuel: one unit for each
    turn of the loop.  The result [None] says that the fuel ran out before
    the loop ended. *)
Fixpoint budgeting_menu (fuel : nat) (user_id : Z) : M (option unit) :=
  match fuel with
  | O => ret None
  | S fuel' =>
      print (nl ++ "--- Budgeting ---") ;;
      print "1. Set Budget" ;;
      print "2. View Budgets" ;;
      print "3. Back to Main Menu" ;;
      l <- input "Select an option: " ;;
      let choice := strip l in
      if String.eqb choice "1" then
        set_budget user_id ;; budgeting_menu fuel' user_id
      else if String.eqb choice "2" then
        view_budgets user_id ;; budgeting_menu fuel' user_id
      else if String.eqb choice "3" then ret (Some tt)
      else
        print "Invalid choice. Please try again." ;;
        budgeting_menu fuel' user_id
  end.

Fixpoint view_report_menu (fuel : nat) (user_id : Z) : M (option unit) :=
  match fuel with
  | O => ret None
  | S fuel' =>
      print (nl ++ "--- Financial Reports ---") ;;
      print "1. Monthly Report" ;;
      print "2. Yearly Report" ;;
      print "3. Back to Main Menu" ;;
      l <- input "Select an option: " ;;
      let choice := strip l in
      if String.eqb choice "1" then
        generate_report user_id "monthly" ;; view_report_menu fuel' user_id
      else if String.eqb choice "2" then
        generate_report user_id "yearly" ;; view_report_menu fuel' user_id
      else if String.eqb choice "3" then ret (Some tt)
      else
        print "Invalid choice. Please try again." ;;
        view_report_menu fuel' user_id
  end.

(** What [view_budgets] writes for the rows it fetched, the most recent
    line first. *)
Definition budgets_output (rows : list budget_row) : list string :=
  match rows with
  | [] => ["No budgets set."]
  | _ =>
      List.app (dashes 30 :: rev (map format_budget rows))
        [dashes 30; budgets_header; dashes 30; nl ++ "Your Budgets:"]
  end.

End Menus.

(** A procedure takes lines off the console and never puts one back. *)
Definition reads_only {A : Type} (m : M A) : Prop :=
  forall w, (List.length (stdin (snd (m w))) <= List.length (stdin w))%nat.

(** The result of a menu on a console: how it ended, what the store keeps,
    and that more fuel gives the same run. *)
Definition menu_result (menu : nat -> M (option unit)) (fuel : nat)
    (w : world) (kept : database -> Prop) : Prop :=
  (fst (menu fuel w) = Done (Some tt) \/ fst (menu fuel w) = Raised EOFError)
  /\ kept (db (snd (menu fuel w)))
  /\ forall fuel', (fuel <= fuel')%nat -> menu fuel' w = menu fuel w.

(** ** Users: registration and login

    The table [users] of the database, the console ([input] and [print])
    and the terminal of [getpass], which asks without echo.  The password
    hash [hashlib.sha256(password.encode()).hexdigest()] is taken as a
    function on strings. *)

Module Auth.

Record user_row : Type := {
  u_id : Z;
  u_username : string;
  u_password_hash : string
}.

Record users_table : Type := {
  users : list user_row;
  users_seq : Z
}.

Definition no_users : users_table := {| users := []; users_seq := 0 |}.

Record login_world : Type := {
  accounts : users_table;
  typed : list string;
  secrets : list string;
  shown : list string;
  asked : list string
}.

Definition L (A : Type) : Type := login_world -> outcome A * login_world.

Definition lret {A : Type} (a : A) : L A := fun w => (Done a, w).

Definition lbind {A B : Type} (m : L A) (k : A -> L B) : L B :=
  fun w =>
    match m w with
    | (Done a, w') => k a w'
    | (Raised e, w') => (Raised e, w')
    end.

Declare Scope login_scope.
Delimit Scope login_scope with login.
Notation "x <- m ;; k" := (lbind m (fun x => k))
  (at level 61, m at next level, right associativity) : login_scope.
Notation "m ;; k" := (lbind m (fun _ => k))
  (at level 61, right associativity) : login_scope.
Local Open Scope login_scope.

(** [print(s)] *)
Definition lprint (s : string) : L unit :=
  fun w =>
    (Done tt, {| accounts := accounts w; typed := typed w;
                 secrets := secrets w; shown := s :: shown w;
                 asked := asked w |}).

(** [input(prompt)] *)
Definition linput (prompt : string) : L string :=
  fun w =>
    match typed w with
    | line :: rest =>
        (Done line, {| accounts := accounts w; typed := rest;
                       secrets := secrets w; shown := prompt :: shown w;
                       asked := asked w |})
    | [] =>
        (Raised EOFError, {| accounts := accounts w; typed := [];
                             secrets := secrets w;
                             shown := prompt :: shown w;
                             asked := asked w |})
    end.

(** [getpass(prompt)]: asks on the terminal and reads a line there. *)
Definition getpass (prompt : string) : L string :=
  fun w =>
    match secrets w with
    | line :: rest =>
        (Done line, {| accounts := accounts w; typed := typed w;
                       secrets := rest; shown := shown w;
                       asked := prompt :: asked w |})
    | [] =>
        (Raised EOFError, {| accounts := accounts w; typed := typed w;
                             secrets := []; shown := shown w;
                             asked := prompt :: asked w |})
    end.

(** [INSERT INTO users (username, password_hash) VALUES (?, ?)]: [None] is
    [sqlite3.IntegrityError], for a username that is taken (UNIQUE). *)
Definition insert_user (t : users_table) (username password_hash : string)
  : option users_table :=
  if existsb (fun r => String.eqb (u_username r) username) (users t) then None
  else
    let id := users_seq t + 1 in
    Some {| users := users t ++
                     [{| u_id := id; u_username := username;
                         u_password_hash := password_hash |}];
            users_seq := id |}.

(** [SELECT id FROM users WHERE username = ? AND password_hash = ?] with
    [fetchone]. *)
Definition select_user (t : users_table) (username password_hash : string)
  : option Z :=
  option_map u_id
    (find (fun r => String.eqb (u_username r) username
                    && String.eqb (u_password_hash r) password_hash)
       (users t)).

(** The INSERT of [register_user] inside its [try]. *)
Definition try_insert_user (username password_hash : string) : L bool :=
  fun w =>
    match insert_user (accounts w) username password_hash with
    | Some t => (Done true, {| accounts := t; typed := typed w;
                               secrets := secrets w; shown := shown w;
                               asked := asked w |})
    | None => (Done false, w)
    end.

Definition get_accounts : L users_table := fun w => (Done (accounts w), w).

Section Procedures.

(** [hash_password] *)
Variable hash_password : string -> string.

Definition register_user : L unit :=
  l <- linput "Enter a unique username: " ;;
  let username := strip l in
  if is_empty username then lprint "Username cannot be empty."
  else
  l <- getpass "Enter your password: " ;;
  let password := strip l in
  if is_empty password then lprint "Password cannot be empty."
  else
  l <- getpass "Confirm your password: " ;;
  let password_confirm := strip l in
  if negb (String.eqb password password_confirm)
  then lprint "Passwords do not match."
  else
  let password_hash := hash_password password in
  done <- try_insert_user username password_hash ;;
  if done : bool then lprint "User registered successfully!"
  else lprint "Username already exists!".

Definition login_user : L (option Z) :=
  l <- linput "Username: " ;;
  let username := strip l in
  l <- getpass "Password: " ;;
  let password := strip l in
  let password_hash := hash_password password in
  t <- get_accounts ;;
  match select_user t username password_hash with
  | Some user_id =>
      lprint "Login successful!" ;;
      lret (Some user_id)
  | None =>
      lprint "Login failed! Please check your credentials." ;;
      lret None
  end.

End Procedures.

(** No two accounts share a username, nor an id, and no id is above the
    last one handed out. *)
Definition accounts_ok (t : users_table) : Prop :=
  NoDup (map u_username (users t))
  /\ NoDup (map u_id (users t))
  /\ Forall (fun r => u_id r <= users_seq t) (users t).

(** The messages with which [register_user] turns a registration down. *)
Definition register_error_messages : list string :=
  [ "Username cannot be empty."; "Password cannot be empty.";
    "Passwords do not match."; "Username already exists!" ].

(** A username is taken. *)
Definition taken (t : users_table) (username : string) : bool :=
  existsb (fun r => String.eqb (u_username r) username) (users t).

End Auth.

(** ** More scenarios *)

Module Session.

Definition day : date := (2024, 10, 11).

(** User 1 adds an expense and deletes it again: id 1 is handed out and
    gone. *)
Definition deleted_one : database :=
  store_after (delete_transaction 1) Scenario.one_expense ["1"; "y"] day.

Definition add_again : list step :=
  [(AddTransaction 1, ["income"; "Salary"; "5000"; ""], day)].

(** The console closes after the type was typed. *)
Definition closing : world := session Scenario.one_expense ["income"] day.

(** User 1 updates the amount of transaction 1 in the store of the two
    expenses. *)
Definition updating : world :=
  session Scenario.two_expenses ["1"; ""; ""; "25"; ""] day.

(** An income typed with a blank date. *)
Definition salary_today : world :=
  session Scenario.one_expense ["income"; "Salary"; "5000"; " "] day.

(** One more expense on Food at the limit of the budget. *)
Definition over_budget : world :=
  session Scenario.food_at_limit ["expense"; "Food"; "1"; "2024-10-11"] day.

(** An amount that is not a number above 0, and the amount NaN. *)
Definition zero_budget : world := session empty_db ["Food"; "0"] day.

Definition nan_amount : world :=
  session empty_db ["expense"; "Food"; "nan"; ""] day.

Definition food_100 : world := session empty_db [" Food"; "100"] day.

(** A budget menu: view, a wrong choice, set, view, back. *)
Definition budget_menu : world :=
  session empty_db ["2"; "x"; "1"; "Food"; "100"; "2"; "3"; "left"] day.

(** A report menu that is left by closing the console. *)
Definition report_menu : world :=
  session Scenario.one_expense ["1"; "2"; "9"] day.

(** The store of user 1 with a row of user 2 added. *)
Definition with_other_user : database :=
  store_after (add_transaction 2) Scenario.one_expense
    ["income"; "Salary"; "900"; "2024-10-01"] day.

(** A stand-in for the hash of passwords. *)
Definition toy_hash (s : string) : string := "h(" ++ s ++ ")".

Definition registering : Auth.login_world :=
  {| Auth.accounts := Auth.no_users; Auth.typed := [" ann "];
     Auth.secrets := ["secret"; "secret "]; Auth.shown := [];
     Auth.asked := [] |}.

Definition ann : Auth.users_table :=
  {| Auth.users := [{| Auth.u_id := 1; Auth.u_username := "ann";
                       Auth.u_password_hash := toy_hash "secret" |}];
     Auth.users_seq := 1 |}.

Definition logging_in : Auth.login_world :=
  {| Auth.accounts := ann; Auth.typed := ["ann"];
     Auth.secrets := [" secret"]; Auth.shown := []; Auth.asked := [] |}.

Definition registering_again : Auth.login_world :=
  {| Auth.accounts := ann; Auth.typed := ["ann"];
     Auth.secrets := ["other"; "other"]; Auth.shown := [];
     Auth.asked := [] |}.

End Session.

(** * Properties *)

(** ** Runs of the model *)

Example strip_ex :
  strip "  Food " = "Food" /\ lower (strip " InCome") = "income"
  /\ int_of_str " 42" = Some 42 /\ int_of_str "4_2" = Some 42
  /\ int_of_str "-7" = Some (-7) /\ int_of_str "4__2" = None
  /\ int_of_str "" = None /\ int_of_str "x" = None
  /\ zero_pad 2 5 = "05" /\ zero_pad 4 2024 = "2024" /\ ljust 5 "ab" = "ab   "
  /\ capitalize "income" = "Income" /\ str_of_int (-3) = "-3".
Proof. repeat split; vm_compute; reflexivity. Qed.

Example date_ex : strptime "2024-1-5" = Some (2024, 1, 5)
  /\ strptime "2024-10-11" = Some (2024, 10, 11)
  /\ strptime "2024-02-30" = None /\ strptime "2024-02-29" = Some (2024, 2, 29)
  /\ strptime "2023-02-29" = None /\ strptime "24-01-05" = None
  /\ strptime "2024-13-01" = None /\ strptime "2024-1-35" = None
  /\ strptime "0000-01-01" = None /\ strptime "2024-01- 5" = Some (2024,1,5)
  /\ strptime "2024-1005" = None /\ strptime "2024-12-31" = Some (2024,12,31)
  /\ strptime "2024/01/05" = None /\ strptime "2024-01-05x" = None
  /\ Sqlite.strftime_Ym "2024-1-5" = None
  /\ Sqlite.strftime_Ym "2024-01-05" = Some "2024-01"
  /\ Sqlite.strftime_Ym "2024-02-29" = Some "2024-02"
  /\ isoformat (2024, 1, 5) = "2024-01-05".
Proof. repeat split; vm_compute; reflexivity. Qed.

Example run_ex :
  let d1 := store_after (add_transaction 1) empty_db
              ["income"; "Salary"; "5000"; "2024-10-11"] (2024, 10, 20) in
  let d2 := store_after (add_transaction 1) d1
              ["Expense"; " Food"; "200"; ""] (2024, 10, 20) in
  transactions d2 =
    [ {| t_id := 1; t_user := 1; t_type := "income"; t_category := "Salary";
         t_amount := 5000; t_date := "2024-10-11" |};
      {| t_id := 2; t_user := 1; t_type := "expense"; t_category := "Food";
         t_amount := 200; t_date := "2024-10-20" |} ]
  /\ report_of d2 (2024, 10, 11) 1 "monthly"
     = Some {| period_str := "2024-10"; total_income := 5000;
               total_expenses := 200 |}
  /\ rev (stdout (snd (generate_report 1 "monthly"
                           (session d2 [] (2024, 10, 11)))))
     = [ nl ++ "--- Monthly Financial Report (2024-10) ---";
         "Total Income: 5000.00"; "Total Expenses: 200.00";
         "Savings: 4800.00" ++ nl ].
Proof. repeat split; vm_compute; reflexivity. Qed.

(** ** Comparisons of floats *)

Lemma SFcompare_antisym (x y : spec_float) :
  SFcompare y x = option_map CompOpp (SFcompare x y).
Proof.
  destruct x as [sx|sx| |sx mx ex], y as [sy|sy| |sy my ey]; simpl;
    try reflexivity; try (destruct sx; reflexivity);
    try (destruct sy; reflexivity); try (destruct sx, sy; reflexivity).
  fold (Pos.compare mx my). fold (Pos.compare my mx).
  rewrite (Z.compare_antisym ex ey), (Pos.compare_antisym mx my).
  destruct sx, sy; try reflexivity;
    destruct (ex ?= ey)%Z; simpl; try reflexivity;
    destruct (mx ?= my)%positive; reflexivity.
Qed.


Lemma Prim2SF_zero : Prim2SF 0%float = S754_zero false.
Proof. reflexivity. Qed.






(** ** The status of a budget *)

Lemma find_filter {A : Type} (p : A -> bool) (l : list A) :
  find p l = hd_error (filter p l).
Proof.
  induction l as [|x l IH]; simpl; [reflexivity|].
  destruct (p x); [reflexivity | exact IH].
Qed.





Example food_scenario :
  evaluate_category Scenario.food_budget 1 "Food" = OK
  /\ evaluate_category Scenario.food_budget 1 "Rent" = NoBudget
  /\ evaluate_category Scenario.food_exceeded 1 "Food" = Exceeded
  /\ hd_error (stdout (snd (add_transaction 1
        (session Scenario.food_at_limit
           ["expense"; "Food"; "1"; "2024-10-11"] Scenario.day))))
     = Some "Alert: You have exceeded your budget for 'Food'.".
Proof. repeat split; vm_compute; reflexivity. Qed.

(** The status depends on the sum of the database.  Ten expenses of 0.1
    against a budget of 1.0 reach the limit where SQLite sums with
    compensation (the total is 1.0), and stay below it where it adds the
    amounts one by one (the total is the float just below 1.0). *)
Example tenths_scenario :
  @evaluate_category compensated_sum Scenario.tenths 1 "Food"
  = AtLimit
  /\ @evaluate_category plain_sum Scenario.tenths 1 "Food" = OK
  /\ @spent compensated_sum Scenario.tenths 1 "Food" = 1%float
  /\ @spent plain_sum Scenario.tenths 1 "Food"
     = 0x1.fffffffffffffp-1%float
  /\ CompensatedSum.total
       [0x1.999999999999ap-4; 0x1.999999999999ap-3; 0x1.3333333333333p-2]%float
     = 0x1.3333333333333p-1%float
  /\ PlainSum.total
       [0x1.999999999999ap-4; 0x1.999999999999ap-3; 0x1.3333333333333p-2]%float
     = 0x1.3333333333334p-1%float.
Proof. repeat split; vm_compute; reflexivity. Qed.

(** ** Running the procedures *)

Lemma print_each_run {A : Type} (f : A -> string) (l : list A) (w : world) :
  print_each f l w = (Done tt, wrote (rev (map f l)) w).
Proof.
  revert w. induction l as [|x l IH]; intros [d i o t].
  - reflexivity.
  - cbn [print_each]. unfold bind at 1. cbn [print]. rewrite IH.
    unfold wrote. cbn [db stdin stdout today map rev].
    now rewrite <- app_assoc.
Qed.

Section Runs.

Context {FT : PyFloatText} {DB : SqliteSum}.

Lemma check_budget_run (user_id : Z) (category : string) (w : world) :
  check_budget user_id category w
  = (Done tt,
     wrote (budget_output category
              (evaluate_category (db w) user_id category)) w).
Proof.
  destruct w as [d i o t]. unfold check_budget, bind, get_db.
  cbn [db]. destruct (evaluate_category d user_id category); reflexivity.
Qed.

Lemma view_transactions_run (user_id : Z) (w : world) :
  view_transactions user_id w
  = (Done tt, wrote (view_output (Sql.select_transactions (db w) user_id)) w).
Proof.
  destruct w as [d i o t]. unfold view_transactions, bind at 1, get_db.
  cbn [db]. destruct (Sql.select_transactions d user_id) as [|r rows] eqn:E.
  - reflexivity.
  - unfold bind, print. cbn [db stdin stdout today].
    rewrite print_each_run. unfold wrote, view_output.
    cbn [db stdin stdout today]. now rewrite <- app_assoc.
Qed.

End Runs.

(** ** Statements on the tables *)

Lemma existsb_find_some {A : Type} (p : A -> bool) (l : list A) (x : A) :
  find p l = Some x -> existsb p l = true.
Proof.
  intros H. apply existsb_exists. exists x.
  apply find_some in H. exact H.
Qed.

Lemma find_map_same {A : Type} (p : A -> bool) (f : A -> A) (l : list A) :
  (forall x, p (f x) = p x) ->
  find p (map f l) = option_map f (find p l).
Proof.
  intros Hp. induction l as [|x l IH]; simpl; [reflexivity|].
  rewrite Hp. destruct (p x); [reflexivity | exact IH].
Qed.

(** After an UPDATE that went through, the row read back carries the four
    values of the statement. *)
Lemma select_after_update (d d' : database) (ty category : string)
    (amount : float) (date : string) (txn_id user_id : Z) (txn : txn_row) :
  Sql.select_transaction d txn_id user_id = Some txn ->
  Sql.update_transaction d ty category amount date txn_id user_id = Some d' ->
  Sql.select_transaction d' txn_id user_id
  = Some {| t_id := t_id txn; t_user := t_user txn; t_type := ty;
            t_category := category; t_amount := amount; t_date := date |}.
Proof.
  unfold Sql.select_transaction, Sql.update_transaction. intros Hsel.
  rewrite (existsb_find_some _ _ _ Hsel). cbn [negb].
  destruct (Sql.real_not_null amount && Sql.check_type ty); [|discriminate].
  intros [= <-]. cbn [transactions].
  rewrite find_map_same.
  - rewrite Hsel. cbn [option_map]. apply find_some in Hsel.
    destruct Hsel as [_ ->]. reflexivity.
  - intros x. destruct (Sql.is_txn txn_id user_id x) eqn:E; [|exact E].
    exact E.
Qed.

Lemma NoDup_map_inj {A B : Type} (f : A -> B) (l : list A) (x y : A) :
  NoDup (map f l) -> In x l -> In y l -> f x = f y -> x = y.
Proof.
  induction l as [|z l IH]; simpl; [contradiction|].
  intros Hnd Hx Hy Hf. inversion Hnd as [|? ? Hz Hnd']; subst.
  destruct Hx as [->|Hx], Hy as [->|Hy].
  - reflexivity.
  - exfalso. apply Hz. rewrite Hf. now apply in_map.
  - exfalso. apply Hz. rewrite <- Hf. now apply in_map.
  - now apply IH.
Qed.

(** An UPDATE that writes back the values the row has changes nothing:
    the id is a key, so the row is the only one it touches. *)
Lemma update_same_values (d d' : database) (txn_id user_id : Z)
    (txn : txn_row) :
  unique_ids d ->
  Sql.select_transaction d txn_id user_id = Some txn ->
  Sql.update_transaction d (t_type txn) (t_category txn) (t_amount txn)
    (t_date txn) txn_id user_id = Some d' ->
  d' = d.
Proof.
  unfold unique_ids, Sql.select_transaction, Sql.update_transaction.
  intros Hnd Hsel. rewrite (existsb_find_some _ _ _ Hsel). cbn [negb].
  destruct (Sql.real_not_null (t_amount txn) && Sql.check_type (t_type txn));
    [|discriminate].
  intros [= <-]. destruct d as [txns sq bs bq]. cbn [transactions] in *.
  f_equal. rewrite <- (map_id txns) at 2. apply map_ext_in.
  intros r Hr. destruct (Sql.is_txn txn_id user_id r) eqn:E; [|reflexivity].
  apply find_some in Hsel. destruct Hsel as [Hin Htxn].
  assert (r = txn) as ->.
  { apply (NoDup_map_inj t_id txns); auto.
    unfold Sql.is_txn in E, Htxn.
    apply andb_prop in E, Htxn. destruct E as [E _], Htxn as [Htxn _].
    apply Z.eqb_eq in E, Htxn. congruence. }
  destruct txn; reflexivity.
Qed.

Lemma select_after_delete (d : database) (txn_id user_id : Z) :
  Sql.select_transaction (Sql.delete_transaction d txn_id user_id)
    txn_id user_id = None.
Proof.
  unfold Sql.select_transaction, Sql.delete_transaction. cbn [transactions].
  destruct (find _ _) as [r|] eqn:E; [|reflexivity].
  apply find_some in E. destruct E as [Hin Hr].
  apply filter_In in Hin. destruct Hin as [_ Hn].
  rewrite Hr in Hn. discriminate.
Qed.

Lemma In_insert_date_desc (r x : txn_row) (l : list txn_row) :
  In x (Sql.insert_date_desc r l) <-> x = r \/ In x l.
Proof.
  induction l as [|y l IH]; simpl.
  - intuition.
  - destruct (String.leb (t_date y) (t_date r)); simpl; rewrite ?IH; intuition.
Qed.

(** Sorting keeps the rows. *)
Lemma In_order_by_date_desc (x : txn_row) (l : list txn_row) :
  In x (Sql.order_by_date_desc l) <-> In x l.
Proof.
  induction l as [|y l IH]; simpl; [reflexivity|].
  rewrite In_insert_date_desc, IH. intuition.
Qed.

Lemma In_select_transactions (d : database) (user_id : Z) (r : txn_row) :
  In r (Sql.select_transactions d user_id)
  <-> In r (transactions d) /\ t_user r = user_id.
Proof.
  unfold Sql.select_transactions. rewrite In_order_by_date_desc, filter_In.
  unfold Sql.owned_by. now rewrite Z.eqb_eq.
Qed.

(** The rows a user sees do not depend on the rows of an id that is not
    theirs. *)
Lemma select_transactions_without_id (d : database) (user_id txn_id : Z) :
  (forall r, In r (transactions d) -> t_id r = txn_id -> t_user r <> user_id) ->
  Sql.select_transactions (without_id txn_id d) user_id
  = Sql.select_transactions d user_id.
Proof.
  intros H. unfold Sql.select_transactions, without_id. cbn [transactions].
  f_equal. induction (transactions d) as [|r l IH]; [reflexivity|].
  cbn [filter]. assert (Hl : forall r, In r l -> t_id r = txn_id ->
                               t_user r <> user_id).
  { intros r' Hr'. apply H. now right. }
  destruct (t_id r =? txn_id) eqn:E; cbn [negb filter].
  - apply Z.eqb_eq in E. unfold Sql.owned_by at 2.
    destruct (t_user r =? user_id) eqn:Eu.
    + apply Z.eqb_eq in Eu. exfalso. apply (H r); [now left| |]; assumption.
    + now apply IH.
  - destruct (Sql.owned_by user_id r); [f_equal|]; now apply IH.
Qed.

Lemma select_transaction_foreign (d : database) (a b txn_id : Z) :
  unique_ids d -> a <> b ->
  (exists r, In r (transactions d) /\ t_id r = txn_id /\ t_user r = b) ->
  (forall r, In r (transactions d) -> t_id r = txn_id -> t_user r <> a)
  /\ Sql.select_transaction d txn_id a = None.
Proof.
  intros Hnd Hab (r0 & Hin0 & Hid0 & Hu0).
  assert (H : forall r, In r (transactions d) -> t_id r = txn_id ->
                        t_user r <> a).
  { intros r Hin Hid. assert (r = r0) as ->; [|congruence].
    apply (NoDup_map_inj t_id (transactions d)); auto. congruence. }
  split; [exact H|]. unfold Sql.select_transaction.
  destruct (find _ _) as [r|] eqn:E; [|reflexivity].
  apply find_some in E. destruct E as [Hin Hr]. unfold Sql.is_txn in Hr.
  apply andb_prop in Hr. destruct Hr as [Hi Hu].
  apply Z.eqb_eq in Hi, Hu. exfalso. now apply (H r).
Qed.

Lemma select_transaction_without_id (d : database) (txn_id user_id : Z) :
  Sql.select_transaction (without_id txn_id d) txn_id user_id = None.
Proof.
  unfold Sql.select_transaction, without_id. cbn [transactions].
  destruct (find _ _) as [r|] eqn:E; [|reflexivity].
  apply find_some in E. destruct E as [Hin Hr].
  apply filter_In in Hin. destruct Hin as [_ Hn].
  unfold Sql.is_txn in Hr. apply andb_prop in Hr. destruct Hr as [Hi _].
  rewrite Hi in Hn. discriminate.
Qed.

(** ** Adding and updating transactions *)

Section Ledger.

Context {FT : PyFloatText} {DB : SqliteSum}.

(** C3: [add_transaction] on a type outside income/expense, an empty
    category, an amount [<= 0] or a date reply that is given and does not
    parse reports the invalid input and leaves the store as it was. *)
Theorem add_transaction_rejects_invalid (user_id : Z) (w : world)
    (ty cat amt dt : string) (rest : list string) :
  stdin w = ty :: cat :: amt :: dt :: rest ->
  mem (lower (strip ty)) ["income"; "expense"] = false
  \/ strip cat = ""
  \/ (exists a, float_of_str (strip amt) = Some a /\ (a <=? 0)%float = true)
  \/ (strip dt <> "" /\ strptime (strip dt) = None) ->
  exists msg w',
    add_transaction user_id w = (Done tt, w')
    /\ db w' = db w
    /\ hd_error (stdout w') = Some msg
    /\ In msg invalid_input_messages.
Proof.
  intros Hin Hbad. destruct w as [d i o t]. cbn [stdin] in Hin. subst i.
  unfold add_transaction.
  cbv beta iota zeta delta [bind input print db stdin stdout today].
  destruct (mem (lower (strip ty)) ["income"; "expense"]) eqn:Hty; cbn [negb].
  2: { eexists _, _. split; [reflexivity|]. cbn. intuition. }
  destruct (strip cat) as [|c0 cat'] eqn:Hcat; cbn [is_empty].
  { eexists _, _. split; [reflexivity|]. cbn. intuition. }
  destruct (float_of_str (strip amt)) as [a|] eqn:Hamt.
  2: { eexists _, _. split; [reflexivity|]. cbn. intuition. }
  destruct (a <=? 0)%float eqn:Hle.
  { eexists _, _. split; [reflexivity|]. cbn. intuition. }
  destruct (strip dt) as [|c1 dt'] eqn:Hdt; cbn [is_empty].
  { exfalso. destruct Hbad as [H|[H|[(a' & H1 & H2)|[H _]]]]; congruence. }
  unfold strptime_ok.
  destruct (strptime (String c1 dt')) eqn:Hp.
  { exfalso. destruct Hbad as [H|[H|[(a' & H1 & H2)|[_ H]]]]; congruence. }
  eexists _, _. split; [reflexivity|]. cbn. intuition.
Qed.

(** C10: a date reply that is given is accepted by [add_transaction]
    exactly when [strptime] parses it with ['%Y-%m-%d'], and the row stores
    the reply as typed (stripped), not its ISO form; the same holds for the
    date of [update_transaction]; ['2024-1-5'] is such a reply. *)
Theorem date_reply_stored_verbatim :
  (forall (user_id : Z) (w : world) (ty cat amt dt : string)
          (rest : list string) (a : float),
      stdin w = ty :: cat :: amt :: dt :: rest ->
      mem (lower (strip ty)) ["income"; "expense"] = true ->
      strip cat <> "" ->
      float_of_str (strip amt) = Some a ->
      (a <=? 0)%float = false -> is_nan a = false ->
      strip dt <> "" ->
      exists w', add_transaction user_id w = (Done tt, w')
        /\ if strptime_ok (strip dt) then
             transactions (db w') =
             (transactions (db w) ++
              [{| t_id := transactions_seq (db w) + 1; t_user := user_id;
                  t_type := lower (strip ty); t_category := strip cat;
                  t_amount := a; t_date := strip dt |}])%list
           else db w' = db w
                /\ hd_error (stdout w') = Some "Invalid date format.")
  /\ (forall (user_id : Z) (w : world) (l ty cat amt dt : string)
             (rest : list string) (txn_id : Z) (txn : txn_row) (a : float),
      stdin w = l :: ty :: cat :: amt :: dt :: rest ->
      int_of_str (strip l) = Some txn_id ->
      Sql.select_transaction (db w) txn_id user_id = Some txn ->
      let updated_type :=
        if is_empty (lower (strip ty)) then t_type txn
        else lower (strip ty) in
      Sql.check_type updated_type = true ->
      (if is_empty (strip amt) then Some (t_amount txn)
       else float_of_str (strip amt)) = Some a ->
      (a <=? 0)%float = false -> is_nan a = false ->
      strip dt <> "" ->
      exists w', update_transaction user_id w = (Done tt, w')
        /\ if strptime_ok (strip dt) then
             Sql.select_transaction (db w') txn_id user_id =
             Some {| t_id := t_id txn; t_user := t_user txn;
                     t_type := updated_type;
                     t_category := if is_empty (strip cat)
                                   then t_category txn else strip cat;
                     t_amount := a; t_date := strip dt |}
           else db w' = db w
                /\ hd_error (stdout w') = Some "Invalid date format.")
  /\ strptime "2024-1-5" = Some (2024, 1, 5)
  /\ isoformat (2024, 1, 5) = "2024-01-05".
Proof.
  split; [|split; [|split; reflexivity]].
  - intros user_id [d i o t] ty cat amt dt rest a Hin Hty Hcat Hamt Hle Hnan
      Hdt.
    cbn [stdin] in Hin. subst i. unfold add_transaction.
    cbv beta iota zeta delta [bind input print execute get_today ret
                              db stdin stdout today].
    rewrite Hty. cbn [negb].
    destruct (strip cat) as [|c0 cat'] eqn:Ecat; [congruence|]. cbn [is_empty].
    rewrite Hamt, Hle.
    destruct (strip dt) as [|c1 dt'] eqn:Edt; [congruence|]. cbn [is_empty].
    destruct (strptime_ok (String c1 dt')).
    + unfold Sql.insert_transaction, Sql.real_not_null, Sql.check_type.
      rewrite Hnan, Hty. cbn [negb andb transactions].
      destruct (String.eqb (lower (strip ty)) "expense").
      * rewrite check_budget_run. eexists. split; [reflexivity|]. reflexivity.
      * eexists. split; [reflexivity|]. reflexivity.
    + eexists. split; [reflexivity|]. split; reflexivity.
  - intros user_id w l ty cat amt dt rest txn_id txn a Hin Hid Hsel
      updated_type Hchk Hamt Hle Hnan Hdt.
    unfold update_transaction. unfold bind at 1.
    rewrite view_transactions_run. destruct w as [d i o t].
    cbn [stdin db] in Hin, Hsel. subst i. unfold wrote.
    cbv beta iota zeta delta [bind input print execute get_db ret
                              db stdin stdout today].
    rewrite Hid, Hsel.
    assert (Hpass : negb (is_empty (lower (strip ty)))
                    && negb (mem (lower (strip ty)) ["income"; "expense"])
                    = false).
    { subst updated_type. unfold Sql.check_type in Hchk.
      destruct (is_empty (lower (strip ty))); [reflexivity|].
      rewrite Hchk. reflexivity. }
    rewrite Hpass, Hamt, Hle.
    destruct (strip dt) as [|c1 dt'] eqn:Edt; [congruence|].
    cbn [is_empty negb].
    destruct (strptime_ok (String c1 dt')); cbn [negb andb].
    + fold updated_type.
      destruct (Sql.update_transaction d updated_type
                  (if is_empty (strip cat) then t_category txn else strip cat)
                  a (String c1 dt') txn_id user_id) as [d'|] eqn:Eup.
      * pose proof (select_after_update _ _ _ _ _ _ _ _ _ Hsel Eup) as Hnew.
        destruct (String.eqb updated_type "expense").
        -- rewrite check_budget_run. eexists. split; [reflexivity|]. exact Hnew.
        -- eexists. split; [reflexivity|]. exact Hnew.
      * exfalso. unfold Sql.update_transaction in Eup.
        rewrite (existsb_find_some _ _ _ Hsel) in Eup.
        unfold Sql.real_not_null in Eup. rewrite Hnan, Hchk in Eup.
        discriminate.
    + eexists. split; [reflexivity|]. split; reflexivity.
Qed.

(** C9: on a transaction that exists, [delete_transaction] removes the row
    only when the reply to the confirmation, stripped and lowered, is ['y'];
    on any other reply it leaves the store as it was and reports that the
    deletion is cancelled, without an error. *)
Theorem delete_needs_confirmation (user_id : Z) (w : world)
    (l reply : string) (rest : list string) (txn_id : Z) (txn : txn_row) :
  stdin w = l :: reply :: rest ->
  int_of_str (strip l) = Some txn_id ->
  Sql.select_transaction (db w) txn_id user_id = Some txn ->
  exists w', delete_transaction user_id w = (Done tt, w')
    /\ if String.eqb (lower (strip reply)) "y" then
         db w' = Sql.delete_transaction (db w) txn_id user_id
         /\ Sql.select_transaction (db w') txn_id user_id = None
       else
         db w' = db w
         /\ hd_error (stdout w') = Some "Deletion cancelled.".
Proof.
  intros Hin Hid Hsel. unfold delete_transaction. unfold bind at 1.
  rewrite view_transactions_run. destruct w as [d i o t].
  cbn [stdin db] in Hin, Hsel. subst i. unfold wrote.
  cbv beta iota zeta delta [bind input print execute get_db ret
                            db stdin stdout today].
  rewrite Hid, Hsel.
  destruct (String.eqb (lower (strip reply)) "y").
  - eexists. split; [reflexivity|]. cbn [db]. split; [reflexivity|].
    apply select_after_delete.
  - eexists. split; [reflexivity|]. split; reflexivity.
Qed.

Lemma confirmed_delete_run (user_id : Z) (w : world)
    (l reply : string) (rest : list string) (txn_id : Z) (txn : txn_row) :
  stdin w = l :: reply :: rest ->
  int_of_str (strip l) = Some txn_id ->
  Sql.select_transaction (db w) txn_id user_id = Some txn ->
  lower (strip reply) = "y" ->
  exists w', delete_transaction user_id w = (Done tt, w')
    /\ db w' = Sql.delete_transaction (db w) txn_id user_id.
Proof.
  intros Hin Hid Hsel Hy. unfold delete_transaction. unfold bind at 1.
  rewrite view_transactions_run. destruct w as [d i o t].
  cbn [stdin db] in Hin, Hsel. subst i. unfold wrote.
  cbv beta iota zeta delta [bind input print execute get_db ret
                            db stdin stdout today].
  rewrite Hid, Hsel, Hy. cbn [String.eqb Ascii.eqb Bool.eqb andb].
  eexists. split; reflexivity.
Qed.

Lemma delete_not_found (user_id : Z) (w : world) (l : string)
    (rest : list string) (txn_id : Z) :
  stdin w = l :: rest ->
  int_of_str (strip l) = Some txn_id ->
  Sql.select_transaction (db w) txn_id user_id = None ->
  delete_transaction user_id w
  = (Done tt,
     {| db := db w; stdin := rest;
        stdout := "Transaction not found."
                  :: "Enter the ID of the transaction to delete: "
                  :: (view_output (Sql.select_transactions (db w) user_id)
                      ++ stdout w)%list;
        today := today w |}).
Proof.
  intros Hin Hid Hsel. unfold delete_transaction. unfold bind at 1.
  rewrite view_transactions_run. destruct w as [d i o t].
  cbn [stdin db] in Hin, Hsel. subst i. unfold wrote.
  cbv beta iota zeta delta [bind input print execute get_db ret
                            db stdin stdout today].
  rewrite Hid, Hsel. reflexivity.
Qed.

Lemma update_not_found (user_id : Z) (w : world) (l : string)
    (rest : list string) (txn_id : Z) :
  stdin w = l :: rest ->
  int_of_str (strip l) = Some txn_id ->
  Sql.select_transaction (db w) txn_id user_id = None ->
  update_transaction user_id w
  = (Done tt,
     {| db := db w; stdin := rest;
        stdout := "Transaction not found."
                  :: "Enter the ID of the transaction to update: "
                  :: (view_output (Sql.select_transactions (db w) user_id)
                      ++ stdout w)%list;
        today := today w |}).
Proof.
  intros Hin Hid Hsel. unfold update_transaction. unfold bind at 1.
  rewrite view_transactions_run. destruct w as [d i o t].
  cbn [stdin db] in Hin, Hsel. subst i. unfold wrote.
  cbv beta iota zeta delta [bind input print execute get_db ret
                            db stdin stdout today].
  rewrite Hid, Hsel. reflexivity.
Qed.

(** C7: after [delete_transaction] on a transaction of the user, confirmed
    with ['y'], the list of the user holds the rows it held but that one, and
    a second [delete_transaction] on the same id finds no transaction. *)
Theorem delete_then_list (user_id : Z) (w : world) (l reply : string)
    (rest : list string) (txn_id : Z) (txn : txn_row) :
  stdin w = l :: reply :: rest ->
  int_of_str (strip l) = Some txn_id ->
  Sql.select_transaction (db w) txn_id user_id = Some txn ->
  lower (strip reply) = "y" ->
  exists w1, delete_transaction user_id w = (Done tt, w1)
    /\ (forall r, In r (Sql.select_transactions (db w1) user_id)
                  <-> In r (Sql.select_transactions (db w) user_id)
                      /\ t_id r <> txn_id)
    /\ view_transactions user_id w1
       = (Done tt,
          wrote (view_output (Sql.select_transactions (db w1) user_id)) w1)
    /\ (forall w2 l2 rest2,
          db w2 = db w1 -> stdin w2 = l2 :: rest2 ->
          int_of_str (strip l2) = Some txn_id ->
          exists w3, delete_transaction user_id w2 = (Done tt, w3)
            /\ db w3 = db w2
            /\ hd_error (stdout w3) = Some "Transaction not found.").
Proof.
  intros Hin Hid Hsel Hy.
  destruct (confirmed_delete_run user_id w l reply rest txn_id txn
              Hin Hid Hsel Hy) as (w1 & Hrun & Hdb).
  exists w1. split; [exact Hrun|]. split; [|split].
  - intros r. rewrite !In_select_transactions, Hdb.
    unfold Sql.delete_transaction. cbn [transactions]. rewrite filter_In.
    unfold Sql.is_txn. split.
    + intros [[Hr Hn] Hu]. repeat split; auto. intros Hi.
      apply Z.eqb_eq in Hi, Hu. rewrite Hi, Hu in Hn. discriminate.
    + intros [[Hr Hu] Hi]. repeat split; auto.
      apply Z.eqb_neq in Hi. rewrite Hi. reflexivity.
  - apply view_transactions_run.
  - intros w2 l2 rest2 Hdb2 Hin2 Hid2.
    assert (Hnone : Sql.select_transaction (db w2) txn_id user_id = None).
    { rewrite Hdb2, Hdb. apply select_after_delete. }
    rewrite (delete_not_found user_id w2 l2 rest2 txn_id Hin2 Hid2 Hnone).
    eexists. split; [reflexivity|]. split; reflexivity.
Qed.

(** C5: [update_transaction] and [delete_transaction] called by user [a] on
    the id of a transaction of another user [b] report that the transaction
    is not found and leave the store as it was; what they read and write on
    the console is what they read and write when the store has no
    transaction of that id. *)
Theorem foreign_id_not_found (a b : Z) (w : world) (l : string)
    (rest : list string) (txn_id : Z) :
  a <> b ->
  unique_ids (db w) ->
  (exists r, In r (transactions (db w)) /\ t_id r = txn_id /\ t_user r = b) ->
  stdin w = l :: rest ->
  int_of_str (strip l) = Some txn_id ->
  let w0 := with_db w (without_id txn_id (db w)) in
  (exists w' w0',
      update_transaction a w = (Done tt, w')
      /\ db w' = db w
      /\ hd_error (stdout w') = Some "Transaction not found."
      /\ update_transaction a w0 = (Done tt, w0')
      /\ db w0' = db w0 /\ stdout w0' = stdout w' /\ stdin w0' = stdin w')
  /\ (exists w' w0',
      delete_transaction a w = (Done tt, w')
      /\ db w' = db w
      /\ hd_error (stdout w') = Some "Transaction not found."
      /\ delete_transaction a w0 = (Done tt, w0')
      /\ db w0' = db w0 /\ stdout w0' = stdout w' /\ stdin w0' = stdin w').
Proof.
  intros Hab Hnd Hrow Hin Hid w0.
  destruct (select_transaction_foreign (db w) a b txn_id Hnd Hab Hrow)
    as [Hforeign Hnone].
  assert (Hin0 : stdin w0 = l :: rest) by exact Hin.
  assert (Hnone0 : Sql.select_transaction (db w0) txn_id a = None)
    by apply select_transaction_without_id.
  assert (Hview : Sql.select_transactions (db w0) a
                  = Sql.select_transactions (db w) a)
    by (apply select_transactions_without_id; exact Hforeign).
  split.
  - rewrite (update_not_found a w l rest txn_id Hin Hid Hnone).
    rewrite (update_not_found a w0 l rest txn_id Hin0 Hid Hnone0).
    eexists _, _. split; [reflexivity|]. cbn [db stdin stdout hd_error].
    rewrite Hview. repeat split; reflexivity.
  - rewrite (delete_not_found a w l rest txn_id Hin Hid Hnone).
    rewrite (delete_not_found a w0 l rest txn_id Hin0 Hid Hnone0).
    eexists _, _. split; [reflexivity|]. cbn [db stdin stdout hd_error].
    rewrite Hview. repeat split; reflexivity.
Qed.

(** C6: [update_transaction] on a transaction of the user with all four
    replies blank leaves the store as it was; and whatever the replies, a
    field whose reply is blank keeps the value it had. *)
Theorem update_keeps_blank_fields (user_id : Z) (w : world)
    (l ty cat amt dt : string) (rest : list string) (txn_id : Z)
    (txn : txn_row) :
  unique_ids (db w) ->
  stdin w = l :: ty :: cat :: amt :: dt :: rest ->
  int_of_str (strip l) = Some txn_id ->
  Sql.select_transaction (db w) txn_id user_id = Some txn ->
  let w' := snd (update_transaction user_id w) in
  (strip ty = "" -> strip cat = "" -> strip amt = "" -> strip dt = "" ->
   db w' = db w)
  /\ exists txn',
       Sql.select_transaction (db w') txn_id user_id = Some txn'
       /\ (strip ty = "" -> t_type txn' = t_type txn)
       /\ (strip cat = "" -> t_category txn' = t_category txn)
       /\ (strip amt = "" -> t_amount txn' = t_amount txn)
       /\ (strip dt = "" -> t_date txn' = t_date txn).
Proof.
  intros Hnd Hin Hid Hsel w'.
  set (kept := fun d' : database =>
    (strip ty = "" -> strip cat = "" -> strip amt = "" -> strip dt = "" ->
     d' = db w)
    /\ exists txn',
         Sql.select_transaction d' txn_id user_id = Some txn'
         /\ (strip ty = "" -> t_type txn' = t_type txn)
         /\ (strip cat = "" -> t_category txn' = t_category txn)
         /\ (strip amt = "" -> t_amount txn' = t_amount txn)
         /\ (strip dt = "" -> t_date txn' = t_date txn)).
  change (kept (db w')).
  assert (Hkeep : kept (db w)).
  { split; [reflexivity|]. exists txn. split; [exact Hsel|].
    repeat split; reflexivity. }
  assert (Hres : forall updated_amount d',
    (if is_empty (strip amt) then Some (t_amount txn)
     else float_of_str (strip amt)) = Some updated_amount ->
    Sql.update_transaction (db w)
      (if is_empty (lower (strip ty)) then t_type txn else lower (strip ty))
      (if is_empty (strip cat) then t_category txn else strip cat)
      updated_amount
      (if is_empty (strip dt) then t_date txn else strip dt)
      txn_id user_id = Some d' ->
    kept d').
  { intros updated_amount d' Eamt Eup.
    pose proof (select_after_update _ _ _ _ _ _ _ _ _ Hsel Eup) as Hnew.
    split.
    - intros Hty Hcat Hamt Hdt.
      rewrite Hty, Hcat, Hdt in Eup. rewrite Hamt in Eamt.
      cbn [lower is_empty] in Eup, Eamt. injection Eamt as <-.
      exact (update_same_values (db w) d' txn_id user_id txn Hnd Hsel Eup).
    - eexists. split; [exact Hnew|]. cbn [t_type t_category t_amount t_date].
      repeat split.
      + intros ->. reflexivity.
      + intros ->. reflexivity.
      + intros E. rewrite E in Eamt. cbn [is_empty] in Eamt. congruence.
      + intros ->. reflexivity. }
  clearbody kept. set (kept_in := fun w0 : world => kept (db w0)).
  change (kept_in w'). subst w'.
  unfold update_transaction. unfold bind at 1.
  rewrite view_transactions_run. destruct w as [d i o t].
  cbn [stdin db] in Hin, Hsel, Hkeep, Hres. subst i. unfold wrote.
  cbv beta iota zeta delta [bind input print execute get_db ret
                            db stdin stdout today].
  rewrite Hid, Hsel.
  destruct (negb (is_empty (lower (strip ty)))
            && negb (mem (lower (strip ty)) ["income"; "expense"]));
    [exact Hkeep|].
  destruct (if is_empty (strip amt) then Some (t_amount txn)
            else float_of_str (strip amt)) as [updated_amount|] eqn:Eamt;
    [|exact Hkeep].
  destruct (updated_amount <=? 0)%float; [exact Hkeep|].
  destruct (negb (is_empty (strip dt)) && negb (strptime_ok (strip dt)));
    [exact Hkeep|].
  destruct (Sql.update_transaction d _ _ updated_amount _ txn_id user_id)
    as [d'|] eqn:Eup; [|exact Hkeep].
  specialize (Hres updated_amount d' eq_refl Eup).
  destruct (String.eqb _ "expense").
  - rewrite check_budget_run. exact Hres.
  - exact Hres.
Qed.

End Ledger.

(** ** Budgets *)

Section Budgets.

Context {FT : PyFloatText} {DB : SqliteSum}.

(** One call either leaves the store or runs the upsert. *)
Lemma after_call_eq (day : date) (d : database) (c : budget_call) :
  after_call day d c
  = match call_value c with
    | Some a =>
        match Sql.upsert_budget d (call_user c) (strip (call_category c)) a
        with
        | Some d' => d'
        | None => d
        end
    | None => d
    end.
Proof.
  unfold after_call, store_after, session, set_budget, call_value.
  cbv beta iota zeta delta [bind input print try_execute ret
                            db stdin stdout today].
  destruct (is_empty (strip (call_category c))); [reflexivity|].
  destruct (float_of_str (strip (call_amount c))) as [a|]; [|reflexivity].
  destruct (a <=? 0)%float; [reflexivity|]. cbn [orb].
  destruct (is_nan a) eqn:Hnan.
  - unfold Sql.upsert_budget, Sql.real_not_null. rewrite Hnan. reflexivity.
  - destruct (Sql.upsert_budget d (call_user c) (strip (call_category c)) a);
      reflexivity.
Qed.

Lemma is_budget_eq (u u' : Z) (c c' : string) (b : budget_row) :
  Sql.is_budget u c b = true -> Sql.is_budget u' c' b = true ->
  (u' =? u) && String.eqb c' c = true.
Proof.
  unfold Sql.is_budget. intros H H'.
  apply andb_prop in H, H'. destruct H as [Hu Hc], H' as [Hu' Hc'].
  apply Z.eqb_eq in Hu, Hu'. apply String.eqb_eq in Hc, Hc'.
  subst. now rewrite Z.eqb_refl, String.eqb_refl.
Qed.

(** The rows of (user, category) after an upsert on (u0, c0). *)
Lemma budget_rows_upsert (d d' : database) (u0 : Z) (c0 : string) (a : float)
    (user_id : Z) (category : string) :
  Sql.upsert_budget d u0 c0 a = Some d' ->
  (List.length (budget_rows d user_id category) <= 1)%nat ->
  map b_amount (budget_rows d' user_id category)
  = if (u0 =? user_id) && String.eqb c0 category then [a]
    else map b_amount (budget_rows d user_id category).
Proof.
  unfold Sql.upsert_budget, budget_rows.
  destruct (negb (Sql.real_not_null a)); [discriminate|].
  destruct (existsb (Sql.is_budget u0 c0) (budgets d)) eqn:Hex.
  - intros [= <-] Hone. cbn [budgets].
    destruct ((u0 =? user_id) && String.eqb c0 category) eqn:Hkey.
    + apply andb_prop in Hkey. destruct Hkey as [Hu Hc].
      apply Z.eqb_eq in Hu. apply String.eqb_eq in Hc. subst u0 c0.
      induction (budgets d) as [|b l IH]; [discriminate|].
      cbn [existsb map filter] in *.
      destruct (Sql.is_budget user_id category b) eqn:Hb.
      * cbn [filter]. change (Sql.is_budget user_id category
                                {| b_id := b_id b; b_user := b_user b;
                                   b_category := b_category b;
                                   b_amount := a |})
          with (Sql.is_budget user_id category b). rewrite Hb.
        cbn [map b_amount List.length] in *. f_equal.
        assert (Hnil : filter (Sql.is_budget user_id category) l = []).
        { destruct (filter _ l); [reflexivity|]. cbn in Hone. lia. }
        clear IH Hex Hone. induction l as [|b' l IH]; [reflexivity|].
        cbn [filter map] in *.
        destruct (Sql.is_budget user_id category b') eqn:Hb';
          [discriminate|]. rewrite Hb'. auto.
      * rewrite Hb. cbn [orb] in Hex. apply IH; assumption.
    + clear Hex Hone. induction (budgets d) as [|b l IH]; [reflexivity|].
      cbn [map filter].
      destruct (Sql.is_budget u0 c0 b) eqn:Hb.
      * change (Sql.is_budget user_id category
                  {| b_id := b_id b; b_user := b_user b;
                     b_category := b_category b; b_amount := a |})
          with (Sql.is_budget user_id category b).
        destruct (Sql.is_budget user_id category b) eqn:Hb'.
        -- rewrite (is_budget_eq _ _ _ _ b Hb' Hb) in Hkey. discriminate.
        -- exact IH.
      * destruct (Sql.is_budget user_id category b); cbn [map]; now rewrite IH.
  - intros [= <-] Hone. cbn [budgets]. rewrite filter_app, map_app.
    cbn [filter]. unfold Sql.is_budget at 2. cbn [b_user b_category].
    destruct ((u0 =? user_id) && String.eqb c0 category) eqn:Hkey.
    + apply andb_prop in Hkey. destruct Hkey as [Hu Hc].
      apply Z.eqb_eq in Hu. apply String.eqb_eq in Hc. subst u0 c0.
      assert (Hnil : filter (Sql.is_budget user_id category) (budgets d) = []).
      { destruct (filter _ _) as [|b l] eqn:E; [reflexivity|].
        assert (Hin : In b (filter (Sql.is_budget user_id category)
                              (budgets d))) by (rewrite E; now left).
        apply filter_In in Hin. destruct Hin as [Hin Hb].
        assert (existsb (Sql.is_budget user_id category) (budgets d) = true)
          by (apply existsb_exists; eauto).
        congruence. }
      rewrite Hnil. reflexivity.
    + cbn [map]. now rewrite app_nil_r.
Qed.

Lemma upsert_budget_some (d : database) (u : Z) (c : string) (a : float) :
  is_nan a = false -> exists d', Sql.upsert_budget d u c a = Some d'.
Proof.
  intros H. unfold Sql.upsert_budget, Sql.real_not_null. rewrite H.
  cbn [negb]. destruct (existsb _ _); eauto.
Qed.

Lemma call_value_not_nan (c : budget_call) (a : float) :
  call_value c = Some a -> is_nan a = false.
Proof.
  unfold call_value. destruct (is_empty _); [discriminate|].
  destruct (float_of_str _) as [x|]; [|discriminate].
  destruct (x <=? 0)%float; [discriminate|]. cbn [orb].
  destruct (is_nan x) eqn:E; [discriminate|]. now intros [= <-].
Qed.

(** The rows of (user, category) after one call. *)
Lemma budget_rows_after_call (day : date) (d : database) (c : budget_call)
    (user_id : Z) (category : string) :
  (List.length (budget_rows d user_id category) <= 1)%nat ->
  map b_amount (budget_rows (after_call day d c) user_id category)
  = match (if (call_user c =? user_id)
              && String.eqb (strip (call_category c)) category
           then call_value c else None) with
    | Some a => [a]
    | None => map b_amount (budget_rows d user_id category)
    end.
Proof.
  intros Hone. rewrite after_call_eq.
  destruct (call_value c) as [a|] eqn:Hv.
  - destruct (upsert_budget_some d (call_user c) (strip (call_category c)) a
                (call_value_not_nan c a Hv)) as [d' Hup].
    rewrite Hup, (budget_rows_upsert _ _ _ _ _ _ _ Hup Hone).
    destruct ((call_user c =? user_id) && _); reflexivity.
  - destruct ((call_user c =? user_id) && _); reflexivity.
Qed.

Lemma last_set_snoc (cs : list budget_call) (c : budget_call) (user_id : Z)
    (category : string) :
  last_set (cs ++ [c]) user_id category
  = if (call_user c =? user_id)
       && String.eqb (strip (call_category c)) category
    then match call_value c with
         | Some a => Some a
         | None => last_set cs user_id category
         end
    else last_set cs user_id category.
Proof. unfold last_set. now rewrite fold_left_app. Qed.

Lemma after_calls_snoc (day : date) (d : database) (cs : list budget_call)
    (c : budget_call) :
  after_calls day d (cs ++ [c]) = after_call day (after_calls day d cs) c.
Proof. unfold after_calls. now rewrite fold_left_app. Qed.

(** C2: [set_budget] inserts or overwrites: when (user, category) has at
    most one budget row to start with, then after any sequence of calls it
    has at most one row, and once a valid call for it was made, exactly one,
    with the amount of the most recent such call. *)
Theorem set_budget_upsert (day : date) (d : database) (cs : list budget_call)
    (user_id : Z) (category : string) :
  (List.length (budget_rows d user_id category) <= 1)%nat ->
  map b_amount (budget_rows (after_calls day d cs) user_id category)
  = match last_set cs user_id category with
    | Some a => [a]
    | None => map b_amount (budget_rows d user_id category)
    end
  /\ (List.length (budget_rows (after_calls day d cs) user_id category) <= 1)%nat.
Proof.
  intros Hone. induction cs as [|c cs IH] using rev_ind.
  - split; [reflexivity | exact Hone].
  - destruct IH as [IHv IHl].
    rewrite after_calls_snoc, last_set_snoc.
    pose proof (budget_rows_after_call day _ c user_id category IHl) as Hc.
    split.
    + rewrite Hc. destruct ((call_user c =? user_id) && _); [|exact IHv].
      destruct (call_value c); [reflexivity | exact IHv].
    + rewrite <- (length_map b_amount), Hc.
      destruct (if (call_user c =? user_id) && _ then call_value c else None).
      * cbn. lia.
      * rewrite length_map. exact IHl.
Qed.

End Budgets.

(** ** Reports *)

Lemma In_distinct (x : string) (l : list string) :
  In x (Sql.distinct l) <-> In x l.
Proof.
  induction l as [|y l IH]; simpl; [reflexivity|].
  rewrite filter_In, IH. destruct (String.eqb_spec x y) as [->|Hxy].
  - intuition.
  - cbn [negb]. intuition congruence.
Qed.

(** The loop of [generate_report] over the groups of given keys, each with
    the sum [f] of its key. *)
Lemma read_report_groups (f : string -> float) (keys : list string)
    (acc : float * float) :
  fold_left
    (fun (acc : float * float) (row : string * float) =>
       if String.eqb (fst row) "income" then (snd row, snd acc)
       else if String.eqb (fst row) "expense" then (fst acc, snd row)
       else acc)
    (map (fun ty => (ty, f ty)) keys) acc
  = (if existsb (String.eqb "income") keys then f "income" else fst acc,
     if existsb (String.eqb "expense") keys then f "expense" else snd acc).
Proof.
  revert acc. induction keys as [|k keys IH]; intros [a b].
  - reflexivity.
  - cbn [map fold_left fst snd existsb]. rewrite IH. cbn [fst snd].
    rewrite (String.eqb_sym "income" k), (String.eqb_sym "expense" k).
    destruct (String.eqb_spec k "income") as [->|Hi].
    + cbn [orb String.eqb Ascii.eqb Bool.eqb andb fst snd].
      destruct (existsb _ keys), (existsb _ keys); reflexivity.
    + destruct (String.eqb_spec k "expense") as [->|He]; cbn [orb fst snd].
      * destruct (existsb _ keys), (existsb _ keys); reflexivity.
      * reflexivity.
Qed.

Lemma filter_none {A : Type} (p : A -> bool) (l : list A) :
  (forall x, In x l -> p x = false) -> filter p l = [].
Proof.
  induction l as [|x l IH]; intros H; [reflexivity|]. cbn [filter].
  rewrite (H x (or_introl eq_refl)). apply IH. intros y Hy. apply H. now right.
Qed.

(** The totals read off the groups are the sums of the income rows and of
    the expense rows among the rows the WHERE clause kept. *)
Lemma read_report_group_sum (DB : SqliteSum) (rows : list txn_row) :
  read_report (Sql.group_sum_by_type rows)
  = (sum_or_zero (amounts_of "income" rows),
     sum_or_zero (amounts_of "expense" rows)).
Proof.
  unfold read_report, Sql.group_sum_by_type.
  rewrite (read_report_groups
             (fun ty => sum_real
                          (map t_amount
                             (filter (fun r => String.eqb (t_type r) ty)
                                rows)))).
  cbn [fst snd]. fold (amounts_of "income" rows).
  fold (amounts_of "expense" rows).
  assert (H : forall ty,
    existsb (String.eqb ty) (Sql.distinct (map t_type rows))
    = match amounts_of ty rows with [] => false | _ => true end).
  { intros ty. unfold amounts_of.
    destruct (existsb _ _) eqn:Hex.
    - apply existsb_exists in Hex. destruct Hex as (k & Hk & E).
      apply String.eqb_eq in E. subst k.
      apply (proj1 (In_distinct ty _)) in Hk.
      apply in_map_iff in Hk. destruct Hk as (r & Hr & Hin).
      assert (Hf : In r (filter (fun r => String.eqb (t_type r) ty) rows)).
      { apply filter_In. split; [exact Hin|]. rewrite Hr.
        apply String.eqb_refl. }
      destruct (filter _ rows); [destruct Hf | reflexivity].
    - rewrite filter_none; [reflexivity|]. intros r Hr.
      destruct (String.eqb_spec (t_type r) ty) as [E|]; [|reflexivity].
      assert (existsb (String.eqb ty) (Sql.distinct (map t_type rows)) = true);
        [|congruence].
      apply existsb_exists. exists (t_type r). split.
      + apply In_distinct. now apply in_map.
      + subst ty. apply String.eqb_refl. }
  rewrite !H. unfold sum_or_zero.
  destruct (amounts_of "income" rows), (amounts_of "expense" rows);
    reflexivity.
Qed.

Section Reports.

Context {FT : PyFloatText} {DB : SqliteSum}.

(** What the monthly report adds up: the rows of the user whose date text
    SQLite reads as a date of the month of the day. *)
Lemma report_of_monthly (d : database) (day : date) (user_id : Z) :
  report_of d day user_id "monthly"
  = let p := PyDate.strftime_Ym day in
    let rows := filter (Sql.in_month user_id p) (transactions d) in
    Some {| period_str := p;
            total_income := sum_or_zero (amounts_of "income" rows);
            total_expenses := sum_or_zero (amounts_of "expense" rows) |}.
Proof.
  unfold report_of, Sql.select_month_sums.
  cbn [String.eqb Ascii.eqb Bool.eqb andb]. now rewrite read_report_group_sum.
Qed.

Lemma report_of_yearly (d : database) (day : date) (user_id : Z) :
  report_of d day user_id "yearly"
  = let p := PyDate.strftime_Y day in
    let rows := filter (Sql.in_year user_id p) (transactions d) in
    Some {| period_str := p;
            total_income := sum_or_zero (amounts_of "income" rows);
            total_expenses := sum_or_zero (amounts_of "expense" rows) |}.
Proof.
  unfold report_of, Sql.select_year_sums.
  cbn [String.eqb Ascii.eqb Bool.eqb andb]. now rewrite read_report_group_sum.
Qed.

End Reports.

(** C4: a salary of 5000 entered with the date typed as 2024-1-5, which
    [add_transaction] accepts as 5 January 2024, is an income of January
    2024 and of the year 2024; the monthly and the yearly report of
    20 January 2024 show a total income of 0. *)
Theorem report_misses_unpadded_date :
  transactions Scenario.unpadded_income
  = [{| t_id := 1; t_user := 1; t_type := "income"; t_category := "Salary";
        t_amount := 5000; t_date := "2024-1-5" |}]
  /\ strptime "2024-1-5" = Some (2024, 1, 5)
  /\ period_total Scenario.unpadded_income (2024, 1, 20) 1 "monthly" "income"
     = 5000%float
  /\ period_total Scenario.unpadded_income (2024, 1, 20) 1 "yearly" "income"
     = 5000%float
  /\ report_of Scenario.unpadded_income (2024, 1, 20) 1 "monthly"
     = Some {| period_str := "2024-01"; total_income := 0;
               total_expenses := 0 |}
  /\ report_of Scenario.unpadded_income (2024, 1, 20) 1 "yearly"
     = Some {| period_str := "2024"; total_income := 0;
               total_expenses := 0 |}.
Proof. repeat split; vm_compute; reflexivity. Qed.

(** No row is summed there: the reports miss the salary whatever the sum of
    the database. *)
Example report_unpadded_any_sum (DB : SqliteSum) :
  report_of Scenario.unpadded_income (2024, 1, 20) 1 "monthly"
  = Some {| period_str := "2024-01"; total_income := 0;
            total_expenses := 0 |}
  /\ report_of Scenario.unpadded_income (2024, 1, 20) 1 "yearly"
     = Some {| period_str := "2024"; total_income := 0;
               total_expenses := 0 |}.
Proof. split; vm_compute; reflexivity. Qed.

(** With the date typed as 2024-01-05 the same salary is in both reports. *)
Example report_padded_date :
  let d := store_after (add_transaction 1) empty_db
             ["income"; "Salary"; "5000"; "2024-01-05"] (2024, 1, 5) in
  report_of d (2024, 1, 20) 1 "monthly"
  = Some {| period_str := "2024-01"; total_income := 5000;
            total_expenses := 0 |}
  /\ report_of d (2024, 1, 20) 1 "yearly"
     = Some {| period_str := "2024"; total_income := 5000;
               total_expenses := 0 |}.
Proof. repeat split; vm_compute; reflexivity. Qed.

(** ** Listing *)

Lemma string_leb_refl (s : string) : String.leb s s = true.
Proof.
  unfold String.leb. pose proof (String.compare_antisym s s) as H.
  destruct (String.compare s s); try reflexivity. discriminate.
Qed.

Lemma insert_date_desc_sorted (r : txn_row) (l : list txn_row) :
  Sorted (fun a b => String.leb (t_date b) (t_date a) = true) l ->
  Sorted (fun a b => String.leb (t_date b) (t_date a) = true)
    (Sql.insert_date_desc r l).
Proof.
  induction l as [|x l IH]; intros Hs; cbn [Sql.insert_date_desc].
  - repeat constructor.
  - destruct (String.leb (t_date x) (t_date r)) eqn:E.
    + constructor; [exact Hs|]. constructor. exact E.
    + inversion Hs as [|? ? Hs' Hhd]; subst. constructor; [now apply IH|].
      destruct l as [|y l]; cbn [Sql.insert_date_desc].
      * constructor. destruct (String.leb_total (t_date x) (t_date r));
          congruence.
      * destruct (String.leb (t_date y) (t_date r)).
        -- constructor. destruct (String.leb_total (t_date x) (t_date r));
             congruence.
        -- inversion Hhd; subst. now constructor.
Qed.

(** The list comes out by date text, the greatest first. *)
Lemma select_transactions_sorted (d : database) (user_id : Z) :
  Sorted (fun a b => String.leb (t_date b) (t_date a) = true)
    (Sql.select_transactions d user_id).
Proof.
  unfold Sql.select_transactions, Sql.order_by_date_desc.
  induction (filter _ _) as [|r l IH]; cbn [fold_right].
  - constructor.
  - now apply insert_date_desc_sorted.
Qed.

Lemma filter_insert_date_desc (s : string) (r : txn_row) (l : list txn_row) :
  filter (fun x => String.eqb (t_date x) s) (Sql.insert_date_desc r l)
  = filter (fun x => String.eqb (t_date x) s) (r :: l).
Proof.
  induction l as [|x l IH]; [reflexivity|].
  cbn [Sql.insert_date_desc].
  destruct (String.leb (t_date x) (t_date r)) eqn:E; [reflexivity|].
  cbn [filter] in *. rewrite IH.
  destruct (String.eqb_spec (t_date r) s) as [Hr|Hr]; [|reflexivity].
  destruct (String.eqb_spec (t_date x) s) as [Hx|Hx]; [|reflexivity].
  rewrite Hr, Hx, string_leb_refl in E. discriminate.
Qed.

(** Rows with the same date text keep the order of the table. *)
Lemma select_transactions_stable (d : database) (user_id : Z) (s : string) :
  filter (fun r => String.eqb (t_date r) s) (Sql.select_transactions d user_id)
  = filter (fun r => String.eqb (t_date r) s)
      (filter (Sql.owned_by user_id) (transactions d)).
Proof.
  unfold Sql.select_transactions, Sql.order_by_date_desc.
  induction (filter (Sql.owned_by user_id) _) as [|r l IH];
    [reflexivity|]. cbn [fold_right]. rewrite filter_insert_date_desc.
  cbn [filter]. now rewrite IH.
Qed.

(** A user without transactions gets the empty list, and a message. *)
Lemma select_transactions_none (FT : PyFloatText) (w : world) (user_id : Z) :
  (forall r, In r (transactions (db w)) -> t_user r <> user_id) ->
  Sql.select_transactions (db w) user_id = []
  /\ view_transactions user_id w
     = (Done tt, wrote ["No transactions found."] w).
Proof.
  intros H.
  assert (E : Sql.select_transactions (db w) user_id = []).
  { unfold Sql.select_transactions. rewrite filter_none; [reflexivity|].
    intros r Hr. apply Z.eqb_neq. now apply H. }
  split; [exact E|]. rewrite view_transactions_run, E. reflexivity.
Qed.

(** C8: an expense entered for 2024-01-10 and then one entered with the
    date typed as 2024-1-5 are listed with 5 January first, above
    10 January: the list is ordered by the text of the dates, not by the
    days. *)
Theorem list_not_chronological :
  map t_date (transactions Scenario.two_expenses) = ["2024-01-10"; "2024-1-5"]
  /\ map strptime ["2024-01-10"; "2024-1-5"]
     = [Some (2024, 1, 10); Some (2024, 1, 5)]
  /\ map t_date (Sql.select_transactions Scenario.two_expenses 1)
     = ["2024-1-5"; "2024-01-10"]
  /\ chronological_desc
       (map t_date (Sql.select_transactions Scenario.two_expenses 1)) = false.
Proof. repeat split; vm_compute; reflexivity. Qed.

(** ** The constraints of the tables hold in every store the program
    reaches *)

Section Invariant.

Context {FT : PyFloatText} {DB : SqliteSum}.

Variable P : database -> Prop.

Lemma preserves_ret {A : Type} (a : A) : preserves P (ret a).
Proof. intros w H. exact H. Qed.

Lemma preserves_print (s : string) : preserves P (print s).
Proof. intros w H. exact H. Qed.

Lemma preserves_bind {A B : Type} (m : M A) (k : A -> M B) :
  preserves P m -> (forall a, preserves P (k a)) -> preserves P (bind m k).
Proof.
  intros Hm Hk w H. unfold bind. specialize (Hm w H).
  destruct (m w) as [[a|e] w1]; cbn [snd] in *.
  - now apply Hk.
  - exact Hm.
Qed.

Lemma preserves_input {B : Type} (prompt : string) (k : string -> M B) :
  (forall l, preserves P (k l)) -> preserves P (bind (input prompt) k).
Proof.
  intros Hk. apply preserves_bind; [|exact Hk].
  intros w H. unfold input. destruct (stdin w); exact H.
Qed.

Lemma preserves_get_db {B : Type} (k : database -> M B) :
  (forall d, P d -> preserves P (k d)) -> preserves P (bind get_db k).
Proof. intros Hk w H. unfold bind, get_db. now apply Hk. Qed.

Lemma preserves_get_today {B : Type} (k : date -> M B) :
  (forall t, preserves P (k t)) -> preserves P (bind get_today k).
Proof. intros Hk w H. unfold bind, get_today. now apply Hk. Qed.

Lemma preserves_execute (stmt : database -> option database) :
  (forall d d', P d -> stmt d = Some d' -> P d') -> preserves P (execute stmt).
Proof.
  intros Hs w H. unfold execute. destruct (stmt (db w)) as [d'|] eqn:E.
  - cbn [snd db]. now apply (Hs (db w)).
  - exact H.
Qed.

Lemma preserves_try_execute (stmt : database -> option database) :
  (forall d d', P d -> stmt d = Some d' -> P d') ->
  preserves P (try_execute stmt).
Proof.
  intros Hs w H. unfold try_execute. destruct (stmt (db w)) as [d'|] eqn:E.
  - cbn [snd db]. now apply (Hs (db w)).
  - exact H.
Qed.

Lemma preserves_print_each {A : Type} (f : A -> string) (l : list A) :
  preserves P (print_each f l).
Proof. intros w H. rewrite print_each_run. exact H. Qed.

Lemma preserves_check_budget (user_id : Z) (category : string) :
  preserves P (check_budget user_id category).
Proof. intros w H. rewrite check_budget_run. exact H. Qed.

Lemma preserves_view_transactions (user_id : Z) :
  preserves P (view_transactions user_id).
Proof. intros w H. rewrite view_transactions_run. exact H. Qed.

Hypothesis P_insert : forall d d' u ty c a dt,
  P d -> Sql.insert_transaction d u ty c a dt = Some d' -> P d'.
Hypothesis P_update : forall d d' ty c a dt i u,
  P d -> Sql.update_transaction d ty c a dt i u = Some d' -> P d'.
Hypothesis P_delete : forall d i u,
  P d -> P (Sql.delete_transaction d i u).
Hypothesis P_upsert : forall d d' u c a,
  P d -> Sql.upsert_budget d u c a = Some d' -> P d'.

Ltac preserve :=
  repeat first
    [ apply preserves_view_transactions
    | apply preserves_check_budget
    | apply preserves_try_execute
    | apply preserves_execute
    | apply preserves_print
    | apply preserves_ret
    | apply preserves_input; intros ?
    | apply preserves_get_db; intros ? ?
    | apply preserves_get_today; intros ?
    | apply preserves_bind; [|intros ?]
    | match goal with
      | |- preserves _ (if ?c then _ else _) => destruct c
      | |- preserves _ (match ?x with Some _ => _ | None => _ end) =>
          destruct x eqn:?
      end ].

Lemma preserves_generate_report (user_id : Z) (period : string) :
  preserves P (generate_report user_id period).
Proof. unfold generate_report. preserve. Qed.

Lemma preserves_add_transaction (user_id : Z) :
  preserves P (add_transaction user_id).
Proof.
  unfold add_transaction. cbv zeta. preserve;
    intros d d' Hd E; exact (P_insert _ _ _ _ _ _ _ Hd E).
Qed.

Lemma preserves_update_transaction (user_id : Z) :
  preserves P (update_transaction user_id).
Proof.
  unfold update_transaction. cbv zeta. preserve;
    intros d' d'' Hd E; exact (P_update _ _ _ _ _ _ _ _ Hd E).
Qed.

Lemma preserves_delete_transaction (user_id : Z) :
  preserves P (delete_transaction user_id).
Proof.
  unfold delete_transaction. preserve.
  intros d' d'' Hd [= <-]. now apply P_delete.
Qed.

Lemma preserves_set_budget (user_id : Z) :
  preserves P (set_budget user_id).
Proof.
  unfold set_budget. cbv zeta. preserve.
  intros d d' Hd E. exact (P_upsert _ _ _ _ _ Hd E).
Qed.

Lemma preserves_run_command (c : command) : preserves P (run_command c).
Proof.
  destruct c; cbn [run_command].
  - apply preserves_add_transaction.
  - apply preserves_view_transactions.
  - apply preserves_update_transaction.
  - apply preserves_delete_transaction.
  - apply preserves_generate_report.
  - apply preserves_set_budget.
Qed.

End Invariant.

Lemma map_id_update (ty c : string) (a : float) (dt : string) (i u : Z)
    (l : list txn_row) :
  map t_id
    (map (fun r =>
            if Sql.is_txn i u r then
              {| t_id := t_id r; t_user := t_user r; t_type := ty;
                 t_category := c; t_amount := a; t_date := dt |}
            else r) l)
  = map t_id l.
Proof.
  rewrite map_map. apply map_ext. intros r.
  destruct (Sql.is_txn i u r); reflexivity.
Qed.

(** Dropping rows keeps the ids distinct. *)
Lemma ids_distinct_after_filter (keep : txn_row -> bool)
    (rows : list txn_row) :
  NoDup (map t_id rows) -> NoDup (map t_id (filter keep rows)).
Proof.
  induction rows as [|r rows IH]; cbn [map filter]; [intros _; constructor|].
  rewrite NoDup_cons_iff. intros [Hfresh Hrest].
  destruct (keep r); [|now apply IH].
  cbn [map]. apply NoDup_cons; [|now apply IH].
  rewrite in_map_iff. intros (r' & Hid & Hin).
  apply Hfresh. rewrite <- Hid. apply in_map.
  now apply (proj1 (filter_In keep r' rows)).
Qed.

Lemma store_ok_empty : store_ok empty_db.
Proof.
  unfold store_ok, unique_ids. cbn.
  split; [constructor | split; [constructor | intros _ _; lia]].
Qed.

Lemma store_ok_insert (d d' : database) (u : Z) (ty c : string) (a : float)
    (dt : string) :
  store_ok d -> Sql.insert_transaction d u ty c a dt = Some d' -> store_ok d'.
Proof.
  intros (Hnd & Hle & Hb). unfold Sql.insert_transaction.
  destruct (Sql.real_not_null a && Sql.check_type ty); [|discriminate].
  intros [= <-]. unfold store_ok, unique_ids. cbn [transactions
    transactions_seq]. repeat split.
  - rewrite map_app. cbn [map t_id].
    apply NoDup_app; [exact Hnd | repeat constructor; intros []|].
    intros x Hx [<-|[]]. apply in_map_iff in Hx.
    destruct Hx as (r & Hr & Hin). rewrite Forall_forall in Hle.
    specialize (Hle r Hin). lia.
  - apply Forall_app. split.
    + eapply Forall_impl; [|exact Hle]. cbn beta. intros r Hr. lia.
    + repeat constructor. cbn [t_id]. lia.
  - exact Hb.
Qed.

Lemma store_ok_update (d d' : database) (ty c : string) (a : float)
    (dt : string) (i u : Z) :
  store_ok d -> Sql.update_transaction d ty c a dt i u = Some d' ->
  store_ok d'.
Proof.
  intros (Hnd & Hle & Hb). unfold Sql.update_transaction.
  destruct (negb (existsb _ _)); [intros [= <-]; repeat split; assumption|].
  destruct (Sql.real_not_null a && Sql.check_type ty); [|discriminate].
  intros [= <-]. unfold store_ok, unique_ids. cbn [transactions
    transactions_seq]. repeat split.
  - rewrite map_id_update. exact Hnd.
  - rewrite Forall_forall in *. intros r Hr. apply in_map_iff in Hr.
    destruct Hr as (r0 & <- & Hin). specialize (Hle r0 Hin).
    destruct (Sql.is_txn i u r0); exact Hle.
  - exact Hb.
Qed.

Lemma store_ok_delete (d : database) (i u : Z) :
  store_ok d -> store_ok (Sql.delete_transaction d i u).
Proof.
  intros (Hnd & Hle & Hb). unfold store_ok, unique_ids, Sql.delete_transaction.
  cbn [transactions transactions_seq]. repeat split.
  - now apply ids_distinct_after_filter.
  - rewrite Forall_forall in *. intros r Hr. apply filter_In in Hr.
    now apply Hle.
  - exact Hb.
Qed.

Lemma store_ok_upsert (d d' : database) (u : Z) (c : string) (a : float) :
  store_ok d -> Sql.upsert_budget d u c a = Some d' -> store_ok d'.
Proof.
  intros (Hnd & Hle & Hb) Hup.
  assert (Htx : transactions d' = transactions d
                /\ transactions_seq d' = transactions_seq d).
  { unfold Sql.upsert_budget in Hup.
    destruct (negb (Sql.real_not_null a)); [discriminate|].
    destruct (existsb _ _); injection Hup as <-; split; reflexivity. }
  destruct Htx as [Ht Hs]. unfold store_ok, unique_ids.
  rewrite Ht, Hs. repeat split; [exact Hnd | exact Hle |].
  intros user_id category. rewrite <- (length_map b_amount).
  rewrite (budget_rows_upsert d d' u c a user_id category Hup (Hb _ _)).
  destruct ((u =? user_id) && String.eqb c category).
  - cbn. lia.
  - rewrite length_map. apply Hb.
Qed.

(** X23: every store the program reaches from the empty database satisfies
    the key constraints of its tables: the ids of the transactions are
    distinct and not above the last id handed out, and (user, category) has
    at most one budget. *)
Lemma reachable_store_ok (FT : PyFloatText) (DB : SqliteSum) (d : database) :
  reachable d -> store_ok d.
Proof.
  induction 1 as [|d c lines day Hr IH].
  - exact store_ok_empty.
  - unfold store_after.
    apply (preserves_run_command store_ok store_ok_insert store_ok_update
             store_ok_delete store_ok_upsert c (session d lines day)).
    exact IH.
Qed.

(** ** The theorems at work on the scenarios *)

Lemma set_budget_upsert_witness :
  (List.length (budget_rows empty_db 1 "Food") <= 1)%nat
  /\ map b_amount
       (budget_rows (after_calls Scenario.day empty_db Scenario.food_calls)
          1 "Food")
     = [250%float].
Proof.
  split; [repeat constructor|].
  rewrite (proj1 (set_budget_upsert Scenario.day empty_db Scenario.food_calls
                    1 "Food" (le_S 0 0 (le_n 0)))).
  vm_compute. reflexivity.
Defined.

Lemma add_transaction_rejects_invalid_witness :
  exists msg w',
    add_transaction 1
      (session empty_db ["expense"; "Food"; "0"; "2024-10-11"] Scenario.day)
    = (Done tt, w')
    /\ db w' = empty_db
    /\ hd_error (stdout w') = Some msg
    /\ In msg invalid_input_messages.
Proof.
  apply (add_transaction_rejects_invalid 1
           (session empty_db ["expense"; "Food"; "0"; "2024-10-11"]
              Scenario.day)
           "expense" "Food" "0" "2024-10-11" [] eq_refl).
  right. right. left. exists 0%float. split; reflexivity.
Defined.

Lemma date_reply_stored_verbatim_witness :
  exists w',
    add_transaction 1
      (session empty_db ["income"; "Salary"; "5000"; "2024-1-5"] Scenario.day)
    = (Done tt, w')
    /\ transactions (db w')
       = [{| t_id := 1; t_user := 1; t_type := "income";
             t_category := "Salary"; t_amount := 5000;
             t_date := "2024-1-5" |}].
Proof.
  apply (proj1 date_reply_stored_verbatim 1
           (session empty_db ["income"; "Salary"; "5000"; "2024-1-5"]
              Scenario.day)
           "income" "Salary" "5000" "2024-1-5" [] 5000%float eq_refl eq_refl);
    [discriminate | reflexivity | reflexivity | reflexivity | discriminate].
Defined.

Lemma delete_needs_confirmation_witness :
  exists w',
    delete_transaction 1 (session Scenario.one_expense ["1"; "n"] Scenario.day)
    = (Done tt, w')
    /\ db w' = Scenario.one_expense
    /\ hd_error (stdout w') = Some "Deletion cancelled.".
Proof.
  apply (delete_needs_confirmation 1
           (session Scenario.one_expense ["1"; "n"] Scenario.day)
           "1" "n" [] 1 Scenario.food_row eq_refl eq_refl eq_refl).
Defined.

Lemma delete_then_list_witness :
  exists w1,
    delete_transaction 1 (session Scenario.one_expense ["1"; " Y"] Scenario.day)
    = (Done tt, w1)
    /\ forall r, ~ In r (Sql.select_transactions (db w1) 1).
Proof.
  destruct (delete_then_list 1
              (session Scenario.one_expense ["1"; " Y"] Scenario.day)
              "1" " Y" [] 1 Scenario.food_row eq_refl eq_refl eq_refl eq_refl)
    as (w1 & Hrun & Hlist & _).
  exists w1. split; [exact Hrun|]. intros r Hr.
  apply Hlist in Hr. destruct Hr as [[Hr|[]] Hid].
  apply Hid. rewrite <- Hr. reflexivity.
Defined.

Lemma foreign_id_not_found_witness :
  exists w',
    update_transaction 2 (session Scenario.one_expense ["1"] Scenario.day)
    = (Done tt, w')
    /\ db w' = Scenario.one_expense
    /\ hd_error (stdout w') = Some "Transaction not found.".
Proof.
  assert (Hnd : unique_ids Scenario.one_expense).
  { repeat constructor. intros []. }
  destruct (foreign_id_not_found 2 1
              (session Scenario.one_expense ["1"] Scenario.day) "1" [] 1
              ltac:(discriminate) Hnd
              (ex_intro _ Scenario.food_row
                 (conj (or_introl eq_refl) (conj eq_refl eq_refl)))
              eq_refl eq_refl)
    as [(w' & w0' & Hrun & Hdb & Hout & _) _].
  exists w'. repeat split; assumption.
Defined.

Lemma update_keeps_blank_fields_witness :
  db (snd (update_transaction 1
             (session Scenario.one_expense ["1"; ""; " "; ""; ""]
                Scenario.day)))
  = Scenario.one_expense.
Proof.
  assert (Hnd : unique_ids Scenario.one_expense).
  { repeat constructor. intros []. }
  apply (proj1 (update_keeps_blank_fields 1
                  (session Scenario.one_expense ["1"; ""; " "; ""; ""]
                     Scenario.day)
                  "1" "" " " "" "" [] 1 Scenario.food_row Hnd
                  eq_refl eq_refl eq_refl)); reflexivity.
Defined.

(** * Further properties *)

(** ** What a command leaves alone *)

Ltac preserve_step :=
  first
    [ apply preserves_view_transactions
    | apply preserves_check_budget
    | apply preserves_try_execute
    | apply preserves_execute
    | apply preserves_print
    | apply preserves_ret
    | apply preserves_input; intros ?
    | apply preserves_get_db; intros ? ?
    | apply preserves_get_today; intros ?
    | apply preserves_bind; [|intros ?]
    | match goal with
      | |- preserves _ (if ?c then _ else _) => destruct c eqn:?
      | |- preserves _ (match ?x with Some _ => _ | None => _ end) =>
          destruct x eqn:?
      end ].

Section Acting.

Context {FT : PyFloatText} {DB : SqliteSum}.

Variable P : database -> Prop.
Variable user_id : Z.

Hypothesis P_insert : forall d d' ty c a dt,
  P d -> Sql.insert_transaction d user_id ty c a dt = Some d' -> P d'.
Hypothesis P_update : forall d d' ty c a dt i,
  P d -> Sql.update_transaction d ty c a dt i user_id = Some d' -> P d'.
Hypothesis P_delete : forall d i,
  P d -> P (Sql.delete_transaction d i user_id).
Hypothesis P_upsert : forall d d' c a,
  P d -> Sql.upsert_budget d user_id c a = Some d' -> P d'.

Lemma acting_add_transaction : preserves P (add_transaction user_id).
Proof.
  unfold add_transaction. cbv zeta. repeat preserve_step;
    intros d d' Hd E; exact (P_insert _ _ _ _ _ _ Hd E).
Qed.

Lemma acting_update_transaction : preserves P (update_transaction user_id).
Proof.
  unfold update_transaction. cbv zeta. repeat preserve_step;
    intros d' d'' Hd E; exact (P_update _ _ _ _ _ _ _ Hd E).
Qed.

Lemma acting_delete_transaction : preserves P (delete_transaction user_id).
Proof.
  unfold delete_transaction. repeat preserve_step.
  intros d' d'' Hd [= <-]. now apply P_delete.
Qed.

Lemma acting_set_budget : preserves P (set_budget user_id).
Proof.
  unfold set_budget. cbv zeta. repeat preserve_step.
  intros d d' Hd E. exact (P_upsert _ _ _ _ Hd E).
Qed.

Lemma acting_command (c : command) :
  command_user c = user_id -> preserves P (run_command c).
Proof.
  destruct c; cbn [run_command command_user]; intros ->.
  - apply acting_add_transaction.
  - apply preserves_view_transactions.
  - apply acting_update_transaction.
  - apply acting_delete_transaction.
  - apply preserves_generate_report.
  - apply acting_set_budget.
Qed.

End Acting.

Lemma filter_filter_others (a b : Z) (rows : list txn_row) :
  b <> a ->
  filter (Sql.owned_by b) (filter (fun r => negb (t_user r =? a)) rows)
  = filter (Sql.owned_by b) rows.
Proof.
  intros Hba. induction rows as [|r rows IH]; [reflexivity|].
  cbn [filter]. unfold Sql.owned_by at 2.
  destruct (t_user r =? a) eqn:Ea; cbn [negb filter].
  - destruct (t_user r =? b) eqn:Eb; [|exact IH].
    apply Z.eqb_eq in Ea, Eb. congruence.
  - unfold Sql.owned_by at 1. destruct (t_user r =? b); now rewrite IH.
Qed.

Lemma filter_budgets_others (a b : Z) (rows : list budget_row) :
  b <> a ->
  filter (fun x => b_user x =? b) (filter (fun x => negb (b_user x =? a)) rows)
  = filter (fun x => b_user x =? b) rows.
Proof.
  intros Hba. induction rows as [|r rows IH]; [reflexivity|].
  cbn [filter]. destruct (b_user r =? a) eqn:Ea; cbn [negb filter].
  - destruct (b_user r =? b) eqn:Eb; [|exact IH].
    apply Z.eqb_eq in Ea, Eb. congruence.
  - destruct (b_user r =? b); now rewrite IH.
Qed.

Lemma others_after_insert (d d' : database) (a : Z) (ty c : string)
    (x : float) (dt : string) :
  Sql.insert_transaction d a ty c x dt = Some d' ->
  rows_of_others a d' = rows_of_others a d /\ budgets d' = budgets d.
Proof.
  unfold Sql.insert_transaction, rows_of_others.
  destruct (_ && _); [|discriminate]. intros [= <-]. cbn [transactions budgets].
  rewrite filter_app. cbn [filter t_user]. rewrite Z.eqb_refl. cbn [negb].
  now rewrite app_nil_r.
Qed.

Lemma others_after_update (d d' : database) (ty c : string) (x : float)
    (dt : string) (i a : Z) :
  Sql.update_transaction d ty c x dt i a = Some d' ->
  rows_of_others a d' = rows_of_others a d /\ budgets d' = budgets d.
Proof.
  unfold Sql.update_transaction, rows_of_others.
  destruct (negb (existsb _ _)); [intros [= <-]; split; reflexivity|].
  destruct (_ && _); [|discriminate]. intros [= <-]. cbn [transactions budgets].
  split; [|reflexivity].
  induction (transactions d) as [|r rows IH]; [reflexivity|].
  cbn [map filter]. destruct (Sql.is_txn i a r) eqn:E.
  - unfold Sql.is_txn in E. apply andb_prop in E. destruct E as [_ E].
    cbn [t_user]. rewrite E. cbn [negb]. exact IH.
  - destruct (negb (t_user r =? a)); now rewrite IH.
Qed.

Lemma others_after_delete (d : database) (i a : Z) :
  rows_of_others a (Sql.delete_transaction d i a) = rows_of_others a d
  /\ budgets (Sql.delete_transaction d i a) = budgets d.
Proof.
  unfold Sql.delete_transaction, rows_of_others. cbn [transactions budgets].
  split; [|reflexivity].
  induction (transactions d) as [|r rows IH]; [reflexivity|].
  cbn [filter]. destruct (Sql.is_txn i a r) eqn:E; cbn [negb filter].
  - unfold Sql.is_txn in E. apply andb_prop in E. destruct E as [_ E].
    rewrite E. cbn [negb]. exact IH.
  - destruct (negb (t_user r =? a)); now rewrite IH.
Qed.

Lemma others_after_upsert (d d' : database) (a : Z) (c : string) (x : float) :
  Sql.upsert_budget d a c x = Some d' ->
  transactions d' = transactions d
  /\ transactions_seq d' = transactions_seq d
  /\ budgets_of_others a d' = budgets_of_others a d.
Proof.
  unfold Sql.upsert_budget, budgets_of_others.
  destruct (negb (Sql.real_not_null x)); [discriminate|].
  destruct (existsb _ _); intros [= <-]; cbn [transactions transactions_seq
    budgets]; repeat split.
  - induction (budgets d) as [|b rows IH]; [reflexivity|].
    cbn [map filter]. destruct (Sql.is_budget a c b) eqn:E.
    + unfold Sql.is_budget in E. apply andb_prop in E. destruct E as [E _].
      cbn [b_user]. rewrite E. cbn [negb]. exact IH.
    + destruct (negb (b_user b =? a)); now rewrite IH.
  - rewrite filter_app. cbn [filter b_user]. rewrite Z.eqb_refl. cbn [negb].
    now rewrite app_nil_r.
Qed.

(** X1: whatever is typed to it, a command of one user leaves the
    transactions and the budgets of all other users as they were, so what
    another user lists is unchanged. *)
Theorem command_leaves_other_users (FT : PyFloatText) (DB : SqliteSum) (c : command)
    (w : world) :
  let d' := db (snd (run_command c w)) in
  rows_of_others (command_user c) d' = rows_of_others (command_user c) (db w)
  /\ budgets_of_others (command_user c) d'
     = budgets_of_others (command_user c) (db w)
  /\ forall b, b <> command_user c ->
       Sql.select_transactions d' b = Sql.select_transactions (db w) b
       /\ Sql.select_budgets d' b = Sql.select_budgets (db w) b.
Proof.
  intros d'.
  assert (H : rows_of_others (command_user c) d'
              = rows_of_others (command_user c) (db w)
              /\ budgets_of_others (command_user c) d'
                 = budgets_of_others (command_user c) (db w)).
  { subst d'.
    apply (acting_command
             (fun d => rows_of_others (command_user c) d
                       = rows_of_others (command_user c) (db w)
                       /\ budgets_of_others (command_user c) d
                          = budgets_of_others (command_user c) (db w))
             (command_user c)); try reflexivity; try (split; reflexivity).
    - intros d0 d1 ty cat a dt [Ht Hb] E.
      destruct (others_after_insert _ _ _ _ _ _ _ E) as [Ht' Hb'].
      unfold budgets_of_others in *. rewrite Ht', Hb'. now split.
    - intros d0 d1 ty cat a dt i [Ht Hb] E.
      destruct (others_after_update _ _ _ _ _ _ _ _ E) as [Ht' Hb'].
      unfold budgets_of_others in *. rewrite Ht', Hb'. now split.
    - intros d0 i [Ht Hb].
      destruct (others_after_delete d0 i (command_user c)) as [Ht' Hb'].
      unfold budgets_of_others in *. rewrite Ht', Hb'. now split.
    - intros d0 d1 cat a [Ht Hb] E.
      destruct (others_after_upsert _ _ _ _ _ E) as (Ht' & _ & Hb').
      unfold rows_of_others in *. rewrite Ht', Hb'. now split. }
  destruct H as [Ht Hb]. split; [exact Ht|]. split; [exact Hb|].
  intros b Hne. split.
  - unfold Sql.select_transactions.
    rewrite <- (filter_filter_others (command_user c) b (transactions d') Hne).
    rewrite <- (filter_filter_others (command_user c) b (transactions (db w))
                  Hne).
    unfold rows_of_others in Ht. now rewrite Ht.
  - unfold Sql.select_budgets.
    rewrite <- (filter_budgets_others (command_user c) b (budgets d') Hne).
    rewrite <- (filter_budgets_others (command_user c) b (budgets (db w)) Hne).
    unfold budgets_of_others in Hb. now rewrite Hb.
Qed.

(** X2: listing and reporting never write: whatever is typed and whatever
    the period, the store is the same after [view_transactions] and
    [generate_report]; the commands on transactions never touch the budgets,
    and [set_budget] never touches the transactions. *)
Theorem command_frame (FT : PyFloatText) (DB : SqliteSum) (c : command) (w : world) :
  let d' := db (snd (run_command c w)) in
  match c with
  | ViewTransactions _ | Report _ _ => d' = db w
  | SetBudget _ =>
      transactions d' = transactions (db w)
      /\ transactions_seq d' = transactions_seq (db w)
  | AddTransaction _ | UpdateTransaction _ | DeleteTransaction _ =>
      budgets d' = budgets (db w) /\ budgets_seq d' = budgets_seq (db w)
  end.
Proof.
  intros d'. subst d'. destruct c as [u|u|u|u|u p|u]; cbn [run_command].
  - apply (preserves_add_transaction
             (fun d => budgets d = budgets (db w)
                       /\ budgets_seq d = budgets_seq (db w)));
      [|split; reflexivity].
    intros d0 d1 u0 ty cat a dt H. unfold Sql.insert_transaction.
    destruct (_ && _); [|discriminate]. intros [= <-]. exact H.
  - now apply (preserves_view_transactions (fun d => d = db w)).
  - apply (preserves_update_transaction
             (fun d => budgets d = budgets (db w)
                       /\ budgets_seq d = budgets_seq (db w)));
      [|split; reflexivity].
    intros d0 d1 ty cat a dt i u0 H. unfold Sql.update_transaction.
    destruct (negb _); [intros [= <-]; exact H|].
    destruct (_ && _); [|discriminate]. intros [= <-]. exact H.
  - apply (preserves_delete_transaction
             (fun d => budgets d = budgets (db w)
                       /\ budgets_seq d = budgets_seq (db w)));
      [|split; reflexivity].
    intros d0 i u0 H. exact H.
  - now apply (preserves_generate_report (fun d => d = db w)).
  - apply (preserves_set_budget
             (fun d => transactions d = transactions (db w)
                       /\ transactions_seq d = transactions_seq (db w)));
      [|split; reflexivity].
    intros d0 d1 u0 cat a [Ht Hs] E.
    destruct (others_after_upsert _ _ _ _ _ E) as (Ht' & Hs' & _).
    rewrite Ht', Hs'. now split.
Qed.

(** ** The effect of a procedure on the store *)

Section Effects.

Context {FT : PyFloatText} {DB : SqliteSum}.

(** [add_transaction] either leaves the store or returns after one INSERT
    of values that passed its checks. *)
Lemma add_transaction_effect (user_id : Z) (w : world) :
  let r := add_transaction user_id w in
  db (snd r) = db w
  \/ (fst r = Done tt
      /\ exists ty cat a dt,
           mem ty ["income"; "expense"] = true
           /\ cat <> ""
           /\ (a <=? 0)%float = false
           /\ (dt = isoformat (today w) \/ strptime_ok dt = true)
           /\ Sql.insert_transaction (db w) user_id ty cat a dt
              = Some (db (snd r))).
Proof.
  intros r. assert (Hr : r = add_transaction user_id w) by reflexivity.
  clearbody r. revert Hr. destruct w as [d i o t].
  unfold add_transaction.
  cbv beta iota zeta delta [bind input print execute get_today ret
                            db stdin stdout today].
  destruct i as [|l1 i]; [intros ->; now left|].
  destruct (mem (lower (strip l1)) ["income"; "expense"]) eqn:Hty;
    cbn [negb]; [|intros ->; now left].
  destruct i as [|l2 i]; [intros ->; now left|].
  destruct (strip l2) as [|c0 cat'] eqn:Hcat; cbn [is_empty];
    [intros ->; now left|].
  destruct i as [|l3 i]; [intros ->; now left|].
  destruct (float_of_str (strip l3)) as [a|]; [|intros ->; now left].
  destruct (a <=? 0)%float eqn:Hle; [intros ->; now left|].
  destruct i as [|l4 i]; [intros ->; now left|].
  destruct (is_empty (strip l4)) eqn:Hdt.
  - destruct (Sql.insert_transaction d user_id (lower (strip l1))
                (String c0 cat') a (isoformat t)) as [d'|] eqn:Eins;
      [|intros ->; now left].
    destruct (String.eqb (lower (strip l1)) "expense");
      [rewrite check_budget_run|]; intros ->; right; (split; [reflexivity|]);
      exists (lower (strip l1)), (String c0 cat'), a, (isoformat t);
      cbn [snd db wrote today]; repeat split; auto; discriminate.
  - destruct (strptime_ok (strip l4)) eqn:Hok; [|intros ->; now left].
    destruct (Sql.insert_transaction d user_id (lower (strip l1))
                (String c0 cat') a (strip l4)) as [d'|] eqn:Eins;
      [|intros ->; now left].
    destruct (String.eqb (lower (strip l1)) "expense");
      [rewrite check_budget_run|]; intros ->; right; (split; [reflexivity|]);
      exists (lower (strip l1)), (String c0 cat'), a, (strip l4);
      cbn [snd db wrote today]; repeat split; auto; discriminate.
Qed.

(** [update_transaction] either leaves the store or returns after one
    UPDATE of the row whose id was typed first, with values that are the
    ones of the row or passed the checks. *)
Lemma update_transaction_effect (user_id : Z) (w : world) :
  let r := update_transaction user_id w in
  db (snd r) = db w
  \/ (fst r = Done tt
      /\ exists l rest txn_id txn ty cat a dt,
           stdin w = l :: rest
           /\ int_of_str (strip l) = Some txn_id
           /\ Sql.select_transaction (db w) txn_id user_id = Some txn
           /\ (ty = t_type txn \/ mem ty ["income"; "expense"] = true)
           /\ (cat = t_category txn \/ cat <> "")
           /\ (a <=? 0)%float = false
           /\ (dt = t_date txn \/ strptime_ok dt = true)
           /\ Sql.update_transaction (db w) ty cat a dt txn_id user_id
              = Some (db (snd r))).
Proof.
  intros r. assert (Hr : r = update_transaction user_id w) by reflexivity.
  clearbody r. revert Hr.
  unfold update_transaction. unfold bind at 1.
  rewrite view_transactions_run. destruct w as [d i o t]. unfold wrote.
  cbv beta iota zeta delta [bind input print execute get_db ret
                            db stdin stdout today].
  destruct i as [|l i]; [intros ->; now left|].
  destruct (int_of_str (strip l)) as [txn_id|] eqn:Hid; [|intros ->; now left].
  destruct (Sql.select_transaction d txn_id user_id) as [txn|] eqn:Hsel;
    [|intros ->; now left].
  destruct i as [|l1 i]; [intros ->; now left|].
  destruct (is_empty (lower (strip l1))) eqn:Hty; cbn [negb andb].
  - destruct i as [|l2 i]; [intros ->; now left|].
    destruct i as [|l3 i]; [intros ->; now left|].
    destruct i as [|l4 i]; [intros ->; now left|].
    destruct (if is_empty (strip l3) then Some (t_amount txn)
              else float_of_str (strip l3)) as [a|]; [|intros ->; now left].
    destruct (a <=? 0)%float eqn:Hle; [intros ->; now left|].
    destruct (negb (is_empty (strip l4)) && negb (strptime_ok (strip l4)))
      eqn:Hdt; [intros ->; now left|].
    destruct (Sql.update_transaction d (t_type txn)
                (if is_empty (strip l2) then t_category txn else strip l2)
                a (if is_empty (strip l4) then t_date txn else strip l4)
                txn_id user_id) as [d'|] eqn:Eup; [|intros ->; now left].
    destruct (String.eqb (t_type txn) "expense");
      [rewrite check_budget_run|]; intros ->; right; (split; [reflexivity|]);
      exists l, (l1 :: l2 :: l3 :: l4 :: i), txn_id, txn, (t_type txn),
        (if is_empty (strip l2) then t_category txn else strip l2), a,
        (if is_empty (strip l4) then t_date txn else strip l4);
      cbn [snd db wrote stdin];
      (repeat split; auto;
       [ destruct (strip l2); cbn [is_empty]; [now left | right; discriminate]
       | destruct (is_empty (strip l4)); [now left|]; right;
         cbn [negb andb] in Hdt; now destruct (strptime_ok (strip l4)) ]).
  - destruct (mem (lower (strip l1)) ["income"; "expense"]) eqn:Hmem;
      cbn [negb]; [|intros ->; now left].
    destruct i as [|l2 i]; [intros ->; now left|].
    destruct i as [|l3 i]; [intros ->; now left|].
    destruct i as [|l4 i]; [intros ->; now left|].
    destruct (if is_empty (strip l3) then Some (t_amount txn)
              else float_of_str (strip l3)) as [a|]; [|intros ->; now left].
    destruct (a <=? 0)%float eqn:Hle; [intros ->; now left|].
    destruct (negb (is_empty (strip l4)) && negb (strptime_ok (strip l4)))
      eqn:Hdt; [intros ->; now left|].
    destruct (Sql.update_transaction d (lower (strip l1))
                (if is_empty (strip l2) then t_category txn else strip l2)
                a (if is_empty (strip l4) then t_date txn else strip l4)
                txn_id user_id) as [d'|] eqn:Eup; [|intros ->; now left].
    destruct (String.eqb (lower (strip l1)) "expense");
      [rewrite check_budget_run|]; intros ->; right; (split; [reflexivity|]);
      exists l, (l1 :: l2 :: l3 :: l4 :: i), txn_id, txn, (lower (strip l1)),
        (if is_empty (strip l2) then t_category txn else strip l2), a,
        (if is_empty (strip l4) then t_date txn else strip l4);
      cbn [snd db wrote stdin];
      (repeat split; auto;
       [ destruct (strip l2); cbn [is_empty]; [now left | right; discriminate]
       | destruct (is_empty (strip l4)); [now left|]; right;
         cbn [negb andb] in Hdt; now destruct (strptime_ok (strip l4)) ]).
Qed.

(** [delete_transaction] either leaves the store or returns after the
    DELETE of the row whose id was typed first. *)
Lemma delete_transaction_effect (user_id : Z) (w : world) :
  let r := delete_transaction user_id w in
  db (snd r) = db w
  \/ (fst r = Done tt
      /\ exists l rest txn_id,
           stdin w = l :: rest
           /\ int_of_str (strip l) = Some txn_id
           /\ db (snd r) = Sql.delete_transaction (db w) txn_id user_id).
Proof.
  intros r. assert (Hr : r = delete_transaction user_id w) by reflexivity.
  clearbody r. revert Hr.
  unfold delete_transaction. unfold bind at 1.
  rewrite view_transactions_run. destruct w as [d i o t]. unfold wrote.
  cbv beta iota zeta delta [bind input print execute get_db ret
                            db stdin stdout today].
  destruct i as [|l i]; [intros ->; now left|].
  destruct (int_of_str (strip l)) as [txn_id|] eqn:Hid; [|intros ->; now left].
  destruct (Sql.select_transaction d txn_id user_id) as [txn|];
    [|intros ->; now left].
  destruct i as [|l1 i]; [intros ->; now left|].
  destruct (String.eqb (lower (strip l1)) "y"); [|intros ->; now left].
  intros ->. right. split; [reflexivity|].
  exists l, (l1 :: i), txn_id. repeat split; auto.
Qed.

(** [set_budget] never raises but on a closed console, and either leaves
    the store or has run one upsert of values that passed its checks. *)
Lemma set_budget_effect (user_id : Z) (w : world) :
  let r := set_budget user_id w in
  db (snd r) = db w
  \/ (fst r = Done tt
      /\ exists cat a,
           cat <> "" /\ (a <=? 0)%float = false
           /\ Sql.upsert_budget (db w) user_id cat a = Some (db (snd r))).
Proof.
  intros r. assert (Hr : r = set_budget user_id w) by reflexivity.
  clearbody r. revert Hr. destruct w as [d i o t].
  unfold set_budget.
  cbv beta iota zeta delta [bind input print try_execute ret
                            db stdin stdout today].
  destruct i as [|l1 i]; [intros ->; now left|].
  destruct (strip l1) as [|c0 cat'] eqn:Hcat; cbn [is_empty];
    [intros ->; now left|].
  destruct i as [|l2 i]; [intros ->; now left|].
  destruct (float_of_str (strip l2)) as [a|]; [|intros ->; now left].
  destruct (a <=? 0)%float eqn:Hle; [intros ->; now left|].
  destruct (Sql.upsert_budget d user_id (String c0 cat') a) as [d'|] eqn:Eup;
    [|intros ->; now left].
  intros ->. right. split; [reflexivity|].
  exists (String c0 cat'), a. repeat split; auto. discriminate.
Qed.

End Effects.

(** ** Amounts above zero *)

Lemma SFcompare_refl (x : spec_float) :
  x <> S754_nan -> SFcompare x x = Some Eq.
Proof.
  destruct x as [s|s| |s m e]; cbn; intros H; try reflexivity.
  - now destruct s.
  - congruence.
  - rewrite Z.compare_refl. fold (Pos.compare m m).
    rewrite Pos.compare_refl. now destruct s.
Qed.

Lemma not_nan_spec (a : float) : is_nan a = false -> Prim2SF a <> S754_nan.
Proof.
  unfold is_nan. rewrite eqb_spec. unfold SFeqb. intros H E.
  rewrite E in H. discriminate.
Qed.

(** A float that is not NaN and not [<= 0] is above 0. *)
Lemma float_positive (a : float) :
  (a <=? 0)%float = false -> is_nan a = false -> (0 <? a)%float = true.
Proof.
  intros Hle Hnan. apply not_nan_spec in Hnan. revert Hle.
  rewrite leb_spec, ltb_spec, Prim2SF_zero. unfold SFleb, SFltb.
  rewrite (SFcompare_antisym (Prim2SF a) (S754_zero false)).
  destruct (Prim2SF a) as [s|s| |s m e]; cbn; try congruence;
    destruct s; cbn; congruence.
Qed.

(** ** Exceptions, ids and rows *)

(** X3: a procedure that stops on an exception (the console closed at a
    prompt, or a constraint of the database failed) has written nothing to
    the store. *)
Theorem exception_leaves_store (FT : PyFloatText) (DB : SqliteSum) (c : command) (w : world)
    (e : exn) :
  fst (run_command c w) = Raised e -> db (snd (run_command c w)) = db w.
Proof.
  destruct c as [u|u|u|u|u p|u]; cbn [run_command]; intros He.
  - destruct (add_transaction_effect u w) as [H|[H _]]; [exact H|congruence].
  - now apply (preserves_view_transactions (fun d => d = db w)).
  - destruct (update_transaction_effect u w) as [H|[H _]];
      [exact H|congruence].
  - destruct (delete_transaction_effect u w) as [H|[H _]];
      [exact H|congruence].
  - now apply (preserves_generate_report (fun d => d = db w)).
  - destruct (set_budget_effect u w) as [H|[H _]]; [exact H|congruence].
Qed.

Lemma run_steps_snoc (FT : PyFloatText) (DB : SqliteSum) (d : database) (steps : list step)
    (s : step) :
  run_steps d (steps ++ [s]) = run_step (run_steps d steps) s.
Proof. unfold run_steps. now rewrite fold_left_app. Qed.

(** X4: ids are never handed out twice: along any session the counter of
    ids never goes down, and an id that was handed out and is no longer in
    the table (its row was deleted) never shows up again. *)
Theorem deleted_id_never_returns (FT : PyFloatText) (DB : SqliteSum) (d : database)
    (steps : list step) (i : Z) :
  i <= transactions_seq d -> ~ In i (ids d) ->
  transactions_seq d <= transactions_seq (run_steps d steps)
  /\ ~ In i (ids (run_steps d steps)).
Proof.
  intros Hi Hnot. induction steps as [|[[c lines] day] steps IH] using rev_ind.
  - split; [apply Z.le_refl | exact Hnot].
  - rewrite run_steps_snoc. cbn [run_step]. unfold store_after.
    apply (preserves_run_command
             (fun d' => transactions_seq d <= transactions_seq d'
                        /\ ~ In i (ids d'))).
    + intros d0 d1 u ty cat a dt [Hs Hn]. unfold Sql.insert_transaction.
      destruct (_ && _); [|discriminate]. intros [= <-].
      unfold ids. cbn [transactions transactions_seq]. split; [lia|].
      rewrite map_app, in_app_iff. cbn [map t_id In]. intros [H|[H|[]]].
      * now apply Hn.
      * lia.
    + intros d0 d1 ty cat a dt j u [Hs Hn]. unfold Sql.update_transaction.
      destruct (negb _); [intros [= <-]; now split|].
      destruct (_ && _); [|discriminate]. intros [= <-].
      unfold ids in *. cbn [transactions transactions_seq].
      rewrite map_id_update. now split.
    + intros d0 j u [Hs Hn]. unfold ids, Sql.delete_transaction in *.
      cbn [transactions transactions_seq]. split; [exact Hs|].
      intros H. apply Hn. apply in_map_iff in H.
      destruct H as (r & Hr & Hin). apply filter_In in Hin.
      apply in_map_iff. exists r. tauto.
    + intros d0 d1 u cat a [Hs Hn] E.
      destruct (others_after_upsert _ _ _ _ _ E) as (Ht & Hq & _).
      unfold ids. rewrite Ht, Hq. now split.
    + exact IH.
Qed.

(** X5: [update_transaction] never adds or removes a row and never changes
    the id or the owner of a row; the rows whose id is not the one typed at
    the first prompt stay as they are, each at its place. *)
Theorem update_changes_one_row (FT : PyFloatText) (DB : SqliteSum)
    (user_id : Z) (w : world) :
  let d' := db (snd (update_transaction user_id w)) in
  map t_id (transactions d') = map t_id (transactions (db w))
  /\ map t_user (transactions d') = map t_user (transactions (db w))
  /\ transactions_seq d' = transactions_seq (db w)
  /\ forall n r,
       nth_error (transactions (db w)) n = Some r ->
       option_map (fun l => int_of_str (strip l)) (hd_error (stdin w))
       <> Some (Some (t_id r)) ->
       nth_error (transactions d') n = Some r.
Proof.
  intros d'. subst d'.
  destruct (update_transaction_effect user_id w)
    as [->|(_ & l & rest & i & txn & ty & cat & a & dt & Hin & Hid & _ & _ & _
            & _ & _ & Hup)]; [repeat split; auto|].
  revert Hup. generalize (db (snd (update_transaction user_id w))).
  intros d'. unfold Sql.update_transaction.
  destruct (negb _); [intros [= <-]; repeat split; auto|].
  destruct (_ && _); [|discriminate]. intros [= <-].
  cbn [transactions transactions_seq]. repeat split.
  - apply map_id_update.
  - rewrite map_map. apply map_ext. intros r.
    destruct (Sql.is_txn i user_id r); reflexivity.
  - intros n r Hn Hne. rewrite nth_error_map, Hn. cbn [option_map].
    destruct (Sql.is_txn i user_id r) eqn:E; [|reflexivity].
    exfalso. apply Hne. rewrite Hin. cbn [hd_error option_map]. rewrite Hid.
    unfold Sql.is_txn in E. apply andb_prop in E. destruct E as [E _].
    apply Z.eqb_eq in E. now rewrite E.
Qed.

(** ** What the tables hold *)

Section Valid.

Context {FT : PyFloatText} {DB : SqliteSum}.

Lemma insert_not_nan (d d' : database) (u : Z) (ty c : string) (a : float)
    (dt : string) :
  Sql.insert_transaction d u ty c a dt = Some d' ->
  is_nan a = false
  /\ transactions d' =
     (transactions d ++
      [{| t_id := transactions_seq d + 1; t_user := u; t_type := ty;
          t_category := c; t_amount := a; t_date := dt |}])%list
  /\ budgets d' = budgets d.
Proof.
  unfold Sql.insert_transaction, Sql.real_not_null.
  destruct (is_nan a); cbn [negb andb]; [discriminate|].
  destruct (Sql.check_type ty); [|discriminate]. intros [= <-]. auto.
Qed.

Lemma valid_after_add (user_id : Z) (w : world) :
  Forall row_valid (transactions (db w)) ->
  Forall row_valid (transactions (db (snd (add_transaction user_id w)))).
Proof.
  intros H.
  destruct (add_transaction_effect user_id w)
    as [->|(_ & ty & cat & a & dt & Hty & Hcat & Hle & Hdt & Hins)];
    [exact H|].
  destruct (insert_not_nan _ _ _ _ _ _ _ Hins) as (Hnan & -> & _).
  apply Forall_app. split; [exact H|]. constructor; [|constructor].
  unfold row_valid. cbn [t_type t_category t_amount t_date].
  repeat split; auto using float_positive.
  destruct Hdt as [->|Hok]; [right; eauto | now left].
Qed.

Lemma valid_after_update (user_id : Z) (w : world) :
  Forall row_valid (transactions (db w)) ->
  Forall row_valid (transactions (db (snd (update_transaction user_id w)))).
Proof.
  intros H.
  destruct (update_transaction_effect user_id w)
    as [->|(_ & l & rest & i & txn & ty & cat & a & dt & _ & _ & Hsel & Hty
            & Hcat & Hle & Hdt & Hup)]; [exact H|].
  revert Hup. generalize (db (snd (update_transaction user_id w))).
  intros d'. unfold Sql.update_transaction.
  destruct (negb _); [intros [= <-]; exact H|].
  unfold Sql.real_not_null. destruct (is_nan a) eqn:Hnan; cbn [negb andb];
    [discriminate|].
  destruct (Sql.check_type ty); [|discriminate]. intros [= <-].
  cbn [transactions]. apply find_some in Hsel. destruct Hsel as [Hin _].
  rewrite Forall_forall in H. pose proof (H txn Hin) as (V1 & V2 & V3 & V4).
  apply Forall_forall. intros r Hr. apply in_map_iff in Hr.
  destruct Hr as (r0 & <- & Hr0).
  destruct (Sql.is_txn i user_id r0); [|now apply H].
  unfold row_valid. cbn [t_type t_category t_amount t_date]. repeat split.
  - destruct Hty as [->|Hty]; assumption.
  - destruct Hcat as [->|Hcat]; assumption.
  - now apply float_positive.
  - destruct Hdt as [->|Hok]; [exact V4 | now left].
Qed.

Lemma valid_after_set_budget (user_id : Z) (w : world) :
  Forall budget_valid (budgets (db w)) ->
  Forall budget_valid (budgets (db (snd (set_budget user_id w)))).
Proof.
  intros H.
  destruct (set_budget_effect user_id w)
    as [->|(_ & cat & a & Hcat & Hle & Hup)]; [exact H|].
  revert Hup. generalize (db (snd (set_budget user_id w))).
  intros d'. unfold Sql.upsert_budget, Sql.real_not_null.
  destruct (is_nan a) eqn:Hnan; cbn [negb]; [discriminate|].
  pose proof (float_positive a Hle Hnan) as Hpos.
  destruct (existsb _ _); intros [= <-]; cbn [budgets].
  - rewrite Forall_forall in *. intros b Hb. apply in_map_iff in Hb.
    destruct Hb as (b0 & <- & Hb0). pose proof (H b0 Hb0) as [V1 V2].
    destruct (Sql.is_budget user_id cat b0); [|now split].
    split; [exact V1 | exact Hpos].
  - apply Forall_app. split; [exact H|]. constructor; [|constructor].
    split; [exact Hcat | exact Hpos].
Qed.

Lemma Forall_filter_keep {A : Type} (Q : A -> Prop) (p : A -> bool)
    (l : list A) :
  Forall Q l -> Forall Q (filter p l).
Proof.
  rewrite !Forall_forall. intros H x Hx. apply filter_In in Hx. now apply H.
Qed.

(** X6: every store the program reaches from the empty database holds only
    what its checks let in: transactions with the type income or expense, a
    category that is not empty, an amount above 0 and a date that
    [strptime] accepts or the ISO form of a day; budgets with a category
    that is not empty and an amount above 0. *)
Theorem reachable_rows_valid (d : database) :
  reachable d ->
  Forall row_valid (transactions d) /\ Forall budget_valid (budgets d).
Proof.
  induction 1 as [|d c lines day Hr [IHt IHb]].
  - split; constructor.
  - unfold store_after. set (w := session d lines day).
    change d with (db w) in IHt, IHb.
    destruct c as [u|u|u|u|u p|u]; cbn [run_command].
    + split; [now apply valid_after_add|].
      destruct (add_transaction_effect u w)
        as [->|(_ & ty & cat & a & dt & _ & _ & _ & _ & Hins)]; [exact IHb|].
      destruct (insert_not_nan _ _ _ _ _ _ _ Hins) as (_ & _ & ->).
      exact IHb.
    + rewrite (preserves_view_transactions (fun d0 => d0 = db w) u w eq_refl).
      now split.
    + split; [now apply valid_after_update|].
      destruct (update_transaction_effect u w)
        as [->|(_ & l & rest & i & txn & ty & cat & a & dt & _ & _ & _ & _
                & _ & _ & _ & Hup)]; [exact IHb|].
      destruct (others_after_update _ _ _ _ _ _ _ _ Hup) as [_ ->].
      exact IHb.
    + destruct (delete_transaction_effect u w)
        as [->|(_ & l & rest & i & _ & _ & ->)]; [now split|].
      cbn [Sql.delete_transaction transactions budgets].
      split; [now apply Forall_filter_keep | exact IHb].
    + rewrite (preserves_generate_report (fun d0 => d0 = db w) u p w eq_refl).
      now split.
    + split; [|now apply valid_after_set_budget].
      destruct (set_budget_effect u w)
        as [->|(_ & cat & a & _ & _ & Hup)]; [exact IHt|].
      destruct (others_after_upsert _ _ _ _ _ Hup) as (-> & _ & _).
      exact IHt.
Qed.

End Valid.

(** ** Adding a transaction that passes the checks *)

Section Adding.

Context {FT : PyFloatText} {DB : SqliteSum}.

(** The run of [add_transaction] on replies that pass the checks. *)
Lemma add_transaction_accepts (user_id : Z) (w : world)
    (ty cat amt dt : string) (rest : list string) (a : float) :
  stdin w = ty :: cat :: amt :: dt :: rest ->
  mem (lower (strip ty)) ["income"; "expense"] = true ->
  strip cat <> "" ->
  float_of_str (strip amt) = Some a ->
  (a <=? 0)%float = false -> is_nan a = false ->
  strip dt = "" \/ strptime_ok (strip dt) = true ->
  let d' :=
    {| transactions :=
         transactions (db w) ++
         [{| t_id := transactions_seq (db w) + 1; t_user := user_id;
             t_type := lower (strip ty); t_category := strip cat;
             t_amount := a;
             t_date := if is_empty (strip dt) then isoformat (today w)
                       else strip dt |}];
       transactions_seq := transactions_seq (db w) + 1;
       budgets := budgets (db w);
       budgets_seq := budgets_seq (db w) |} in
  add_transaction user_id w
  = (Done tt,
     {| db := d';
        stdin := rest;
        stdout :=
          List.app
            (if String.eqb (lower (strip ty)) "expense"
             then budget_output (strip cat)
                    (evaluate_category d' user_id (strip cat))
             else [])
            (List.app (added_lines (lower (strip ty)) a) (stdout w));
        today := today w |}).
Proof.
  intros Hin Hty Hcat Hamt Hle Hnan Hdt. destruct w as [d i o t].
  cbn [stdin db today stdout] in *. subst i. unfold add_transaction.
  cbv beta iota zeta delta [bind input print execute get_today ret
                            db stdin stdout today].
  rewrite Hty. cbn [negb].
  destruct (strip cat) as [|c0 cat'] eqn:Ecat; [congruence|]. cbn [is_empty].
  rewrite Hamt, Hle.
  unfold Sql.insert_transaction, Sql.real_not_null, Sql.check_type.
  rewrite Hnan, Hty. cbn [negb andb].
  destruct (is_empty (strip dt)) eqn:Edt.
  - destruct (String.eqb (lower (strip ty)) "expense");
      [rewrite check_budget_run|]; reflexivity.
  - destruct Hdt as [Hdt|Hdt]; [rewrite Hdt in Edt; discriminate|].
    rewrite Hdt.
    destruct (String.eqb (lower (strip ty)) "expense");
      [rewrite check_budget_run|]; reflexivity.
Qed.

Lemma length_filter_insert_date_desc (p : txn_row -> bool) (r : txn_row)
    (l : list txn_row) :
  List.length (filter p (Sql.insert_date_desc r l))
  = List.length (filter p (r :: l)).
Proof.
  induction l as [|x l IH]; [reflexivity|]. cbn [Sql.insert_date_desc].
  destruct (String.leb (t_date x) (t_date r)); [reflexivity|].
  cbn [filter] in *. destruct (p x), (p r); cbn [List.length] in *; lia.
Qed.

Lemma length_filter_order (p : txn_row -> bool) (l : list txn_row) :
  List.length (filter p (Sql.order_by_date_desc l))
  = List.length (filter p l).
Proof.
  induction l as [|x l IH]; [reflexivity|]. cbn [Sql.order_by_date_desc
    fold_right]. rewrite length_filter_insert_date_desc. cbn [filter].
  fold (Sql.order_by_date_desc l). destruct (p x); cbn [List.length]; lia.
Qed.

(** X7: a transaction that passes the checks of [add_transaction] is stored
    with a new id, the values as typed and, for a blank date, the ISO form
    of the day; the list of the user then holds it exactly once. *)
Theorem added_transaction_is_listed (user_id : Z) (w : world)
    (ty cat amt dt : string) (rest : list string) (a : float) :
  store_ok (db w) ->
  stdin w = ty :: cat :: amt :: dt :: rest ->
  mem (lower (strip ty)) ["income"; "expense"] = true ->
  strip cat <> "" ->
  float_of_str (strip amt) = Some a ->
  (a <=? 0)%float = false -> is_nan a = false ->
  strip dt = "" \/ strptime_ok (strip dt) = true ->
  let row :=
    {| t_id := transactions_seq (db w) + 1; t_user := user_id;
       t_type := lower (strip ty); t_category := strip cat; t_amount := a;
       t_date := if is_empty (strip dt) then isoformat (today w)
                 else strip dt |} in
  exists w',
    add_transaction user_id w = (Done tt, w')
    /\ transactions (db w') = (transactions (db w) ++ [row])%list
    /\ filter (fun r => t_id r =? t_id row)
         (Sql.select_transactions (db w') user_id) = [row].
Proof.
  intros (_ & Hle_seq & _) Hin Hty Hcat Hamt Hle Hnan Hdt row.
  rewrite (add_transaction_accepts user_id w ty cat amt dt rest a
             Hin Hty Hcat Hamt Hle Hnan Hdt).
  eexists. split; [reflexivity|]. cbn [db transactions]. fold row.
  split; [reflexivity|].
  set (listed := filter (fun r => t_id r =? t_id row) _).
  assert (Hlen : List.length listed = 1%nat).
  { subst listed. unfold Sql.select_transactions. cbn [transactions].
    rewrite length_filter_order, filter_app. cbn [filter].
    unfold Sql.owned_by at 2. cbn [t_user row]. rewrite Z.eqb_refl.
    rewrite filter_app. cbn [filter t_id]. rewrite Z.eqb_refl.
    rewrite length_app. cbn [List.length].
    rewrite filter_none; [reflexivity|].
    intros r Hr. apply filter_In in Hr. destruct Hr as [Hr _].
    rewrite Forall_forall in Hle_seq. specialize (Hle_seq r Hr).
    apply Z.eqb_neq. cbn [t_id row]. lia. }
  assert (Hall : forall r, In r listed -> r = row).
  { subst listed. intros r Hr. apply filter_In in Hr. destruct Hr as [Hr Hid].
    apply In_select_transactions in Hr. cbn [db transactions] in Hr.
    destruct Hr as [Hr _]. apply in_app_iff in Hr.
    destruct Hr as [Hr|[Hr|[]]]; [|now symmetry].
    rewrite Forall_forall in Hle_seq. specialize (Hle_seq r Hr).
    apply Z.eqb_eq in Hid. cbn [t_id row] in Hid. lia. }
  destruct listed as [|r [|r' l]]; cbn [List.length] in Hlen; try lia.
  now rewrite (Hall r (or_introl eq_refl)).
Qed.

(** X8: after [add_transaction] has stored an expense, the budget of its
    category is checked against the rows with the new expense among them: the
    lines written after the success message are those of the status of the
    new store, in which the amounts the database sums for the category are
    the former ones followed by the new amount, and the budget rows are the
    former ones; after an income nothing follows the success message. *)
Theorem expense_triggers_budget_check (user_id : Z) (w : world)
    (ty cat amt dt : string) (rest : list string) (a : float) :
  stdin w = ty :: cat :: amt :: dt :: rest ->
  mem (lower (strip ty)) ["income"; "expense"] = true ->
  strip cat <> "" ->
  float_of_str (strip amt) = Some a ->
  (a <=? 0)%float = false -> is_nan a = false ->
  strip dt = "" \/ strptime_ok (strip dt) = true ->
  exists w',
    add_transaction user_id w = (Done tt, w')
    /\ let before := List.app (added_lines (lower (strip ty)) a) (stdout w) in
       if String.eqb (lower (strip ty)) "expense" then
         stdout w'
         = List.app
             (budget_output (strip cat)
                (evaluate_category (db w') user_id (strip cat)))
             before
         /\ expense_amounts (db w') user_id (strip cat)
            = List.app (expense_amounts (db w) user_id (strip cat)) [a]
         /\ budget_rows (db w') user_id (strip cat)
            = budget_rows (db w) user_id (strip cat)
       else stdout w' = before.
Proof.
  intros Hin Hty Hcat Hamt Hle Hnan Hdt.
  rewrite (add_transaction_accepts user_id w ty cat amt dt rest a
             Hin Hty Hcat Hamt Hle Hnan Hdt).
  eexists. split; [reflexivity|]. cbn [db stdout]. cbv zeta.
  destruct (String.eqb (lower (strip ty)) "expense") eqn:Eexp.
  - split; [reflexivity|]. split; [|reflexivity].
    unfold expense_amounts. cbn [transactions]. rewrite filter_app, map_app.
    cbn [filter t_user t_type t_category]. rewrite Z.eqb_refl, Eexp.
    rewrite String.eqb_refl. reflexivity.
  - reflexivity.
Qed.

End Adding.

(** ** Replies that are turned down, and NaN *)

Lemma nan_spec (a : float) : is_nan a = true -> Prim2SF a = S754_nan.
Proof.
  unfold is_nan. rewrite eqb_spec. unfold SFeqb. intros H.
  destruct (Prim2SF a) as [s|s| |s m e] eqn:E; [| |reflexivity|];
    rewrite SFcompare_refl in H; discriminate.
Qed.

(** NaN is not [<= 0]: the check of the amounts lets it through. *)
Lemma nan_not_leb (a : float) : is_nan a = true -> (a <=? 0)%float = false.
Proof.
  intros H. rewrite leb_spec, (nan_spec a H). reflexivity.
Qed.

Section Rejected.

Context {FT : PyFloatText} {DB : SqliteSum}.

(** X9: [set_budget] on an empty category, on an amount that is no number,
    that is [<= 0] or that is NaN writes one message and leaves the store as
    it was. *)
Theorem set_budget_rejects_invalid (user_id : Z) (w : world)
    (cat amt : string) (rest : list string) :
  stdin w = cat :: amt :: rest ->
  strip cat = ""
  \/ float_of_str (strip amt) = None
  \/ (exists a, float_of_str (strip amt) = Some a
                /\ ((a <=? 0)%float = true \/ is_nan a = true)) ->
  exists msg w',
    set_budget user_id w = (Done tt, w')
    /\ db w' = db w
    /\ hd_error (stdout w') = Some msg
    /\ In msg budget_error_messages.
Proof.
  intros Hin Hbad. destruct w as [d i o t]. cbn [stdin] in Hin. subst i.
  unfold set_budget.
  cbv beta iota zeta delta [bind input print try_execute ret
                            db stdin stdout today].
  destruct (strip cat) as [|c0 cat'] eqn:Hcat; cbn [is_empty].
  { eexists _, _. split; [reflexivity|]. cbn. intuition. }
  destruct (float_of_str (strip amt)) as [a|] eqn:Hamt.
  2: { eexists _, _. split; [reflexivity|]. cbn. intuition. }
  destruct (a <=? 0)%float eqn:Hle.
  { eexists _, _. split; [reflexivity|]. cbn. intuition. }
  assert (Hnan : is_nan a = true).
  { destruct Hbad as [H|[H|(a' & H1 & [H2|H2])]]; congruence. }
  unfold Sql.upsert_budget, Sql.real_not_null. rewrite Hnan. cbn [negb].
  eexists _, _. split; [reflexivity|]. cbn. intuition.
Qed.

(** X10: an amount that [float] reads as NaN passes the check of
    [add_transaction]; the INSERT then fails on the NOT NULL column and the
    procedure stops on [IntegrityError] after the date prompt, having stored
    nothing and written no message. *)
Theorem nan_amount_crashes_add (user_id : Z) (w : world)
    (ty cat amt dt : string) (rest : list string) (a : float) :
  stdin w = ty :: cat :: amt :: dt :: rest ->
  mem (lower (strip ty)) ["income"; "expense"] = true ->
  strip cat <> "" ->
  float_of_str (strip amt) = Some a ->
  is_nan a = true ->
  strip dt = "" \/ strptime_ok (strip dt) = true ->
  exists w',
    add_transaction user_id w = (Raised IntegrityError, w')
    /\ db w' = db w
    /\ hd_error (stdout w')
       = Some "Enter date (YYYY-MM-DD) or leave blank for today: ".
Proof.
  intros Hin Hty Hcat Hamt Hnan Hdt. destruct w as [d i o t].
  cbn [stdin] in Hin. subst i. unfold add_transaction.
  cbv beta iota zeta delta [bind input print execute get_today ret
                            db stdin stdout today].
  rewrite Hty. cbn [negb].
  destruct (strip cat) as [|c0 cat'] eqn:Ecat; [congruence|]. cbn [is_empty].
  rewrite Hamt, (nan_not_leb a Hnan).
  unfold Sql.insert_transaction, Sql.real_not_null. rewrite Hnan.
  cbn [negb andb].
  destruct (is_empty (strip dt)) eqn:Edt.
  - eexists. split; [reflexivity|]. split; reflexivity.
  - destruct Hdt as [Hdt|Hdt]; [rewrite Hdt in Edt; discriminate|].
    rewrite Hdt. eexists. split; [reflexivity|]. split; reflexivity.
Qed.

End Rejected.

(** ** The ISO form of a day is read back by Python and by SQLite *)

Lemma first_match_map {A B C : Type} (f : B -> C) (alts : list A)
    (k : A -> option B) (k' : A -> option C) :
  (forall a, k' a = option_map f (k a)) ->
  first_match alts k' = option_map f (first_match alts k).
Proof.
  intros H. induction alts as [|a alts IH]; [reflexivity|].
  cbn [first_match]. rewrite H. destruct (k a); [reflexivity | exact IH].
Qed.

Lemma match_Ymd_year (y1 y2 y3 y4 : ascii) (r : string) :
  is_digit y1 = true -> is_digit y2 = true -> is_digit y3 = true ->
  is_digit y4 = true ->
  match_Ymd (String y1 (String y2 (String y3 (String y4 (String "-" r)))))
  = option_map
      (fun '(m, d, rest) =>
         ((1000 * digit_val y1 + 100 * digit_val y2 + 10 * digit_val y3
           + digit_val y4, m, d), rest))
      (match_md r).
Proof.
  intros H1 H2 H3 H4. unfold match_Ymd, match_md. rewrite H1, H2, H3, H4.
  cbn [andb]. apply first_match_map. intros [m r1].
  destruct r1 as [|c r2]; [reflexivity|].
  destruct (day_alternatives r2) as [|[d r3] alts];
    destruct c as [[] [] [] [] [] [] [] []]; reflexivity.
Qed.

Lemma date_of_text_year (y1 y2 y3 y4 : ascii) (r : string) :
  is_digit y1 = true -> is_digit y2 = true -> is_digit y3 = true ->
  is_digit y4 = true ->
  Sqlite.date_of_text
    (String y1 (String y2 (String y3 (String y4 (String "-" r)))))
  = match sqlite_md r with
    | Some (m, d) =>
        let y := 1000 * digit_val y1 + 100 * digit_val y2 + 10 * digit_val y3
                 + digit_val y4 in
        if d <=? days_in_month y m then Some (y, m, d)
        else if m =? 12 then Some (y + 1, 1, d - days_in_month y m)
        else Some (y, m + 1, d - days_in_month y m)
    | None => None
    end.
Proof.
  intros H1 H2 H3 H4. unfold Sqlite.date_of_text, sqlite_md.
  destruct r as [|m1 [|m2 [|c [|d1 [|d2 rest]]]]]; try reflexivity;
    try (destruct c as [[] [] [] [] [] [] [] []]; reflexivity).
  destruct rest;
    destruct c as [[] [] [] [] [] [] [] []]; try reflexivity.
  rewrite H1, H2, H3, H4. cbn [andb].
  destruct (is_digit m1 && is_digit m2 && is_digit d1 && is_digit d2);
    [|reflexivity].
  cbv zeta. destruct (_ && _ && _ && _); reflexivity.
Qed.

Lemma years_ok :
  forallb year_text_ok (map Z.of_nat (seq 0 (Z.to_nat 10000))) = true.
Proof. vm_compute. reflexivity. Qed.

Lemma months_days_ok :
  forallb (fun m => forallb (month_day_text_ok m)
                      (map Z.of_nat (seq 1 31)))
    (map Z.of_nat (seq 1 12)) = true.
Proof. vm_compute. reflexivity. Qed.

Lemma In_range (lo len : nat) (z : Z) :
  Z.of_nat lo <= z < Z.of_nat lo + Z.of_nat len ->
  In z (map Z.of_nat (seq lo len)).
Proof.
  intros H. apply in_map_iff. exists (Z.to_nat z). split; [lia|].
  apply in_seq. lia.
Qed.

Lemma year_text (y : Z) :
  0 <= y <= 9999 -> year_text_ok y = true.
Proof.
  intros H. pose proof years_ok as Hall. rewrite forallb_forall in Hall.
  apply Hall. apply In_range. lia.
Qed.

Lemma month_day_text (m d : Z) :
  1 <= m <= 12 -> 1 <= d <= 31 -> month_day_text_ok m d = true.
Proof.
  intros Hm Hd. pose proof months_days_ok as Hall.
  rewrite forallb_forall in Hall.
  specialize (Hall m (In_range 1 12 m ltac:(lia))).
  rewrite forallb_forall in Hall. apply Hall. apply In_range. lia.
Qed.

Lemma valid_date_bounds (y m d : Z) :
  valid_date (y, m, d) = true ->
  1 <= y <= 9999 /\ 1 <= m <= 12 /\ 1 <= d <= days_in_month y m
  /\ d <= 31.
Proof.
  unfold valid_date. rewrite !andb_true_iff, !Z.leb_le.
  intros [[[[[? ?] ?] ?] ?] ?]. repeat split; try assumption.
  unfold days_in_month in *.
  destruct (m =? 2); [destruct (is_leap y); lia|].
  destruct (_ || _); lia.
Qed.

(** The ISO form of a day of the calendar is read back as that day by
    [strptime] with ['%Y-%m-%d'] and by the date functions of SQLite. *)
Lemma isoformat_read_back (day : date) :
  valid_date day = true ->
  strptime (isoformat day) = Some day
  /\ Sqlite.date_of_text (isoformat day) = Some day.
Proof.
  destruct day as [[y m] d]. intros Hv.
  destruct (valid_date_bounds y m d Hv) as (Hy & Hm & Hd & Hd31).
  pose proof (year_text y ltac:(lia)) as Hyt.
  pose proof (month_day_text m d Hm ltac:(lia)) as Hmd.
  unfold isoformat, year_text_ok, month_day_text_ok in *.
  destruct (zero_pad 4 y) as [|y1 [|y2 [|y3 [|y4 [|? ?]]]]]; try discriminate.
  rewrite !andb_true_iff in Hyt. destruct Hyt as [[[[H1 H2] H3] H4] Hval].
  apply Z.eqb_eq in Hval. cbv zeta in Hmd.
  set (r := zero_pad 2 m ++ "-" ++ zero_pad 2 d) in *. cbn [append].
  split.
  - unfold strptime. rewrite (match_Ymd_year y1 y2 y3 y4 r H1 H2 H3 H4).
    destruct (match_md r) as [[[m1 d1] rest]|]; [|discriminate].
    destruct rest; [|discriminate].
    destruct (sqlite_md r) as [[m2 d2]|]; [|discriminate].
    rewrite !andb_true_iff, !Z.eqb_eq in Hmd.
    destruct Hmd as [[[-> ->] _] _]. cbn [option_map]. rewrite Hval, Hv.
    reflexivity.
  - rewrite (date_of_text_year y1 y2 y3 y4 r H1 H2 H3 H4).
    destruct (match_md r) as [[[m1 d1] rest]|]; [|discriminate].
    destruct rest; [|discriminate].
    destruct (sqlite_md r) as [[m2 d2]|]; [|discriminate].
    rewrite !andb_true_iff, !Z.eqb_eq in Hmd.
    destruct Hmd as [[_ ->] ->]. cbv zeta. rewrite Hval.
    destruct (d <=? days_in_month y m) eqn:E; [reflexivity|].
    apply Z.leb_gt in E. lia.
Qed.

Section BlankDate.

Context {FT : PyFloatText} {DB : SqliteSum}.

(** The report of a day reads the rows of its period. *)
Lemma report_of_period_rows (d : database) (day : date) (user_id : Z)
    (period : string) :
  period = "monthly" \/ period = "yearly" ->
  exists r,
    report_of d day user_id period = Some r
    /\ (period_str r = PyDate.strftime_Ym day
        \/ period_str r = PyDate.strftime_Y day)
    /\ (forall d', report_of d' day user_id period
                   = Some {| period_str := period_str r;
                             total_income :=
                               sum_or_zero
                                 (amounts_of "income"
                                    (period_rows d' day user_id period));
                             total_expenses :=
                               sum_or_zero
                                 (amounts_of "expense"
                                    (period_rows d' day user_id period)) |}).
Proof.
  intros [-> | ->].
  - rewrite report_of_monthly. cbv zeta. eexists. split; [reflexivity|].
    cbn [period_str]. split; [now left|]. intros d'.
    now rewrite report_of_monthly.
  - rewrite report_of_yearly. cbv zeta. eexists. split; [reflexivity|].
    cbn [period_str]. split; [now right|]. intros d'.
    now rewrite report_of_yearly.
Qed.

(** A new row that SQLite reads as a date of the day comes last among the
    rows of the period of that day. *)
Lemma period_rows_after_insert (d : database) (day : date) (user_id : Z)
    (period : string) (row : txn_row) (seq : Z) :
  period = "monthly" \/ period = "yearly" ->
  t_user row = user_id ->
  Sqlite.date_of_text (t_date row) = Some day ->
  period_rows {| transactions := transactions d ++ [row];
                 transactions_seq := seq;
                 budgets := budgets d; budgets_seq := budgets_seq d |}
    day user_id period
  = List.app (period_rows d day user_id period) [row].
Proof.
  intros Hp Hu Hdate. unfold period_rows. cbn [transactions].
  rewrite !filter_app. cbn [filter].
  assert (Hm : Sql.in_month user_id (PyDate.strftime_Ym day) row = true).
  { unfold Sql.in_month, Sqlite.strftime_Ym. rewrite Hu, Z.eqb_refl, Hdate.
    cbn [option_map Sqlite.null_eqb andb]. apply String.eqb_refl. }
  assert (Hy : Sql.in_year user_id (PyDate.strftime_Y day) row = true).
  { unfold Sql.in_year, Sqlite.strftime_Y. rewrite Hu, Z.eqb_refl, Hdate.
    cbn [option_map Sqlite.null_eqb andb]. apply String.eqb_refl. }
  rewrite Hm, Hy. destruct Hp as [-> | ->]; reflexivity.
Qed.

Lemma amounts_of_snoc (kind : string) (rows : list txn_row) (row : txn_row) :
  amounts_of kind (List.app rows [row])
  = if String.eqb (t_type row) kind
    then List.app (amounts_of kind rows) [t_amount row]
    else amounts_of kind rows.
Proof.
  unfold amounts_of. rewrite filter_app, map_app. cbn [filter].
  destruct (String.eqb (t_type row) kind); [reflexivity|]. apply app_nil_r.
Qed.

(** X11: a transaction added with a blank date on a day of the calendar is
    stored under the ISO form of that day, which SQLite reads as that day:
    in the monthly and in the yearly report of that day the new row comes
    last among the rows of the period, so that the total of its type is the
    sum the database gives for the former amounts followed by the new one,
    and the other total is the former one. *)
Theorem blank_date_is_reported (user_id : Z) (w : world)
    (ty cat amt dt : string) (rest : list string) (a : float)
    (period : string) :
  valid_date (today w) = true -> 1000 <= year (today w) ->
  period = "monthly" \/ period = "yearly" ->
  stdin w = ty :: cat :: amt :: dt :: rest ->
  mem (lower (strip ty)) ["income"; "expense"] = true ->
  strip cat <> "" ->
  float_of_str (strip amt) = Some a ->
  (a <=? 0)%float = false -> is_nan a = false ->
  strip dt = "" ->
  let old := period_rows (db w) (today w) user_id period in
  exists w' r r',
    add_transaction user_id w = (Done tt, w')
    /\ report_of (db w) (today w) user_id period = Some r
    /\ report_of (db w') (today w) user_id period = Some r'
    /\ period_str r' = period_str r
    /\ period_rows (db w') (today w) user_id period
       = List.app old
           [{| t_id := transactions_seq (db w) + 1; t_user := user_id;
               t_type := lower (strip ty); t_category := strip cat;
               t_amount := a; t_date := isoformat (today w) |}]
    /\ total_income r = sum_or_zero (amounts_of "income" old)
    /\ total_expenses r = sum_or_zero (amounts_of "expense" old)
    /\ if String.eqb (lower (strip ty)) "income"
       then total_income r'
            = sum_or_zero (List.app (amounts_of "income" old) [a])
            /\ total_expenses r' = total_expenses r
       else total_income r' = total_income r
            /\ total_expenses r'
               = sum_or_zero (List.app (amounts_of "expense" old) [a]).
Proof.
  intros Hday _ Hp Hin Hty Hcat Hamt Hle Hnan Hdt old.
  rewrite (add_transaction_accepts user_id w ty cat amt dt rest a
             Hin Hty Hcat Hamt Hle Hnan (or_introl Hdt)).
  rewrite Hdt. cbn [is_empty].
  set (row := {| t_id := transactions_seq (db w) + 1; t_user := user_id;
                 t_type := lower (strip ty); t_category := strip cat;
                 t_amount := a; t_date := isoformat (today w) |}).
  pose proof (period_rows_after_insert (db w) (today w) user_id period row
                (transactions_seq (db w) + 1) Hp eq_refl
                (proj2 (isoformat_read_back (today w) Hday))) as Hrows.
  destruct (report_of_period_rows (db w) (today w) user_id period Hp)
    as (r & Hr & _ & Hall).
  eexists. exists r. eexists. split; [reflexivity|]. cbn [db].
  split; [exact Hr|]. split; [apply Hall|]. cbn [period_str].
  split; [reflexivity|]. split; [exact Hrows|].
  cbn [total_income total_expenses]. rewrite Hrows, !amounts_of_snoc.
  rewrite (Hall (db w)) in Hr. injection Hr as <-.
  cbn [total_income total_expenses]. fold old.
  split; [reflexivity|]. split; [reflexivity|].
  assert (Hexp : String.eqb (lower (strip ty)) "income" = false ->
                 String.eqb (lower (strip ty)) "expense" = true).
  { intros E. unfold mem in Hty. cbn [existsb] in Hty. rewrite E in Hty.
    now rewrite orb_false_r in Hty. }
  cbn [t_type t_amount row].
  destruct (String.eqb (lower (strip ty)) "income") eqn:E.
  - apply String.eqb_eq in E. rewrite E.
    cbn [String.eqb Ascii.eqb Bool.eqb andb]. split; reflexivity.
  - rewrite (Hexp eq_refl). split; reflexivity.
Qed.

End BlankDate.

(** ** What a user is shown depends on the rows of that user only *)

Lemma filter_owned_split (user_id : Z) (p : txn_row -> bool)
    (rows : list txn_row) :
  filter (fun r => (t_user r =? user_id) && p r) rows
  = filter p (filter (Sql.owned_by user_id) rows).
Proof.
  induction rows as [|r rows IH]; [reflexivity|]. cbn [filter].
  unfold Sql.owned_by at 1. destruct (t_user r =? user_id); cbn [andb filter].
  - destruct (p r); now rewrite IH.
  - exact IH.
Qed.

(** X12: the list, the reports and the budget status of a user are the same
    on two stores that agree on the transactions and the budgets of that
    user: nothing a user is shown depends on what other users have
    stored. *)
Theorem shown_depends_on_own_rows (FT : PyFloatText) (DB : SqliteSum) (d1 d2 : database)
    (user_id : Z) :
  filter (Sql.owned_by user_id) (transactions d1)
  = filter (Sql.owned_by user_id) (transactions d2) ->
  Sql.select_budgets d1 user_id = Sql.select_budgets d2 user_id ->
  Sql.select_transactions d1 user_id = Sql.select_transactions d2 user_id
  /\ (forall day period,
        report_of d1 day user_id period = report_of d2 day user_id period)
  /\ (forall category,
        evaluate_category d1 user_id category
        = evaluate_category d2 user_id category).
Proof.
  intros Ht Hb. split; [|split].
  - unfold Sql.select_transactions. now rewrite Ht.
  - intros day period. unfold report_of, Sql.select_month_sums,
      Sql.select_year_sums.
    assert (Hm : forall p, filter (Sql.in_month user_id p) (transactions d1)
                           = filter (Sql.in_month user_id p) (transactions d2)).
    { intros p. unfold Sql.in_month.
      rewrite (filter_owned_split user_id
                 (fun r => Sqlite.null_eqb (Sqlite.strftime_Ym (t_date r)) p)
                 (transactions d1)), Ht.
      now rewrite <- filter_owned_split. }
    assert (Hy : forall p, filter (Sql.in_year user_id p) (transactions d1)
                           = filter (Sql.in_year user_id p) (transactions d2)).
    { intros p. unfold Sql.in_year.
      rewrite (filter_owned_split user_id
                 (fun r => Sqlite.null_eqb (Sqlite.strftime_Y (t_date r)) p)
                 (transactions d1)), Ht.
      now rewrite <- filter_owned_split. }
    now rewrite Hm, Hy.
  - intros category. unfold evaluate_category.
    assert (Hsel : Sql.select_budget d1 user_id category
                   = Sql.select_budget d2 user_id category).
    { unfold Sql.select_budget, Sql.select_budgets in *.
      rewrite !find_filter. f_equal. f_equal.
      unfold Sql.is_budget.
      assert (Hs : forall rows,
                filter (fun b => (b_user b =? user_id)
                                 && String.eqb (b_category b) category) rows
                = filter (fun b => String.eqb (b_category b) category)
                    (filter (fun b => b_user b =? user_id) rows)).
      { induction rows as [|b rows IH]; [reflexivity|]. cbn [filter].
        destruct (b_user b =? user_id); cbn [andb filter];
          [destruct (String.eqb _ _); now rewrite IH | exact IH]. }
      now rewrite !Hs, Hb. }
    assert (Hsum : Sql.select_expense_sum d1 user_id category
                   = Sql.select_expense_sum d2 user_id category).
    { unfold Sql.select_expense_sum, Sql.is_expense_in. f_equal. f_equal.
      assert (Hs : forall rows,
                filter (fun r => (t_user r =? user_id)
                                 && String.eqb (t_type r) "expense"
                                 && String.eqb (t_category r) category) rows
                = filter (fun r => String.eqb (t_type r) "expense"
                                   && String.eqb (t_category r) category)
                    (filter (Sql.owned_by user_id) rows)).
      { intros rows. rewrite <- filter_owned_split. apply filter_ext.
        intros r. now rewrite andb_assoc. }
      now rewrite !Hs, Ht. }
    now rewrite Hsel, Hsum.
Qed.

(** ** Budgets on the console *)

Section BudgetsView.

Context {FT : PyFloatText} {DB : SqliteSum}.

Lemma view_budgets_run (user_id : Z) (w : world) :
  view_budgets user_id w
  = (Done tt, wrote (budgets_output (Sql.select_budgets (db w) user_id)) w).
Proof.
  destruct w as [d i o t]. unfold view_budgets, bind at 1, get_db.
  cbn [db]. destruct (Sql.select_budgets d user_id) as [|r rows] eqn:E.
  - reflexivity.
  - unfold bind, print. cbn [db stdin stdout today].
    rewrite print_each_run. unfold wrote, budgets_output.
    cbn [db stdin stdout today]. now rewrite <- app_assoc.
Qed.

Lemma budget_rows_select (d : database) (user_id : Z) (category : string) :
  budget_rows d user_id category
  = filter (fun b => String.eqb (b_category b) category)
      (Sql.select_budgets d user_id).
Proof.
  unfold budget_rows, Sql.select_budgets, Sql.is_budget.
  induction (budgets d) as [|b rows IH]; [reflexivity|]. cbn [filter].
  destruct (b_user b =? user_id); cbn [andb filter];
    [destruct (String.eqb _ _); now rewrite IH | exact IH].
Qed.

(** X13: after [set_budget] took a category and an amount, [view_budgets]
    of the user shows the category once, with that amount; it writes nothing
    to the store. *)
Theorem set_budget_then_view (user_id : Z) (w : world) (cat amt : string)
    (rest : list string) (a : float) :
  (List.length (budget_rows (db w) user_id (strip cat)) <= 1)%nat ->
  stdin w = cat :: amt :: rest ->
  strip cat <> "" ->
  float_of_str (strip amt) = Some a ->
  (a <=? 0)%float = false -> is_nan a = false ->
  exists w1 w2 b,
    set_budget user_id w = (Done tt, w1)
    /\ view_budgets user_id w1 = (Done tt, w2)
    /\ db w2 = db w1
    /\ filter (fun x => String.eqb (b_category x) (strip cat))
         (Sql.select_budgets (db w1) user_id) = [b]
    /\ b_amount b = a
    /\ In (ljust 15 (strip cat) ++ " " ++ ljust 10 (format_2f a))
         (stdout w2).
Proof.
  intros Hone Hin Hcat Hamt Hle Hnan.
  destruct (upsert_budget_some (db w) user_id (strip cat) a Hnan)
    as [d' Hup].
  assert (Hrun : set_budget user_id w
                 = (Done tt,
                    {| db := d'; stdin := rest;
                       stdout := ("Budget for category '" ++ strip cat
                                  ++ "' set to " ++ format_2f a ++ ".")
                                 :: "Enter budget amount: "
                                 :: "Enter category to set budget for: "
                                 :: stdout w;
                       today := today w |})).
  { destruct w as [d i o t]. cbn [stdin db stdout today] in *. subst i.
    unfold set_budget.
    cbv beta iota zeta delta [bind input print try_execute ret
                              db stdin stdout today].
    destruct (strip cat) as [|c0 cat'] eqn:Ecat; [congruence|].
    cbn [is_empty]. rewrite Hamt, Hle, Hup. reflexivity. }
  pose proof (budget_rows_upsert _ _ _ _ _ user_id (strip cat) Hup Hone)
    as Hrows.
  rewrite Z.eqb_refl, String.eqb_refl in Hrows. cbn [andb] in Hrows.
  rewrite budget_rows_select in Hrows.
  destruct (filter _ (Sql.select_budgets d' user_id)) as [|b [|b' l]] eqn:E;
    try discriminate.
  injection Hrows as Ha.
  eexists. eexists. exists b. split; [exact Hrun|].
  split; [apply view_budgets_run|]. cbn [db wrote].
  split; [reflexivity|]. split; [exact E|]. split; [exact Ha|].
  assert (Hb : In b (Sql.select_budgets d' user_id)
               /\ String.eqb (b_category b) (strip cat) = true).
  { apply (proj1 (filter_In
                      (fun x => String.eqb (b_category x) (strip cat)) b
                      (Sql.select_budgets d' user_id))).
    rewrite E. now left. }
  destruct Hb as [Hb Hc]. apply String.eqb_eq in Hc.
  cbn [stdout]. apply in_or_app. left.
  unfold budgets_output.
  destruct (Sql.select_budgets d' user_id) as [|b0 rows] eqn:Es;
    [destruct Hb|].
  apply in_or_app. left. right. apply -> in_rev. apply in_map_iff.
  exists b. split; [|exact Hb]. unfold format_budget. now rewrite Hc, Ha.
Qed.

End BudgetsView.

(** ** The menus *)

Lemma reads_only_ret {A : Type} (a : A) : reads_only (ret a).
Proof. intros w. apply Nat.le_refl. Qed.

Lemma reads_only_print (s : string) : reads_only (print s).
Proof. intros w. apply Nat.le_refl. Qed.

Lemma reads_only_bind {A B : Type} (m : M A) (k : A -> M B) :
  reads_only m -> (forall a, reads_only (k a)) -> reads_only (bind m k).
Proof.
  intros Hm Hk w. unfold bind. specialize (Hm w).
  destruct (m w) as [[a|e] w1]; cbn [snd] in *.
  - specialize (Hk a w1). lia.
  - exact Hm.
Qed.

Lemma reads_only_input (prompt : string) : reads_only (input prompt).
Proof.
  intros w. unfold input. destruct (stdin w) as [|l rest] eqn:E;
    cbn [snd stdin List.length]; lia.
Qed.

Lemma reads_only_get_db : reads_only get_db.
Proof. intros w. apply Nat.le_refl. Qed.

Lemma reads_only_get_today : reads_only get_today.
Proof. intros w. apply Nat.le_refl. Qed.

Lemma reads_only_execute (stmt : database -> option database) :
  reads_only (execute stmt).
Proof.
  intros w. unfold execute. destruct (stmt (db w)); apply Nat.le_refl.
Qed.

Lemma reads_only_try_execute (stmt : database -> option database) :
  reads_only (try_execute stmt).
Proof.
  intros w. unfold try_execute. destruct (stmt (db w)); apply Nat.le_refl.
Qed.

Ltac reads_step :=
  first
    [ apply reads_only_print
    | apply reads_only_ret
    | apply reads_only_input
    | apply reads_only_get_db
    | apply reads_only_get_today
    | apply reads_only_try_execute
    | apply reads_only_execute
    | apply reads_only_bind; [|intros ?]
    | match goal with
      | |- reads_only (if ?c then _ else _) => destruct c
      | |- reads_only (match ?x with Some _ => _ | None => _ end) =>
          destruct x
      end ].

Section MenuRuns.

Context {FT : PyFloatText} {DB : SqliteSum}.

Lemma reads_only_set_budget (user_id : Z) : reads_only (set_budget user_id).
Proof. unfold set_budget. cbv zeta. repeat reads_step. Qed.

Lemma reads_only_generate_report (user_id : Z) (period : string) :
  reads_only (generate_report user_id period).
Proof. unfold generate_report. repeat reads_step. Qed.

Lemma reads_only_view_budgets (user_id : Z) :
  reads_only (view_budgets user_id).
Proof. intros w. rewrite view_budgets_run. apply Nat.le_refl. Qed.

(** [set_budget] catches the errors of the database: it returns, or the
    console was closed. *)
Lemma set_budget_outcome (user_id : Z) (w : world) :
  fst (set_budget user_id w) = Done tt
  \/ fst (set_budget user_id w) = Raised EOFError.
Proof.
  destruct w as [d i o t]. unfold set_budget.
  cbv beta iota zeta delta [bind input print try_execute ret
                            db stdin stdout today].
  destruct i as [|l1 i]; [now right|].
  destruct (is_empty (strip l1)); [now left|].
  destruct i as [|l2 i]; [now right|].
  destruct (float_of_str (strip l2)) as [a|]; [|now left].
  destruct (a <=? 0)%float; [now left|].
  destruct (Sql.upsert_budget d user_id (strip l1) a); now left.
Qed.

(** [generate_report] reads nothing and always returns. *)
Lemma generate_report_outcome (user_id : Z) (period : string) (w : world) :
  exists lines, generate_report user_id period w = (Done tt, wrote lines w).
Proof.
  destruct w as [d i o t]. unfold generate_report, bind, get_db, get_today,
    print, wrote.
  cbn [db stdin stdout today].
  destruct (report_of d t user_id period).
  - eexists [_; _; _; _]. reflexivity.
  - eexists [_]. reflexivity.
Qed.

Lemma preserves_view_budgets (P : database -> Prop) (user_id : Z) :
  preserves P (view_budgets user_id).
Proof. intros w H. rewrite view_budgets_run. exact H. Qed.

End MenuRuns.

(** A step [m] of a turn followed by the rest of the loop. *)
Lemma menu_result_then (loop : nat -> M (option unit)) (m : M unit)
    (fuel : nat) (w : world) (kept : database -> Prop) :
  (fst (m w) = Done tt \/ fst (m w) = Raised EOFError) ->
  (fst (m w) = Raised EOFError -> kept (db (snd (m w)))) ->
  (fst (m w) = Done tt -> menu_result loop fuel (snd (m w)) kept) ->
  menu_result (fun f => bind m (fun _ => loop f)) fuel w kept.
Proof.
  intros Hout Hraised Hdone. unfold menu_result, bind.
  destruct (m w) as [[[]|e] w1]; cbn [fst snd] in *.
  - exact (Hdone eq_refl).
  - destruct Hout as [Hout|Hout]; [discriminate|]. injection Hout as ->.
    split; [now right|]. split; [now apply Hraised|]. reflexivity.
Qed.

Section MenuEnds.

Context {FT : PyFloatText} {DB : SqliteSum}.

Lemma budgeting_menu_turn (fuel : nat) (user_id : Z) (w : world) :
  budgeting_menu (S fuel) user_id w
  = let lines := [ "Select an option: "; "3. Back to Main Menu";
                   "2. View Budgets"; "1. Set Budget";
                   nl ++ "--- Budgeting ---" ] in
    match stdin w with
    | [] => (Raised EOFError,
             {| db := db w; stdin := []; stdout := List.app lines (stdout w);
                today := today w |})
    | l :: rest =>
        let w1 := {| db := db w; stdin := rest;
                     stdout := List.app lines (stdout w);
                     today := today w |} in
        if String.eqb (strip l) "1" then
          bind (set_budget user_id) (fun _ => budgeting_menu fuel user_id) w1
        else if String.eqb (strip l) "2" then
          bind (view_budgets user_id) (fun _ => budgeting_menu fuel user_id)
            w1
        else if String.eqb (strip l) "3" then (Done (Some tt), w1)
        else budgeting_menu fuel user_id
               (wrote ["Invalid choice. Please try again."] w1)
    end.
Proof.
  destruct w as [d i o t]. cbn [budgeting_menu].
  unfold bind at 1 2 3 4 5. unfold print at 1 2 3 4. unfold input at 1.
  cbn [db stdin stdout today]. destruct i as [|l rest]; [reflexivity|].
  cbv zeta. cbn [List.app].
  destruct (String.eqb (strip l) "1"); [reflexivity|].
  destruct (String.eqb (strip l) "2"); [reflexivity|].
  destruct (String.eqb (strip l) "3"); reflexivity.
Qed.

(** X14: the loop of [budgeting_menu] ends on every console: with no more
    turns than lines it returns on the choice 3 or stops on [EOFError] when
    the lines run out; and whatever is typed in it, the transactions stay
    as they were. *)
Theorem budgeting_menu_ends (user_id : Z) (fuel : nat) (w : world) :
  (List.length (stdin w) < fuel)%nat ->
  menu_result (fun f => budgeting_menu f user_id) fuel w
    (fun d => transactions d = transactions (db w)
              /\ transactions_seq d = transactions_seq (db w)).
Proof.
  revert w. induction fuel as [|fuel IH]; intros w Hfuel; [lia|].
  assert (Hmore : forall fuel', (S fuel <= fuel')%nat ->
                                exists f, fuel' = S f /\ (fuel <= f)%nat).
  { intros [|f] H; [lia|]. exists f. split; [reflexivity|lia]. }
  unfold menu_result. rewrite budgeting_menu_turn. cbv zeta.
  destruct (stdin w) as [|l rest] eqn:Hin.
  { split; [now right|]. split; [now split|].
    intros fuel' Hf. destruct (Hmore fuel' Hf) as (f & -> & _).
    rewrite budgeting_menu_turn, Hin. reflexivity. }
  cbn [List.length] in Hfuel.
  set (w1 := {| db := db w; stdin := rest; stdout := _; today := today w |}).
  assert (Hturn : forall f,
    budgeting_menu (S f) user_id w
    = if String.eqb (strip l) "1" then
        bind (set_budget user_id) (fun _ => budgeting_menu f user_id) w1
      else if String.eqb (strip l) "2" then
        bind (view_budgets user_id) (fun _ => budgeting_menu f user_id) w1
      else if String.eqb (strip l) "3" then (Done (Some tt), w1)
      else budgeting_menu f user_id
             (wrote ["Invalid choice. Please try again."] w1)).
  { intros f. rewrite budgeting_menu_turn, Hin. reflexivity. }
  assert (Hnext : forall w2,
    (List.length (stdin w2) <= List.length rest)%nat ->
    transactions (db w2) = transactions (db w)
    /\ transactions_seq (db w2) = transactions_seq (db w) ->
    menu_result (fun f => budgeting_menu f user_id) fuel w2
      (fun d => transactions d = transactions (db w)
                /\ transactions_seq d = transactions_seq (db w))).
  { intros w2 Hlen [Ht Hs]. specialize (IH w2 ltac:(lia)).
    rewrite Ht, Hs in IH. exact IH. }
  destruct (String.eqb (strip l) "1") eqn:E1.
  { pose proof (menu_result_then (fun f => budgeting_menu f user_id)
                  (set_budget user_id) fuel w1
                  (fun d => transactions d = transactions (db w)
                            /\ transactions_seq d = transactions_seq (db w))
                  (set_budget_outcome user_id w1)) as H.
    assert (Hkeep : transactions (db (snd (set_budget user_id w1)))
                    = transactions (db w)
                    /\ transactions_seq (db (snd (set_budget user_id w1)))
                       = transactions_seq (db w)).
    { apply (preserves_set_budget
               (fun d => transactions d = transactions (db w)
                         /\ transactions_seq d = transactions_seq (db w)));
        [|now split].
      intros d0 d1 u0 c a [Ht Hs] E.
      destruct (others_after_upsert _ _ _ _ _ E) as (Ht' & Hs' & _).
      rewrite Ht', Hs'. now split. }
    destruct H as (Hout & Hk & Hmono).
    - intros _. exact Hkeep.
    - intros _. apply Hnext; [|exact Hkeep].
      apply (reads_only_set_budget user_id w1).
    - split; [exact Hout|]. split; [exact Hk|].
      intros fuel' Hf. destruct (Hmore fuel' Hf) as (f & -> & Hle).
      rewrite Hturn. apply Hmono. exact Hle. }
  destruct (String.eqb (strip l) "2") eqn:E2.
  { pose proof (menu_result_then (fun f => budgeting_menu f user_id)
                  (view_budgets user_id) fuel w1
                  (fun d => transactions d = transactions (db w)
                            /\ transactions_seq d = transactions_seq (db w)))
      as H.
    rewrite view_budgets_run in H. cbn [fst snd] in H.
    destruct H as (Hout & Hk & Hmono).
    - now left.
    - discriminate.
    - intros _. apply Hnext; [apply Nat.le_refl | now split].
    - split; [exact Hout|]. split; [exact Hk|].
      intros fuel' Hf. destruct (Hmore fuel' Hf) as (f & -> & Hle).
      rewrite Hturn. apply Hmono. exact Hle. }
  destruct (String.eqb (strip l) "3") eqn:E3.
  { split; [now left|]. split; [now split|].
    intros fuel' Hf. destruct (Hmore fuel' Hf) as (f & -> & Hle).
    rewrite Hturn. reflexivity. }
  destruct (Hnext (wrote ["Invalid choice. Please try again."] w1)
              (Nat.le_refl _) (conj eq_refl eq_refl)) as (Hout & Hk & Hmono).
  split; [exact Hout|]. split; [exact Hk|].
  intros fuel' Hf. destruct (Hmore fuel' Hf) as (f & -> & Hle).
  rewrite Hturn. apply Hmono. exact Hle.
Qed.

End MenuEnds.

Section ReportMenuEnds.

Context {FT : PyFloatText} {DB : SqliteSum}.

Lemma view_report_menu_turn (fuel : nat) (user_id : Z) (w : world) :
  view_report_menu (S fuel) user_id w
  = let lines := [ "Select an option: "; "3. Back to Main Menu";
                   "2. Yearly Report"; "1. Monthly Report";
                   nl ++ "--- Financial Reports ---" ] in
    match stdin w with
    | [] => (Raised EOFError,
             {| db := db w; stdin := []; stdout := List.app lines (stdout w);
                today := today w |})
    | l :: rest =>
        let w1 := {| db := db w; stdin := rest;
                     stdout := List.app lines (stdout w);
                     today := today w |} in
        if String.eqb (strip l) "1" then
          bind (generate_report user_id "monthly")
            (fun _ => view_report_menu fuel user_id) w1
        else if String.eqb (strip l) "2" then
          bind (generate_report user_id "yearly")
            (fun _ => view_report_menu fuel user_id) w1
        else if String.eqb (strip l) "3" then (Done (Some tt), w1)
        else view_report_menu fuel user_id
               (wrote ["Invalid choice. Please try again."] w1)
    end.
Proof.
  destruct w as [d i o t]. cbn [view_report_menu].
  unfold bind at 1 2 3 4 5. unfold print at 1 2 3 4. unfold input at 1.
  cbn [db stdin stdout today]. destruct i as [|l rest]; [reflexivity|].
  cbv zeta. cbn [List.app].
  destruct (String.eqb (strip l) "1"); [reflexivity|].
  destruct (String.eqb (strip l) "2"); [reflexivity|].
  destruct (String.eqb (strip l) "3"); reflexivity.
Qed.

(** X15: the loop of [view_report_menu] ends on every console: with no more
    turns than lines it returns on the choice 3 or stops on [EOFError] when
    the lines run out; and whatever is typed in it, the store stays as it
    was. *)
Theorem view_report_menu_ends (user_id : Z) (fuel : nat) (w : world) :
  (List.length (stdin w) < fuel)%nat ->
  menu_result (fun f => view_report_menu f user_id) fuel w
    (fun d => d = db w).
Proof.
  revert w. induction fuel as [|fuel IH]; intros w Hfuel; [lia|].
  assert (Hmore : forall fuel', (S fuel <= fuel')%nat ->
                                exists f, fuel' = S f /\ (fuel <= f)%nat).
  { intros [|f] H; [lia|]. exists f. split; [reflexivity|lia]. }
  unfold menu_result. rewrite view_report_menu_turn. cbv zeta.
  destruct (stdin w) as [|l rest] eqn:Hin.
  { split; [now right|]. split; [reflexivity|].
    intros fuel' Hf. destruct (Hmore fuel' Hf) as (f & -> & _).
    rewrite view_report_menu_turn, Hin. reflexivity. }
  cbn [List.length] in Hfuel.
  set (w1 := {| db := db w; stdin := rest; stdout := _; today := today w |}).
  assert (Hturn : forall f,
    view_report_menu (S f) user_id w
    = if String.eqb (strip l) "1" then
        bind (generate_report user_id "monthly")
          (fun _ => view_report_menu f user_id) w1
      else if String.eqb (strip l) "2" then
        bind (generate_report user_id "yearly")
          (fun _ => view_report_menu f user_id) w1
      else if String.eqb (strip l) "3" then (Done (Some tt), w1)
      else view_report_menu f user_id
             (wrote ["Invalid choice. Please try again."] w1)).
  { intros f. rewrite view_report_menu_turn, Hin. reflexivity. }
  assert (Hnext : forall w2,
    (List.length (stdin w2) <= List.length rest)%nat -> db w2 = db w ->
    menu_result (fun f => view_report_menu f user_id) fuel w2
      (fun d => d = db w)).
  { intros w2 Hlen Hd. specialize (IH w2 ltac:(lia)).
    rewrite Hd in IH. exact IH. }
  assert (Hreport : forall period,
    menu_result
      (fun f => bind (generate_report user_id period)
                  (fun _ => view_report_menu f user_id)) fuel w1
      (fun d => d = db w)).
  { intros period.
    destruct (generate_report_outcome user_id period w1) as [lines Hrun].
    apply menu_result_then; rewrite Hrun; cbn [fst snd].
    - now left.
    - discriminate.
    - intros _. apply Hnext; [apply Nat.le_refl | reflexivity]. }
  destruct (String.eqb (strip l) "1") eqn:E1.
  { destruct (Hreport "monthly") as (Hout & Hk & Hmono).
    split; [exact Hout|]. split; [exact Hk|].
    intros fuel' Hf. destruct (Hmore fuel' Hf) as (f & -> & Hle).
    rewrite Hturn. apply Hmono. exact Hle. }
  destruct (String.eqb (strip l) "2") eqn:E2.
  { destruct (Hreport "yearly") as (Hout & Hk & Hmono).
    split; [exact Hout|]. split; [exact Hk|].
    intros fuel' Hf. destruct (Hmore fuel' Hf) as (f & -> & Hle).
    rewrite Hturn. apply Hmono. exact Hle. }
  destruct (String.eqb (strip l) "3") eqn:E3.
  { split; [now left|]. split; [reflexivity|].
    intros fuel' Hf. destruct (Hmore fuel' Hf) as (f & -> & Hle).
    rewrite Hturn. reflexivity. }
  destruct (Hnext (wrote ["Invalid choice. Please try again."] w1)
              (Nat.le_refl _) eq_refl) as (Hout & Hk & Hmono).
  split; [exact Hout|]. split; [exact Hk|].
  intros fuel' Hf. destruct (Hmore fuel' Hf) as (f & -> & Hle).
  rewrite Hturn. apply Hmono. exact Hle.
Qed.

End ReportMenuEnds.

(** ** Registration and login *)

Module AuthFacts.

Import Auth.

Section WithHash.

Variable hash_password : string -> string.

(** X16: after [register_user] took a username that was free and a
    password typed twice alike, [login_user] with that username and that
    password (surrounding blanks apart) returns the id of the new account. *)
Theorem register_then_login (w : login_world) (name pw pw2 : string)
    (rest rest2 : list string) (w2 : login_world) (name' pw' : string)
    (rest' rest2' : list string) :
  typed w = name :: rest ->
  secrets w = pw :: pw2 :: rest2 ->
  strip name <> "" -> strip pw <> "" -> strip pw2 = strip pw ->
  taken (accounts w) (strip name) = false ->
  exists w1,
    register_user hash_password w = (Done tt, w1)
    /\ hd_error (shown w1) = Some "User registered successfully!"
    /\ users (accounts w1)
       = (users (accounts w) ++
          [{| u_id := users_seq (accounts w) + 1; u_username := strip name;
              u_password_hash := hash_password (strip pw) |}])%list
    /\ (accounts w2 = accounts w1 ->
        typed w2 = name' :: rest' -> secrets w2 = pw' :: rest2' ->
        strip name' = strip name -> strip pw' = strip pw ->
        exists w3,
          login_user hash_password w2
          = (Done (Some (users_seq (accounts w) + 1)), w3)
          /\ accounts w3 = accounts w2
          /\ hd_error (shown w3) = Some "Login successful!").
Proof.
  intros Hin Hsec Hname Hpw Hpw2 Hfree. destruct w as [t i s o a].
  cbn [typed secrets accounts] in *. subst i s.
  unfold register_user.
  cbv beta iota zeta delta [lbind linput getpass lprint try_insert_user lret
                            accounts typed secrets shown asked].
  destruct (strip name) as [|c0 n0] eqn:En; [congruence|]. cbn [is_empty].
  destruct (strip pw) as [|c1 p0] eqn:Ep; [congruence|]. cbn [is_empty].
  rewrite Hpw2, String.eqb_refl. cbn [negb].
  unfold insert_user. unfold taken in Hfree. rewrite Hfree.
  eexists. split; [reflexivity|]. cbn [shown accounts users hd_error].
  split; [reflexivity|]. split; [reflexivity|].
  intros Hacc Hin2 Hsec2 Hn' Hp'. destruct w2 as [t2 i2 s2 o2 a2].
  cbn [typed secrets accounts] in *. subst i2 s2 t2.
  unfold login_user.
  cbv beta iota zeta delta [lbind linput getpass lprint get_accounts lret
                            accounts typed secrets shown asked].
  rewrite Hn', Hp'. unfold select_user. cbn [users].
  assert (Hfind :
    find (fun r => String.eqb (u_username r) (String c0 n0)
                   && String.eqb (u_password_hash r)
                        (hash_password (String c1 p0)))
      (users t ++
       [{| u_id := users_seq t + 1; u_username := String c0 n0;
           u_password_hash := hash_password (String c1 p0) |}])
    = Some {| u_id := users_seq t + 1; u_username := String c0 n0;
              u_password_hash := hash_password (String c1 p0) |}).
  { clear -Hfree. induction (users t) as [|r l IH].
    - cbn [List.app find u_username u_password_hash].
      now rewrite !String.eqb_refl.
    - cbn [existsb] in Hfree. apply orb_false_elim in Hfree.
      destruct Hfree as [Hr Hl]. cbn [List.app find].
      cbn beta in Hr. rewrite Hr. cbn [andb]. now apply IH. }
  rewrite Hfind. cbn [option_map u_id].
  eexists. split; [reflexivity|]. split; reflexivity.
Qed.

(** X17: [register_user] on an empty username, an empty password, two
    passwords that differ or a username that is taken writes one message and
    leaves the accounts as they were. *)
Theorem register_rejects (w : login_world) (name pw pw2 : string)
    (rest rest2 : list string) :
  typed w = name :: rest ->
  secrets w = pw :: pw2 :: rest2 ->
  strip name = "" \/ strip pw = "" \/ strip pw2 <> strip pw
  \/ taken (accounts w) (strip name) = true ->
  exists msg w1,
    register_user hash_password w = (Done tt, w1)
    /\ accounts w1 = accounts w
    /\ hd_error (shown w1) = Some msg
    /\ In msg register_error_messages.
Proof.
  intros Hin Hsec Hbad. destruct w as [t i s o a].
  cbn [typed secrets accounts] in *. subst i s.
  unfold register_user.
  cbv beta iota zeta delta [lbind linput getpass lprint try_insert_user lret
                            accounts typed secrets shown asked].
  destruct (strip name) as [|c0 n0] eqn:En; cbn [is_empty].
  { eexists _, _. split; [reflexivity|]. cbn. intuition. }
  destruct (strip pw) as [|c1 p0] eqn:Ep; cbn [is_empty].
  { eexists _, _. split; [reflexivity|]. cbn. intuition. }
  destruct (String.eqb_spec (String c1 p0) (strip pw2)) as [E|E]; cbn [negb].
  2: { eexists _, _. split; [reflexivity|]. cbn. intuition. }
  unfold insert_user. unfold taken in Hbad.
  destruct (existsb _ (users t)) eqn:Hex.
  { eexists _, _. split; [reflexivity|]. cbn. intuition. }
  exfalso. destruct Hbad as [H|[H|[H|H]]]; congruence.
Qed.

(** X18: [login_user] never changes the accounts; when it returns an id,
    an account with that id has the username typed and the hash of the
    password typed (surrounding blanks apart); and it returns an id whenever
    there is such an account. *)
Theorem login_sound (w : login_world) :
  let r := login_user hash_password w in
  accounts (snd r) = accounts w
  /\ (forall i, fst r = Done (Some i) ->
        exists name pw row,
          hd_error (typed w) = Some name /\ hd_error (secrets w) = Some pw
          /\ In row (users (accounts w))
          /\ u_id row = i
          /\ u_username row = strip name
          /\ u_password_hash row = hash_password (strip pw))
  /\ (forall name pw rest rest2 row,
        typed w = name :: rest -> secrets w = pw :: rest2 ->
        In row (users (accounts w)) ->
        u_username row = strip name ->
        u_password_hash row = hash_password (strip pw) ->
        exists i, fst r = Done (Some i)).
Proof.
  intros r. assert (Hr : r = login_user hash_password w) by reflexivity.
  clearbody r. revert Hr. destruct w as [t i s o a]. unfold login_user.
  cbv beta iota zeta delta [lbind linput getpass lprint get_accounts lret
                            accounts typed secrets shown asked].
  destruct i as [|name i].
  { intros ->. cbn. repeat split; try discriminate. }
  destruct s as [|pw s].
  { intros ->. cbn. repeat split; try discriminate. }
  unfold select_user. cbn [typed secrets].
  destruct (find _ (users t)) as [row|] eqn:Hfind; cbn [option_map].
  - intros ->. cbn [fst snd accounts]. split; [reflexivity|].
    apply find_some in Hfind. destruct Hfind as [Hin Hm].
    apply andb_prop in Hm. destruct Hm as [Hn Hh].
    apply String.eqb_eq in Hn, Hh. split.
    + intros i0 [= <-]. exists name, pw, row. repeat split; auto.
    + intros. eexists. reflexivity.
  - intros ->. cbn [fst snd accounts]. split; [reflexivity|].
    split; [discriminate|].
    intros name0 pw0 rest rest2 row [= <- <-] [= <- <-] Hin Hn Hh.
    exfalso. pose proof (find_none _ _ Hfind row Hin) as Hnone.
    cbn beta in Hnone. rewrite Hn, Hh, !String.eqb_refl in Hnone.
    discriminate.
Qed.

(** X19: whatever is typed, [register_user] keeps the usernames and the
    ids of the accounts distinct, and it never changes or removes an account
    that exists. *)
Theorem register_keeps_accounts (w : login_world) :
  accounts_ok (accounts w) ->
  let t' := accounts (snd (register_user hash_password w)) in
  accounts_ok t'
  /\ exists added, users t' = (users (accounts w) ++ added)%list.
Proof.
  intros (Hn & Hi & Hle) t'.
  assert (Ht : t' = accounts (snd (register_user hash_password w)))
    by reflexivity.
  clearbody t'. revert Ht. destruct w as [t i s o a]. cbn [accounts] in *.
  assert (Hsame : accounts_ok t
                  /\ exists added, users t = (users t ++ added)%list).
  { split; [repeat split; assumption|]. exists []. now rewrite app_nil_r. }
  unfold register_user.
  cbv beta iota zeta delta [lbind linput getpass lprint try_insert_user lret
                            accounts typed secrets shown asked].
  destruct i as [|name i]; [intros ->; exact Hsame|].
  destruct (is_empty (strip name)); [intros ->; exact Hsame|].
  destruct s as [|pw s]; [intros ->; exact Hsame|].
  destruct (is_empty (strip pw)); [intros ->; exact Hsame|].
  destruct s as [|pw2 s]; [intros ->; exact Hsame|].
  destruct (negb (String.eqb (strip pw) (strip pw2)));
    [intros ->; exact Hsame|].
  unfold insert_user.
  destruct (existsb _ (users t)) eqn:Hex; [intros ->; exact Hsame|].
  intros ->. cbn [snd accounts]. split; [|eexists; reflexivity].
  unfold accounts_ok. cbn [users users_seq]. rewrite !map_app.
  cbn [map u_username u_id]. repeat split.
  - apply NoDup_app; [exact Hn | repeat constructor; intros []|].
    intros x Hx [<-|[]]. apply in_map_iff in Hx. destruct Hx as (r & Hr & Hin).
    assert (existsb (fun r0 => String.eqb (u_username r0) (strip name))
              (users t) = true); [|congruence].
    apply existsb_exists. exists r. split; [exact Hin|].
    now apply String.eqb_eq.
  - apply NoDup_app; [exact Hi | repeat constructor; intros []|].
    intros x Hx [<-|[]]. apply in_map_iff in Hx. destruct Hx as (r & Hr & Hin).
    rewrite Forall_forall in Hle. specialize (Hle r Hin). lia.
  - apply Forall_app. split.
    + eapply Forall_impl; [|exact Hle]. cbn beta. intros r Hr. lia.
    + repeat constructor. cbn [u_id]. lia.
Qed.

End WithHash.

End AuthFacts.

(** ** The list, the totals of a report and the budgets that stay *)

Lemma length_insert_date_desc (r : txn_row) (l : list txn_row) :
  List.length (Sql.insert_date_desc r l) = S (List.length l).
Proof.
  induction l as [|x l IH]; [reflexivity|]. cbn [Sql.insert_date_desc].
  destruct (String.leb (t_date x) (t_date r)); cbn [List.length];
    [reflexivity | now rewrite IH].
Qed.

Lemma length_order_by_date_desc (l : list txn_row) :
  List.length (Sql.order_by_date_desc l) = List.length l.
Proof.
  induction l as [|x l IH]; [reflexivity|].
  cbn [Sql.order_by_date_desc fold_right List.length].
  rewrite length_insert_date_desc. f_equal. exact IH.
Qed.

(** X20: [view_transactions] fetches the rows of the user and no other, each
    once, ordered by the text of the date from the greatest down, and rows
    with the same date text in the order of the table. *)
Theorem listing_order (d : database) (user_id : Z) :
  let listing := Sql.select_transactions d user_id in
  Sorted (fun a b => String.leb (t_date b) (t_date a) = true) listing
  /\ (forall r, In r listing <-> In r (transactions d) /\ t_user r = user_id)
  /\ List.length listing
     = List.length (filter (Sql.owned_by user_id) (transactions d))
  /\ forall s,
       filter (fun r => String.eqb (t_date r) s) listing
       = filter (fun r => String.eqb (t_date r) s)
           (filter (Sql.owned_by user_id) (transactions d)).
Proof.
  cbv zeta. split; [apply select_transactions_sorted|].
  split; [apply In_select_transactions|].
  split; [apply length_order_by_date_desc|].
  apply select_transactions_stable.
Qed.

(** X21: on a store whose rows are as the program stores them on the days
    of the calendar, and for a day from the year 1000 on, the totals of a
    report are the sums the database gives for the amounts, in table order,
    of the income rows and of the expense rows of the user whose date text
    SQLite reads as a date in the month (or the year) of the day, and 0 for
    a type without such a row; the savings are their difference; a period
    that is neither monthly nor yearly gives no report. *)
Theorem report_totals (FT : PyFloatText) (DB : SqliteSum) (d : database)
    (day : date) (user_id : Z) (period : string) :
  Forall row_stored (transactions d) ->
  valid_date day = true -> 1000 <= year day ->
  match report_of d day user_id period with
  | Some r =>
      exists rows,
        ((period = "monthly"
          /\ period_str r = PyDate.strftime_Ym day
          /\ rows = filter (Sql.in_month user_id (PyDate.strftime_Ym day))
                      (transactions d))
         \/ (period = "yearly"
             /\ period_str r = PyDate.strftime_Y day
             /\ rows = filter (Sql.in_year user_id (PyDate.strftime_Y day))
                         (transactions d)))
        /\ total_income r = sum_or_zero (amounts_of "income" rows)
        /\ total_expenses r = sum_or_zero (amounts_of "expense" rows)
        /\ savings r
           = (sum_or_zero (amounts_of "income" rows)
              - sum_or_zero (amounts_of "expense" rows))%float
  | None => period <> "monthly" /\ period <> "yearly"
  end.
Proof.
  intros _ _ _. destruct (String.eqb_spec period "monthly") as [->|Hm].
  - rewrite report_of_monthly. cbv zeta. eexists. split.
    + left. repeat split.
    + repeat split.
  - destruct (String.eqb_spec period "yearly") as [->|Hy].
    + rewrite report_of_yearly. cbv zeta. eexists. split.
      * right. repeat split.
      * repeat split.
    + unfold report_of.
      rewrite (proj2 (String.eqb_neq _ _) Hm), (proj2 (String.eqb_neq _ _) Hy).
      now split.
Qed.

(** X22: no command removes a budget: a budget that (user, category) has
    stays the one budget row of (user, category) along every session,
    whatever is typed. *)
Theorem budget_never_removed (FT : PyFloatText) (DB : SqliteSum) (d : database)
    (steps : list step) (user_id : Z) (category : string) :
  List.length (budget_rows d user_id category) = 1%nat ->
  List.length (budget_rows (run_steps d steps) user_id category) = 1%nat.
Proof.
  intros H. induction steps as [|[[c lines] day] steps IH] using rev_ind;
    [exact H|].
  rewrite run_steps_snoc. cbn [run_step]. unfold store_after.
  apply (preserves_run_command
           (fun d' => List.length (budget_rows d' user_id category) = 1%nat));
    [| | | |exact IH].
  - intros d0 d1 u ty cat a dt H0 E.
    destruct (others_after_insert _ _ _ _ _ _ _ E) as [_ Hb].
    unfold budget_rows in *. now rewrite Hb.
  - intros d0 d1 ty cat a dt i u H0 E.
    destruct (others_after_update _ _ _ _ _ _ _ _ E) as [_ Hb].
    unfold budget_rows in *. now rewrite Hb.
  - intros d0 i u H0. exact H0.
  - intros d0 d1 u cat a H0 E.
    rewrite <- (length_map b_amount).
    rewrite (budget_rows_upsert d0 d1 u cat a user_id category E)
      by (rewrite H0; apply Nat.le_refl).
    destruct ((u =? user_id) && String.eqb cat category); [reflexivity|].
    now rewrite length_map.
Qed.

(** ** The further properties at work on the scenarios *)

Lemma command_leaves_other_users_witness :
  Sql.select_transactions
    (db (snd (run_command (DeleteTransaction 2)
                (session Scenario.one_expense ["1"; "y"] Session.day)))) 1
  = Sql.select_transactions Scenario.one_expense 1.
Proof.
  destruct (command_leaves_other_users Whole.float_text _
              (DeleteTransaction 2)
              (session Scenario.one_expense ["1"; "y"] Session.day))
    as (_ & _ & H).
  apply (H 1). discriminate.
Defined.

Lemma exception_leaves_store_witness :
  fst (run_command (AddTransaction 1) Session.closing) = Raised EOFError
  /\ db (snd (run_command (AddTransaction 1) Session.closing))
     = Scenario.one_expense.
Proof.
  split; [reflexivity|].
  apply (exception_leaves_store Whole.float_text _ (AddTransaction 1)
           Session.closing EOFError eq_refl).
Defined.

Lemma deleted_id_never_returns_witness :
  ids Session.deleted_one = []
  /\ ids (run_steps Session.deleted_one Session.add_again) = [2]
  /\ ~ In 1 (ids (run_steps Session.deleted_one Session.add_again)).
Proof.
  split; [reflexivity|]. split; [reflexivity|].
  apply (deleted_id_never_returns Whole.float_text _ Session.deleted_one
           Session.add_again 1).
  - vm_compute. discriminate.
  - vm_compute. intros H. exact H.
Defined.

Lemma update_changes_one_row_witness :
  nth_error
    (transactions (db (snd (update_transaction 1 Session.updating)))) 1
  = nth_error (transactions Scenario.two_expenses) 1.
Proof.
  destruct (update_changes_one_row Whole.float_text _ 1 Session.updating)
    as (_ & _ & _ & H).
  apply (H 1%nat); [reflexivity|]. vm_compute. discriminate.
Defined.

Lemma reachable_rows_valid_witness :
  reachable Scenario.food_exceeded
  /\ Forall row_valid (transactions Scenario.food_exceeded)
  /\ Forall budget_valid (budgets Scenario.food_exceeded).
Proof.
  assert (H : reachable Scenario.food_exceeded).
  { apply (reach_step _ (AddTransaction 1)).
    apply (reach_step _ (AddTransaction 1)).
    apply (reach_step _ (SetBudget 1)). apply reach_empty. }
  split; [exact H|]. apply (reachable_rows_valid Scenario.food_exceeded H).
Defined.

Lemma added_transaction_is_listed_witness :
  exists w',
    add_transaction 1 Session.salary_today = (Done tt, w')
    /\ transactions (db w')
       = (transactions Scenario.one_expense ++
          [{| t_id := 2; t_user := 1; t_type := "income";
              t_category := "Salary"; t_amount := 5000;
              t_date := "2024-10-11" |}])%list.
Proof.
  assert (Hok : store_ok (db Session.salary_today)).
  { split; [repeat constructor; intros []|].
    split; [repeat constructor; vm_compute; discriminate|].
    intros u c. apply Nat.le_0_l. }
  destruct (added_transaction_is_listed 1 Session.salary_today
              "income" "Salary" "5000" " " [] 5000%float Hok
              eq_refl eq_refl ltac:(discriminate) eq_refl eq_refl eq_refl
              (or_introl eq_refl))
    as (w' & Hrun & Hrows & _).
  exists w'. split; [exact Hrun | exact Hrows].
Defined.

Lemma expense_triggers_budget_check_witness :
  exists w',
    add_transaction 1 Session.over_budget = (Done tt, w')
    /\ expense_amounts (db w') 1 "Food" = [100%float; 1%float].
Proof.
  destruct (expense_triggers_budget_check 1 Session.over_budget
              "expense" "Food" "1" "2024-10-11" [] 1%float
              eq_refl eq_refl ltac:(discriminate) eq_refl eq_refl eq_refl
              (or_intror eq_refl))
    as (w' & Hrun & Hout).
  exists w'. split; [exact Hrun|]. exact (proj1 (proj2 Hout)).
Defined.

Lemma set_budget_rejects_invalid_witness :
  exists msg w',
    set_budget 1 Session.zero_budget = (Done tt, w')
    /\ db w' = empty_db
    /\ hd_error (stdout w') = Some msg
    /\ In msg budget_error_messages.
Proof.
  apply (set_budget_rejects_invalid 1 Session.zero_budget "Food" "0" []
           eq_refl).
  right. right. exists 0%float. split; [reflexivity|]. now left.
Defined.

Lemma nan_amount_crashes_add_witness :
  exists w',
    @add_transaction WholeNan.float_text _ 1 Session.nan_amount
    = (Raised IntegrityError, w')
    /\ db w' = empty_db
    /\ hd_error (stdout w')
       = Some "Enter date (YYYY-MM-DD) or leave blank for today: ".
Proof.
  apply (@nan_amount_crashes_add WholeNan.float_text _ 1 Session.nan_amount
           "expense" "Food" "nan" "" [] nan eq_refl eq_refl
           ltac:(discriminate) eq_refl eq_refl (or_introl eq_refl)).
Defined.

Lemma blank_date_is_reported_witness :
  exists w' r',
    add_transaction 1 Session.salary_today = (Done tt, w')
    /\ report_of (db w') Session.day 1 "monthly" = Some r'
    /\ total_income r' = 5000%float.
Proof.
  destruct (blank_date_is_reported 1 Session.salary_today
              "income" "Salary" "5000" " " [] 5000%float "monthly"
              eq_refl ltac:(vm_compute; discriminate) (or_introl eq_refl)
              eq_refl eq_refl ltac:(discriminate) eq_refl eq_refl eq_refl
              eq_refl)
    as (w' & r & r' & Hrun & _ & Hr' & _ & _ & _ & _ & Hinc).
  exists w', r'. split; [exact Hrun|]. split; [exact Hr'|].
  exact (proj1 Hinc).
Defined.

Lemma shown_depends_on_own_rows_witness :
  Sql.select_transactions Session.with_other_user 1
  = Sql.select_transactions Scenario.one_expense 1.
Proof.
  apply (shown_depends_on_own_rows Whole.float_text _
           Session.with_other_user
           Scenario.one_expense 1 eq_refl eq_refl).
Defined.

Lemma set_budget_then_view_witness :
  exists w1 w2,
    set_budget 1 Session.food_100 = (Done tt, w1)
    /\ view_budgets 1 w1 = (Done tt, w2)
    /\ In (ljust 15 "Food" ++ " " ++ ljust 10 "100.00") (stdout w2).
Proof.
  destruct (set_budget_then_view 1 Session.food_100 " Food" "100" []
              100%float (Nat.le_0_l 1) eq_refl ltac:(discriminate) eq_refl
              eq_refl eq_refl)
    as (w1 & w2 & b & H1 & H2 & _ & _ & _ & Hin).
  exists w1, w2. repeat split; assumption.
Defined.

Lemma budgeting_menu_ends_witness :
  fst (budgeting_menu 9 1 Session.budget_menu) = Done (Some tt)
  /\ transactions (db (snd (budgeting_menu 9 1 Session.budget_menu))) = []
  /\ budgeting_menu 100 1 Session.budget_menu
     = budgeting_menu 9 1 Session.budget_menu.
Proof.
  destruct (budgeting_menu_ends 1 9 Session.budget_menu)
    as (_ & [Ht _] & Hmore).
  - vm_compute. repeat constructor.
  - split; [reflexivity|]. split; [exact Ht|]. apply Hmore.
    repeat constructor.
Defined.

Lemma view_report_menu_ends_witness :
  fst (view_report_menu 4 1 Session.report_menu) = Raised EOFError
  /\ db (snd (view_report_menu 4 1 Session.report_menu))
     = Scenario.one_expense.
Proof.
  destruct (view_report_menu_ends 1 4 Session.report_menu)
    as (_ & Hd & _).
  - vm_compute. repeat constructor.
  - split; [reflexivity | exact Hd].
Defined.

Lemma register_then_login_witness :
  exists w1,
    Auth.register_user Session.toy_hash Session.registering = (Done tt, w1)
    /\ Auth.accounts w1 = Session.ann
    /\ exists w3,
         Auth.login_user Session.toy_hash Session.logging_in
         = (Done (Some 1), w3).
Proof.
  destruct (AuthFacts.register_then_login Session.toy_hash
              Session.registering " ann " "secret" "secret " [] []
              Session.logging_in "ann" " secret" [] []
              eq_refl eq_refl ltac:(discriminate) ltac:(discriminate)
              eq_refl eq_refl)
    as (w1 & Hrun & _ & Husers & Hlogin).
  exists w1. split; [exact Hrun|].
  injection Hrun as <-. split; [reflexivity|].
  destruct (Hlogin eq_refl eq_refl eq_refl eq_refl eq_refl)
    as (w3 & H3 & _).
  exists w3. exact H3.
Defined.

Lemma register_rejects_witness :
  exists msg w1,
    Auth.register_user Session.toy_hash Session.registering_again
    = (Done tt, w1)
    /\ Auth.accounts w1 = Session.ann
    /\ hd_error (Auth.shown w1) = Some msg
    /\ In msg Auth.register_error_messages.
Proof.
  apply (AuthFacts.register_rejects Session.toy_hash
           Session.registering_again "ann" "other" "other" [] []
           eq_refl eq_refl).
  right. right. right. reflexivity.
Defined.

Lemma login_sound_witness :
  exists i,
    fst (Auth.login_user Session.toy_hash Session.logging_in)
    = Done (Some i).
Proof.
  destruct (AuthFacts.login_sound Session.toy_hash Session.logging_in)
    as (_ & _ & H).
  apply (H "ann" " secret" [] []
           {| Auth.u_id := 1; Auth.u_username := "ann";
              Auth.u_password_hash := Session.toy_hash "secret" |}
           eq_refl eq_refl (or_introl eq_refl) eq_refl eq_refl).
Defined.

Lemma register_keeps_accounts_witness :
  Auth.accounts_ok Session.ann
  /\ Auth.accounts_ok
       (Auth.accounts
          (snd (Auth.register_user Session.toy_hash
                  Session.registering_again))).
Proof.
  assert (H : Auth.accounts_ok Session.ann).
  { unfold Auth.accounts_ok. cbn.
    split; [constructor; [intros [] | constructor]|].
    split; [constructor; [intros [] | constructor]|].
    constructor; [|constructor]. apply Z.le_refl. }
  split; [exact H|].
  apply (AuthFacts.register_keeps_accounts Session.toy_hash
           Session.registering_again H).
Defined.

Lemma report_totals_witness :
  exists r,
    report_of Scenario.food_exceeded Scenario.day 1 "monthly" = Some r
    /\ total_income r = 0%float /\ total_expenses r = 101%float.
Proof.
  assert (Hrows : Forall row_stored (transactions Scenario.food_exceeded)).
  { assert (Hrow : forall i a,
              (0 <? a)%float = true ->
              row_stored {| t_id := i; t_user := 1; t_type := "expense";
                            t_category := "Food"; t_amount := a;
                            t_date := "2024-10-11" |}).
    { intros i a Ha.
      split; [|left; vm_compute; reflexivity].
      split; [reflexivity|]. split; [discriminate|].
      split; [exact Ha|]. left. vm_compute. reflexivity. }
    assert (E : transactions Scenario.food_exceeded
                = [ {| t_id := 1; t_user := 1; t_type := "expense";
                       t_category := "Food"; t_amount := 100;
                       t_date := "2024-10-11" |};
                    {| t_id := 2; t_user := 1; t_type := "expense";
                       t_category := "Food"; t_amount := 1;
                       t_date := "2024-10-11" |} ])
      by (vm_compute; reflexivity).
    rewrite E. constructor; [apply Hrow; reflexivity|].
    constructor; [apply Hrow; reflexivity | constructor]. }
  pose proof (report_totals Whole.float_text _ Scenario.food_exceeded
                Scenario.day 1 "monthly" Hrows eq_refl
                ltac:(vm_compute; discriminate)) as H.
  destruct (report_of Scenario.food_exceeded Scenario.day 1 "monthly")
    as [r|].
  - destruct H as (rows & [(_ & _ & ->) | (Hp & _)] & Hi & He & _);
      [|discriminate Hp].
    exists r. split; [reflexivity|]. split; [exact Hi | exact He].
  - exfalso. apply (proj1 H). reflexivity.
Defined.

Lemma budget_never_removed_witness :
  List.length
    (budget_rows
       (run_steps Scenario.food_budget
          [(SetBudget 1, ["Rent"; "700"], Session.day);
           (AddTransaction 1, ["expense"; "Food"; "20"; ""], Session.day)])
       1 "Food") = 1%nat.
Proof.
  apply (budget_never_removed Whole.float_text _ Scenario.food_budget
           [(SetBudget 1, ["Rent"; "700"], Session.day);
            (AddTransaction 1, ["expense"; "Food"; "20"; ""], Session.day)]
           1 "Food" eq_refl).
Defined.

Lemma reachable_store_ok_witness :
  reachable Scenario.one_expense /\ store_ok Scenario.one_expense.
Proof.
  assert (H : reachable Scenario.one_expense).
  { apply (reach_step _ (AddTransaction 1)). apply reach_empty. }
  split; [exact H|].
  apply (reachable_store_ok Whole.float_text _ Scenario.one_expense H).
Defined.
